(** * Laundry-lab backend: order lifecycle, pricing, assignment and statistics

    A shallow embedding of the order engine of the NestJS/Mongoose backend:
    - [orders/enums/order-status.enum.ts]  (status enum and transition table),
    - [orders/orders.service.ts]           (OrdersService),
    - [orders/schemas/order.schema.ts]     (Order document and its validators),
    - [orders/dto/*.ts]                    (request DTOs),
    - [catalog/catalog.service.ts]         (price and clothing-item lookups),
    - [users/users.service.ts]             (findById, findByPhone, saveOtp, verifyOtp),
    - [auth/auth.service.ts]               (normalizePhone, requestOtp, verifyOtp),
    - [auth/strategies/jwt.strategy.ts]    (validate).

    Modelling conventions.
    - A JS string is the [string] of its UTF-8 bytes.
    - A Mongo [ObjectId] is the [string] of its 24 hexadecimal digits; the
      comparisons [a.toString() === b] of the service are string equalities.
      An id that comes with a request is any string: [findById] casts it to
      an ObjectId and raises a CastError when it does not have that form.
    - JS numbers that hold money, quantities and instants are integers [Z];
      counters produced by [$sum: 1] are [nat].  On integers below 2^53 the
      additions and multiplications of the code are exact, as they are here.
    - The order collection is a finite map from [_id] to the document.  The
      service methods run in a small state-and-exception monad [M] over that
      collection; the catalog, the users and the configuration are only read
      by the order engine and are passed as arguments.
    - [new Date()] is the argument [now]; the [_id] drawn for a new document is
      the argument [newId].
    - [populate] replaces a reference by the referenced user document, whose
      [_id] is that reference; no operation of the repository removes users,
      so the identity comparisons are made on the stored references. *)

From stdpp Require Import gmap strings list fin_maps sorting.

Local Open Scope string_scope.
Local Open Scope Z_scope.

(** ** Enumerations *)

(** [orders/enums/order-status.enum.ts] *)
Inductive OrderStatus : Set :=
  | REQUESTED
  | PICKED_UP
  | IN_LAUNDRY
  | OUT_FOR_DELIVERY
  | DELIVERED
  | CANCELLED.

#[global] Instance OrderStatus_eq_dec : EqDecision OrderStatus.
Proof. solve_decision. Defined.

(** The string value of each enum member, as stored in the database. *)
Definition OrderStatus_value (s : OrderStatus) : string :=
  match s with
  | REQUESTED => "requested"
  | PICKED_UP => "picked_up"
  | IN_LAUNDRY => "in_laundry"
  | OUT_FOR_DELIVERY => "out_for_delivery"
  | DELIVERED => "delivered"
  | CANCELLED => "cancelled"
  end.

Definition all_statuses : list OrderStatus :=
  [REQUESTED; PICKED_UP; IN_LAUNDRY; OUT_FOR_DELIVERY; DELIVERED; CANCELLED].

(** [ORDER_STATUS_TRANSITIONS]: a record indexed by the current status. *)
Definition ORDER_STATUS_TRANSITIONS (currentStatus : OrderStatus) : list OrderStatus :=
  match currentStatus with
  | REQUESTED => [PICKED_UP; CANCELLED]
  | PICKED_UP => [IN_LAUNDRY; CANCELLED]
  | IN_LAUNDRY => [OUT_FOR_DELIVERY]
  | OUT_FOR_DELIVERY => [DELIVERED]
  | DELIVERED => []
  | CANCELLED => []
  end.

(** [Array.prototype.includes] on an array of enum members. *)
Fixpoint includes (l : list OrderStatus) (x : OrderStatus) : bool :=
  match l with
  | [] => false
  | y :: l' => if decide (y = x) then true else includes l' x
  end.

(** [isValidStatusTransition]: every enum member is a key of the table, so
    the [?.] / [?? false] fallback is never taken. *)
Definition isValidStatusTransition (currentStatus newStatus : OrderStatus) : bool :=
  includes (ORDER_STATUS_TRANSITIONS currentStatus) newStatus.

(** [users/enums/user-role.enum.ts] *)
Inductive UserRole : Set := CUSTOMER | DELIVERY | ADMIN.

#[global] Instance UserRole_eq_dec : EqDecision UserRole.
Proof. solve_decision. Defined.

(** [catalog/enums/service-type.enum.ts] *)
Inductive ServiceType : Set := WASHING | IRONING.

#[global] Instance ServiceType_eq_dec : EqDecision ServiceType.
Proof. solve_decision. Defined.

Definition ServiceType_value (s : ServiceType) : string :=
  match s with
  | WASHING => "washing"
  | IRONING => "ironing"
  end.

(** [catalog/enums/clothing-category.enum.ts] *)
Inductive ClothingCategory : Set := MEN | WOMEN | CHILDREN.

#[global] Instance ClothingCategory_eq_dec : EqDecision ClothingCategory.
Proof. solve_decision. Defined.

(** ** Documents and DTOs *)

Abbreviation ObjectId := string (only parsing).

Definition in_range (lo hi : nat) (a : Ascii.ascii) : bool :=
  (lo <=? Ascii.nat_of_ascii a)%nat && (Ascii.nat_of_ascii a <=? hi)%nat.

(** [[0-9A-Fa-f]] *)
Definition is_hex_digit (a : Ascii.ascii) : bool :=
  in_range 48 57 a || in_range 65 70 a || in_range 97 102 a.

Fixpoint all_hex_digits (s : string) : bool :=
  match s with
  | EmptyString => true
  | String a s' => is_hex_digit a && all_hex_digits s'
  end.

(** The strings Mongoose casts to an ObjectId: 24 hexadecimal digits. *)
Definition castsToObjectId (s : string) : bool :=
  (String.length s =? 24)%nat && all_hex_digits s.

(** [users/schemas/user.schema.ts] (the fields the order engine reads). *)
Record User : Set := mkUser {
  user_id : ObjectId;
  fullName : string;
  phoneNumber : string;
  role : UserRole;
  isVerified : bool;
}.

(** [catalog/schemas/clothing-item.schema.ts] *)
Record ClothingItem : Set := mkClothingItem {
  name_en : string;
  name_bn : string;
  item_category : ClothingCategory;
  item_isActive : bool;
}.

(** [catalog/schemas/pricing.schema.ts] *)
Record Pricing : Set := mkPricing {
  pricing_clothingItem : ObjectId;
  serviceType : ServiceType;
  pricing_category : ClothingCategory;
  price : Z;
  isActive : bool;
}.

(** The two catalog collections read by the order engine. *)
Record Catalog : Type := mkCatalog {
  clothingItemModel : gmap ObjectId ClothingItem;
  pricingModel : list Pricing;
}.

(** [orders/dto/create-order.dto.ts] *)
Record OrderItemDto : Set := mkOrderItemDto {
  clothingItemId : ObjectId;
  dto_category : ClothingCategory;
  dto_services : list ServiceType;
  dto_quantity : Z;
}.

Record AddressDto : Set := mkAddress {
  fullAddress : string;
  landmark : option string;
  contactPhone : option string;
}.

Record CreateOrderDto : Set := mkCreateOrderDto {
  dto_items : list OrderItemDto;
  dto_pickupAddress : AddressDto;
  dto_deliveryAddress : option AddressDto;
  dto_notes : option string;
  (* the instant denoted by the ISO date string *)
  dto_scheduledPickupTime : option Z;
}.

(** [orders/dto/update-order-status.dto.ts] *)
Record UpdateOrderStatusDto : Set := mkUpdateOrderStatusDto {
  dto_status : OrderStatus;
  dto_note : option string;
}.

(** [orders/dto/assign-delivery.dto.ts] *)
Record AssignDeliveryDto : Set := mkAssignDeliveryDto {
  deliveryPersonId : ObjectId;
}.

(** [orders/schemas/order.schema.ts] *)
Record OrderItem : Set := mkOrderItem {
  clothingItem : ObjectId;
  clothingItemName : string;
  category : ClothingCategory;
  services : list ServiceType;
  quantity : Z;
  unitPrice : Z;
  subtotal : Z;
}.

Record OrderPricing : Set := mkOrderPricing {
  itemsTotal : Z;
  deliveryCharge : Z;
  grandTotal : Z;
}.

Record StatusHistoryEntry : Set := mkStatusHistoryEntry {
  entry_status : OrderStatus;
  timestamp : Z;
  note : string;
  updatedBy : ObjectId;
}.

Record Order : Set := mkOrder {
  _id : ObjectId;
  customer : ObjectId;
  deliveryPerson : option ObjectId;
  items : list OrderItem;
  pricing : OrderPricing;
  pickupAddress : AddressDto;
  deliveryAddress : AddressDto;
  status : OrderStatus;
  statusHistory : list StatusHistoryEntry;
  notes : option string;
  scheduledPickupTime : option Z;
  estimatedDeliveryTime : option Z;
  (* maintained by Mongoose: [timestamps: true] *)
  createdAt : Z;
  updatedAt : Z;
}.

#[global] Instance AddressDto_eq_dec : EqDecision AddressDto.
Proof. solve_decision. Defined.
#[global] Instance OrderItem_eq_dec : EqDecision OrderItem.
Proof. solve_decision. Defined.
#[global] Instance OrderPricing_eq_dec : EqDecision OrderPricing.
Proof. solve_decision. Defined.
#[global] Instance StatusHistoryEntry_eq_dec : EqDecision StatusHistoryEntry.
Proof. solve_decision. Defined.
#[global] Instance Order_eq_dec : EqDecision Order.
Proof. solve_decision. Defined.

(** ** Exceptions and the service monad *)

(** The exceptions the services raise ([@nestjs/common]), the two errors
    Mongoose raises from [save], and the error it raises from [findById] when
    the id of the query does not cast to an ObjectId ([CastError model value]:
    "Cast to ObjectId failed for value [value] at path _id for model
    [model]"). *)
Inductive Exception : Set :=
  | NotFoundException (message : string)
  | BadRequestException (message : string)
  | ForbiddenException (message : string)
  | MongooseValidationError (path : string)
  | DuplicateKeyError
  | CastError (model : string) (value : string).

#[global] Instance Exception_eq_dec : EqDecision Exception.
Proof. solve_decision. Defined.

Inductive Result (A : Type) : Type :=
  | Ok (a : A)
  | Throw (e : Exception).
Arguments Ok {A} a.
Arguments Throw {A} e.

(** The order collection ([orderModel]). *)
Abbreviation Collection := (gmap string Order) (only parsing).

(** A service method: reads and writes the order collection, returns a value
    or throws. *)
Definition M (A : Type) : Type := Collection -> Result A * Collection.

Definition ret {A} (a : A) : M A := fun c => (Ok a, c).
Definition throw {A} (e : Exception) : M A := fun c => (Throw e, c).
Definition bind {A B} (m : M A) (k : A -> M B) : M B :=
  fun c =>
    match m c with
    | (Ok a, c') => k a c'
    | (Throw e, c') => (Throw e, c')
    end.
(** A computation that does not touch the order collection. *)
Definition lift {A} (r : Result A) : M A := fun c => (r, c).

Notation "x <- m ;; k" := (bind m (fun x => k))
  (at level 100, m at next level, right associativity).

(** [model.findById(id).exec()] on the collection of the model [name].
    Mongoose casts [id] to an ObjectId before it queries, and raises a
    CastError when [id] does not have the form of one.  The [_id] of a stored
    document is an ObjectId, so an [id] under which a document is stored
    passes the cast: the cast decides for the ids that name no document. *)
Definition Model_findById {A} (name : string) (collection : gmap ObjectId A)
    (id : string) : Result (option A) :=
  match collection !! id with
  | Some doc => Ok (Some doc)
  | None => if castsToObjectId id then Ok None else Throw (CastError name id)
  end.

(** [orderModel.findById(id).exec()] *)
Definition findById (id : string) : M (option Order) :=
  fun c => (Model_findById "Order" c id, c).

(** *** Schema validation run by [save] on a new document

    [order.schema.ts] declares [min] validators on the numbers and [required]
    on the strings below; Mongoose's [required] accepts every array (also the
    empty one) and rejects the empty string.  Enum validators hold by typing. *)
Definition validate_OrderItem (i : OrderItem) : bool :=
  negb (String.eqb (clothingItemName i) "")
  && (1 <=? quantity i) && (0 <=? unitPrice i) && (0 <=? subtotal i).

Definition validate_OrderPricing (p : OrderPricing) : bool :=
  (0 <=? itemsTotal p) && (0 <=? deliveryCharge p) && (0 <=? grandTotal p).

Definition validate_OrderAddress (a : AddressDto) : bool :=
  negb (String.eqb (fullAddress a) "").

Definition validate_Order (o : Order) : bool :=
  forallb validate_OrderItem (items o)
  && validate_OrderPricing (pricing o)
  && validate_OrderAddress (pickupAddress o)
  && validate_OrderAddress (deliveryAddress o).

(** [order.save()] on a document built by [new this.orderModel(...)]:
    validation, then an insert; the document carries the timestamps Mongoose
    gave it. *)
Definition save_new (o : Order) : M Order :=
  fun c =>
    if validate_Order o then
      match c !! _id o with
      | Some _ => (Throw DuplicateKeyError, c)
      | None => (Ok o, <[_id o := o]> c)
      end
    else (Throw (MongooseValidationError "Order validation failed"), c).

Definition set_updatedAt (now : Z) (o : Order) : Order :=
  mkOrder (_id o) (customer o) (deliveryPerson o) (items o) (pricing o)
    (pickupAddress o) (deliveryAddress o) (status o) (statusHistory o)
    (notes o) (scheduledPickupTime o) (estimatedDeliveryTime o)
    (createdAt o) now.

(** [order.save()] on a document loaded by [findById]: with
    [timestamps: true] Mongoose sets [updatedAt] when the document was
    modified, then writes it back. *)
Definition save (now : Z) (isModified : bool) (o : Order) : M Order :=
  fun c =>
    let o' := if isModified then set_updatedAt now o else o in
    (Ok o', <[_id o := o']> c).

(** ** Catalog service ([catalog/catalog.service.ts]) *)

Definition getClothingItemById (cat : Catalog) (id : string) : Result ClothingItem :=
  match Model_findById "ClothingItem" (clothingItemModel cat) id with
  | Throw e => Throw e
  | Ok None => Throw (NotFoundException "Clothing item not found")
  | Ok (Some item) => Ok item
  end.

(** The filter of [pricingModel.findOne] in [getItemPrice]. *)
Definition pricing_matches (id : ObjectId) (st : ServiceType) (c : ClothingCategory)
    (p : Pricing) : bool :=
  bool_decide (pricing_clothingItem p = id)
  && bool_decide (serviceType p = st)
  && bool_decide (pricing_category p = c)
  && isActive p.

Definition getItemPrice (cat : Catalog) (id : ObjectId) (st : ServiceType)
    (c : ClothingCategory) : Result Z :=
  match List.find (pricing_matches id st c) (pricingModel cat) with
  | None => Throw (NotFoundException "Pricing not found for this item and service")
  | Some pricing => Ok (price pricing)
  end.

(** ** Orders service ([orders/orders.service.ts]) *)

(** [configService.get("DEFAULT_DELIVERY_CHARGE", 60)], read as a number. *)
Record Config : Set := mkConfig {
  DEFAULT_DELIVERY_CHARGE : option Z;
}.

Definition config_deliveryCharge (cfg : Config) : Z :=
  default 60 (DEFAULT_DELIVERY_CHARGE cfg).

(** The inner loop of [createOrder]: [unitPrice += price] over the services
    of one line; a failed lookup is rethrown as a BadRequestException. *)
Fixpoint price_services (cat : Catalog) (item : OrderItemDto) (ci : ClothingItem)
    (svcs : list ServiceType) (unitPrice : Z) : Result Z :=
  match svcs with
  | [] => Ok unitPrice
  | st :: rest =>
    match getItemPrice cat (clothingItemId item) st (dto_category item) with
    | Ok p => price_services cat item ci rest (unitPrice + p)
    | Throw _ =>
      Throw (BadRequestException
               ("Pricing not found for " +:+ name_en ci +:+ " - " +:+ ServiceType_value st))
    end
  end.

(** The outer loop of [createOrder], with its two accumulators
    [itemsWithPricing] and [itemsTotal]. *)
Fixpoint price_items (cat : Catalog) (dtoItems : list OrderItemDto)
    (itemsWithPricing : list OrderItem) (total : Z) : Result (list OrderItem * Z) :=
  match dtoItems with
  | [] => Ok (itemsWithPricing, total)
  | item :: rest =>
    match getClothingItemById cat (clothingItemId item) with
    | Throw e => Throw e
    | Ok ci =>
      match price_services cat item ci (dto_services item) 0 with
      | Throw e => Throw e
      | Ok up =>
        let sub := up * dto_quantity item in
        price_items cat rest
          (itemsWithPricing ++
             [mkOrderItem (clothingItemId item) (name_en ci) (dto_category item)
                (dto_services item) (dto_quantity item) up sub])
          (total + sub)
      end
    end
  end.

Definition createOrder (cat : Catalog) (cfg : Config) (now : Z) (newId : ObjectId)
    (userId : ObjectId) (dto : CreateOrderDto) : M Order :=
  priced <- lift (price_items cat (dto_items dto) [] 0) ;;
  let '(itemsWithPricing, total) := priced in
  let charge := config_deliveryCharge cfg in
  let grand := total + charge in
  let order :=
    {| _id := newId;
       customer := userId;
       deliveryPerson := None;
       items := itemsWithPricing;
       pricing := {| itemsTotal := total; deliveryCharge := charge; grandTotal := grand |};
       pickupAddress := dto_pickupAddress dto;
       deliveryAddress := default (dto_pickupAddress dto) (dto_deliveryAddress dto);
       status := REQUESTED;
       statusHistory :=
         [ {| entry_status := REQUESTED; timestamp := now;
              note := "Order placed"; updatedBy := userId |} ];
       notes := dto_notes dto;
       scheduledPickupTime := dto_scheduledPickupTime dto;
       estimatedDeliveryTime := None;
       createdAt := now;
       updatedAt := now |} in
  save_new order.

(** [getOrderById] *)
Definition getOrderById (orderId : ObjectId) (user : User) : M Order :=
  found <- findById orderId ;;
  match found with
  | None => throw (NotFoundException "Order not found")
  | Some order =>
    let userId := user_id user in
    let isCustomer := bool_decide (customer order = userId) in
    let isDelivery := bool_decide (deliveryPerson order = Some userId) in
    let isAdmin := bool_decide (role user = ADMIN) in
    if negb isCustomer && negb isDelivery && negb isAdmin
    then throw (ForbiddenException "Access denied to this order")
    else ret order
  end.

Definition set_status (s : OrderStatus) (h : list StatusHistoryEntry) (o : Order) : Order :=
  mkOrder (_id o) (customer o) (deliveryPerson o) (items o) (pricing o)
    (pickupAddress o) (deliveryAddress o) s h
    (notes o) (scheduledPickupTime o) (estimatedDeliveryTime o)
    (createdAt o) (updatedAt o).

(** [updateOrderStatus] *)
Definition updateOrderStatus (now : Z) (orderId : ObjectId) (dto : UpdateOrderStatusDto)
    (user : User) : M Order :=
  found <- findById orderId ;;
  match found with
  | None => throw (NotFoundException "Order not found")
  | Some order =>
    if negb (isValidStatusTransition (status order) (dto_status dto)) then
      throw (BadRequestException
               ("Invalid status transition from " +:+ OrderStatus_value (status order)
                +:+ " to " +:+ OrderStatus_value (dto_status dto)))
    else
      let userId := user_id user in
      let isDelivery := bool_decide (deliveryPerson order = Some userId) in
      let isAdmin := bool_decide (role user = ADMIN) in
      if negb isDelivery && negb isAdmin then
        throw (ForbiddenException "Only delivery person or admin can update order status")
      else
        save now true
          (set_status (dto_status dto)
             (statusHistory order ++
                [ {| entry_status := dto_status dto; timestamp := now;
                     note := default "" (dto_note dto); updatedBy := userId |} ])
             order)
  end.

Definition set_deliveryPerson (d : ObjectId) (o : Order) : Order :=
  mkOrder (_id o) (customer o) (Some d) (items o) (pricing o)
    (pickupAddress o) (deliveryAddress o) (status o) (statusHistory o)
    (notes o) (scheduledPickupTime o) (estimatedDeliveryTime o)
    (createdAt o) (updatedAt o).

(** [assignDeliveryPerson]; [usersService.findById] is [userModel.findById]
    on the user collection.  The assignment marks the document modified when
    it changes the stored reference. *)
Definition assignDeliveryPerson (users : gmap ObjectId User) (now : Z)
    (orderId : string) (dto : AssignDeliveryDto) : M Order :=
  found <- findById orderId ;;
  match found with
  | None => throw (NotFoundException "Order not found")
  | Some order =>
    candidate <- lift (Model_findById "User" users (deliveryPersonId dto)) ;;
    match candidate with
    | None => throw (NotFoundException "Delivery person not found")
    | Some person =>
      if bool_decide (role person ≠ DELIVERY) then
        throw (BadRequestException "User is not a delivery person")
      else
        save now (bool_decide (deliveryPerson order ≠ Some (deliveryPersonId dto)))
          (set_deliveryPerson (deliveryPersonId dto) order)
    end
  end.

(** The documents of the collection, in storage order. *)
Definition documents (c : Collection) : list Order := (map_to_list c).*2.

(** The sort key [{ createdAt: 1 }]. *)
Definition createdAt_le (a b : Order) : Prop := createdAt a <= createdAt b.

#[global] Instance createdAt_le_dec : RelDecision createdAt_le.
Proof. intros a b. unfold createdAt_le. apply _. Defined.

(** The filter of [getUnassignedOrders]:
    [{ deliveryPerson: { $exists: false }, status: REQUESTED }]. *)
Definition unassigned_query (o : Order) : Prop :=
  deliveryPerson o = None /\ status o = REQUESTED.

#[global] Instance unassigned_query_dec (o : Order) : Decision (unassigned_query o).
Proof. unfold unassigned_query. apply _. Defined.

(** [getUnassignedOrders] *)
Definition getUnassignedOrders : M (list Order) :=
  fun c => (Ok (merge_sort createdAt_le (filter unassigned_query (documents c))), c).

(** *** Statistics *)

Record OrderStats : Set := mkOrderStats {
  totalOrders : nat;
  pendingOrders : nat;
  inProgressOrders : nat;
  completedOrders : nat;
  cancelledOrders : nat;
  todayOrders : nat;
  todayRevenue : Z;
}.

(** One [$group] step: the bucket of [s] gains one document. *)
Fixpoint bump (s : OrderStatus) (acc : list (OrderStatus * nat)) : list (OrderStatus * nat) :=
  match acc with
  | [] => [(s, 1%nat)]
  | (k, n) :: rest => if decide (k = s) then (k, S n) :: rest else (k, n) :: bump s rest
  end.

(** [aggregate([{ $group: { _id: "$status", count: { $sum: 1 } } }])]:
    one [{_id, count}] row per status that occurs. *)
Fixpoint group_by_status (docs : list Order) : list (OrderStatus * nat) :=
  match docs with
  | [] => []
  | o :: rest => bump (status o) (group_by_status rest)
  end.

(** [aggregate([{ $match: { createdAt: { $gte: today } } },
               { $group: { _id: null, count: {$sum: 1}, revenue: {$sum: "$pricing.grandTotal"} } }])]:
    no row when nothing matches. *)
Definition today_aggregate (today : Z) (docs : list Order) : list (nat * Z) :=
  match filter (fun o => today <= createdAt o) docs with
  | [] => []
  | o :: l =>
    [ (length (o :: l), foldl (fun acc d => acc + grandTotal (pricing d)) 0 (o :: l)) ]
  end.

(** [stats.reduce((acc, item) => { acc[item._id] = item.count; return acc }, {})] *)
Definition statusCounts_of (stats : list (OrderStatus * nat)) : gmap string nat :=
  foldl (fun acc item => <[OrderStatus_value item.1 := item.2]> acc) ∅ stats.

(** [Object.values] *)
Definition Object_values (m : gmap string nat) : list nat := (map_to_list m).*2.

(** [statusCounts[k] || 0] *)
Definition count_or_0 (m : gmap string nat) (k : OrderStatus) : nat :=
  default 0%nat (m !! OrderStatus_value k).

(** [getOrderStats]; [today] is the start of the current day. *)
Definition getOrderStats (today : Z) : M OrderStats :=
  fun c =>
    let stats := group_by_status (documents c) in
    let todayStats := today_aggregate today (documents c) in
    let statusCounts := statusCounts_of stats in
    let total := foldl Nat.add 0%nat (Object_values statusCounts) in
    (Ok {| totalOrders := total;
           pendingOrders := count_or_0 statusCounts REQUESTED;
           inProgressOrders :=
             (count_or_0 statusCounts PICKED_UP
              + count_or_0 statusCounts IN_LAUNDRY
              + count_or_0 statusCounts OUT_FOR_DELIVERY)%nat;
           completedOrders := count_or_0 statusCounts DELIVERED;
           cancelledOrders := count_or_0 statusCounts CANCELLED;
           todayOrders := default 0%nat (fst <$> head todayStats);
           todayRevenue := default 0 (snd <$> head todayStats) |},
     c).

(** ** Request validation ([orders/dto/create-order.dto.ts])

    The class-validator decorators that constrain values: [@Min(1)] on the
    quantity and [@MaxLength] on the strings.  [items] carries [@IsArray] and
    [@ValidateNested({ each: true })] only.

    [@MaxLength(n)] compares a length of the string with [n].  The library
    that measures it is not part of the repository; the measure is the
    argument [len] of the validators. *)
Definition validate_OrderItemDto (i : OrderItemDto) : bool :=
  1 <=? dto_quantity i.

Definition maxLength (len : string -> nat) (n : nat) (s : option string) : bool :=
  match s with
  | None => true
  | Some s => (len s <=? n)%nat
  end.

Definition validate_AddressDto (len : string -> nat) (a : AddressDto) : bool :=
  maxLength len 500 (Some (fullAddress a)) && maxLength len 200 (landmark a).

Definition validate_CreateOrderDto (len : string -> nat) (dto : CreateOrderDto) : bool :=
  forallb validate_OrderItemDto (dto_items dto)
  && validate_AddressDto len (dto_pickupAddress dto)
  && from_option (validate_AddressDto len) true (dto_deliveryAddress dto)
  && maxLength len 1000 (dto_notes dto).

(** [String.prototype.length]: the number of UTF-16 code units of the string
    whose UTF-8 bytes are [s].  A byte that starts a character counts one,
    or two when the character takes four bytes (a surrogate pair); a
    continuation byte counts nothing. *)
Fixpoint utf16_length (s : string) : nat :=
  match s with
  | EmptyString => 0
  | String a s' =>
    let n := Ascii.nat_of_ascii a in
    ((if (n <? 128)%nat then 1
      else if (n <? 192)%nat then 0
      else if (n <? 240)%nat then 1
      else 2)
     + utf16_length s')%nat
  end.

(** ** The state machine *)

(** The transition table as the specification writes it. *)
Inductive table_entry : OrderStatus -> OrderStatus -> Prop :=
  | te_requested_picked_up : table_entry REQUESTED PICKED_UP
  | te_requested_cancelled : table_entry REQUESTED CANCELLED
  | te_picked_up_in_laundry : table_entry PICKED_UP IN_LAUNDRY
  | te_picked_up_cancelled : table_entry PICKED_UP CANCELLED
  | te_in_laundry_out : table_entry IN_LAUNDRY OUT_FOR_DELIVERY
  | te_out_delivered : table_entry OUT_FOR_DELIVERY DELIVERED.

(** ** Reachable collections and the history invariant *)

(** One service call that may write the order collection. *)
Inductive step (c : gmap string Order) : gmap string Order -> Prop :=
  | step_createOrder cat cfg now newId userId dto r c' :
      createOrder cat cfg now newId userId dto c = (r, c') -> step c c'
  | step_updateOrderStatus now orderId dto user r c' :
      updateOrderStatus now orderId dto user c = (r, c') -> step c c'
  | step_assignDeliveryPerson users now orderId dto r c' :
      assignDeliveryPerson users now orderId dto c = (r, c') -> step c c'.

(** The collections the service can produce from the empty one. *)
Inductive reachable : gmap string Order -> Prop :=
  | reachable_empty : reachable ∅
  | reachable_step c c' : reachable c -> step c c' -> reachable c'.

(** The entry written at creation. *)
Definition is_creation_entry (o : Order) (e : StatusHistoryEntry) : Prop :=
  entry_status e = REQUESTED /\ note e = "Order placed" /\ updatedBy e = customer o.

Record history_ok (o : Order) : Prop := mk_history_ok {
  history_length : (1 <= length (statusHistory o))%nat;
  history_first : exists e, head (statusHistory o) = Some e /\ is_creation_entry o e;
  history_last : entry_status <$> last (statusHistory o) = Some (status o);
}.

(** Documents are stored under their own [_id]. *)
Definition keyed (c : gmap string Order) : Prop :=
  forall id o, c !! id = Some o -> _id o = id.

(** ** Pricing, as the specification words it *)

Definition sumZ (l : list Z) : Z := foldr Z.add 0 l.

(** The catalog resolves [(item of the line, st, category of the line)] to [p]. *)
Definition resolves (cat : Catalog) (line : OrderItemDto) (st : ServiceType) (p : Z) : Prop :=
  getItemPrice cat (clothingItemId line) st (dto_category line) = Ok p.

(** The line requests a service with no active catalog price. *)
Definition unpriced (cat : Catalog) (line : OrderItemDto) (st : ServiceType) : Prop :=
  st ∈ dto_services line /\ forall p, ~ resolves cat line st p.

(** The order line is the priced request line. *)
Definition line_priced (cat : Catalog) (line : OrderItemDto) (item : OrderItem) : Prop :=
  clothingItem item = clothingItemId line
  /\ category item = dto_category line
  /\ services item = dto_services line
  /\ quantity item = dto_quantity line
  /\ (exists prices,
        Forall2 (resolves cat line) (dto_services line) prices
        /\ unitPrice item = sumZ prices)
  /\ subtotal item = unitPrice item * quantity item.

(** The message of the validation error for an unpriced combination. *)
Definition pricing_not_found (ci : ClothingItem) (st : ServiceType) : Exception :=
  BadRequestException
    ("Pricing not found for " +:+ name_en ci +:+ " - " +:+ ServiceType_value st).

(** The line can be priced: its clothing item is in the catalog and each
    service it asks for has an active price. *)
Definition priceable (cat : Catalog) (line : OrderItemDto) : Prop :=
  is_Some (clothingItemModel cat !! clothingItemId line)
  /\ forall st, st ∈ dto_services line -> exists p, resolves cat line st p.

(** The exception for a line that cannot be priced.  When the clothing item
    of the line is missing it is NotFound, or the CastError when the id of the
    line has not the form of an ObjectId; when the clothing item is in the
    catalog it is the validation error that names the item and the first
    service of the line without an active price. *)
Definition line_failure (cat : Catalog) (line : OrderItemDto) (e : Exception) : Prop :=
  match clothingItemModel cat !! clothingItemId line with
  | None =>
    e = if castsToObjectId (clothingItemId line)
        then NotFoundException "Clothing item not found"
        else CastError "ClothingItem" (clothingItemId line)
  | Some ci =>
    exists priced st rest,
      dto_services line = (priced ++ st :: rest)%list
      /\ (forall s, s ∈ priced -> exists p, resolves cat line s p)
      /\ (forall p, ~ resolves cat line st p)
      /\ e = pricing_not_found ci st
  end.

(** The caller may change the status of the order. *)
Definition may_update (o : Order) (user : User) : Prop :=
  deliveryPerson o = Some (user_id user) \/ role user = ADMIN.

(** The caller may read the order. *)
Definition may_read (o : Order) (user : User) : Prop :=
  customer o = user_id user \/ deliveryPerson o = Some (user_id user) \/ role user = ADMIN.

Definition invalid_transition (o : Order) (dto : UpdateOrderStatusDto) : Exception :=
  BadRequestException
    ("Invalid status transition from " +:+ OrderStatus_value (status o)
     +:+ " to " +:+ OrderStatus_value (dto_status dto)).

(** The number of documents in a status bucket. *)
Definition bucket (s : OrderStatus) (docs : list Order) : nat :=
  length (filter (fun o => status o = s) docs).

(** Two documents agree on every field but [deliveryPerson] and [updatedAt]. *)
Definition same_but_assignment (o o' : Order) : Prop :=
  _id o' = _id o /\ customer o' = customer o /\ items o' = items o
  /\ pricing o' = pricing o /\ pickupAddress o' = pickupAddress o
  /\ deliveryAddress o' = deliveryAddress o /\ status o' = status o
  /\ statusHistory o' = statusHistory o /\ notes o' = notes o
  /\ scheduledPickupTime o' = scheduledPickupTime o
  /\ estimatedDeliveryTime o' = estimatedDeliveryTime o
  /\ createdAt o' = createdAt o.

(** ** The price preview of the catalog service

    [CatalogService.calculateOrderTotal] is not called by [createOrder]; it
    prices a list of lines on its own and skips a service that has no price. *)

Record BreakdownEntry : Set := mkBreakdownEntry {
  breakdown_clothingItemId : ObjectId;
  breakdown_services : list (ServiceType * Z);
  breakdown_quantity : Z;
  breakdown_subtotal : Z;
}.

(** The inner loop: [servicesPricing.push] and [itemSubtotal += price * quantity],
    with [continue] in the catch block. *)
Fixpoint preview_services (cat : Catalog) (item : OrderItemDto) (svcs : list ServiceType)
    (servicesPricing : list (ServiceType * Z)) (itemSubtotal : Z)
    : list (ServiceType * Z) * Z :=
  match svcs with
  | [] => (servicesPricing, itemSubtotal)
  | st :: rest =>
    match getItemPrice cat (clothingItemId item) st (dto_category item) with
    | Ok p =>
      preview_services cat item rest (servicesPricing ++ [(st, p)])
        (itemSubtotal + p * dto_quantity item)
    | Throw _ => preview_services cat item rest servicesPricing itemSubtotal
    end
  end.

Fixpoint preview_items (cat : Catalog) (lines : list OrderItemDto)
    (total : Z) (breakdown : list BreakdownEntry) : Z * list BreakdownEntry :=
  match lines with
  | [] => (total, breakdown)
  | item :: rest =>
    let '(servicesPricing, itemSubtotal) :=
      preview_services cat item (dto_services item) [] 0 in
    preview_items cat rest (total + itemSubtotal)
      (breakdown ++
         [mkBreakdownEntry (clothingItemId item) servicesPricing
            (dto_quantity item) itemSubtotal])
  end.

Definition calculateOrderTotal (cat : Catalog) (lines : list OrderItemDto)
    : Z * list BreakdownEntry :=
  preview_items cat lines 0 [].

(** ** Writes and grouping rows *)

(** What a service call does to the stored documents: it adds a fresh order
    in its creation state, or it replaces an order by one with the same
    [_id] and customer whose history is the old one, possibly with one entry
    pushed that carries the new status. *)
Inductive write : gmap string Order -> gmap string Order -> Prop :=
  | write_none c : write c c
  | write_insert (c : gmap string Order) o now :
      c !! _id o = None ->
      status o = REQUESTED ->
      statusHistory o = [ mkStatusHistoryEntry REQUESTED now "Order placed" (customer o) ] ->
      write c (<[_id o := o]> c)
  | write_push (c : gmap string Order) orderId o o' e :
      c !! orderId = Some o ->
      _id o' = _id o -> customer o' = customer o ->
      statusHistory o' = (statusHistory o ++ [e])%list ->
      status o' = entry_status e ->
      write c (<[_id o := o']> c)
  | write_frame (c : gmap string Order) orderId o o' :
      c !! orderId = Some o ->
      _id o' = _id o -> customer o' = customer o ->
      statusHistory o' = statusHistory o ->
      status o' = status o ->
      write c (<[_id o := o']> c).

Definition stored_ok (c : gmap string Order) : Prop :=
  keyed c /\ forall id o, c !! id = Some o -> history_ok o.

(** The count the grouping holds for a status, if it has a row for it. *)
Fixpoint row_of (s : OrderStatus) (g : list (OrderStatus * nat)) : option nat :=
  match g with
  | [] => None
  | (k, n) :: rest => if decide (k = s) then Some n else row_of s rest
  end.

(** ** Sample data *)

(** The ObjectIds of the sample documents. *)
Abbreviation shirt_id := "c107000000000000000000a1".
Abbreviation ghost_id := "c107000000000000000000ff".
Abbreviation alice_id := "a11ce0000000000000000001".
Abbreviation bob_id := "b0b000000000000000000002".
Abbreviation carol_id := "ca4010000000000000000003".
Abbreviation root_id := "400700000000000000000004".
Abbreviation newcomer_id := "fe5c00000000000000000005".
Abbreviation order1_id := "04de40000000000000000001".
Abbreviation order2_id := "04de40000000000000000002".
Abbreviation fleet1_id := "f1ee70000000000000000001".
Abbreviation fleet2_id := "f1ee70000000000000000002".
Abbreviation fleet3_id := "f1ee70000000000000000003".
Abbreviation fleet4_id := "f1ee70000000000000000004".
Abbreviation fleet5_id := "f1ee70000000000000000005".
Abbreviation fleet6_id := "f1ee70000000000000000006".

Module Sample.

Definition shirt : ClothingItem :=
  {| name_en := "Shirt"; name_bn := "Shirt"; item_category := MEN; item_isActive := true |}.

Definition catalog : Catalog :=
  {| clothingItemModel := {[ shirt_id := shirt ]};
     pricingModel :=
       [ mkPricing shirt_id WASHING MEN 40 true;
         mkPricing shirt_id IRONING MEN 25 true ] |}.

Definition config : Config := {| DEFAULT_DELIVERY_CHARGE := Some 60 |}.

(** The setting is absent. *)
Definition config_unset : Config := {| DEFAULT_DELIVERY_CHARGE := None |}.

(** The charge is set to 80. *)
Definition config_80 : Config := {| DEFAULT_DELIVERY_CHARGE := Some 80 |}.

Definition address : AddressDto :=
  {| fullAddress := "House 10, Road 5, Dhanmondi"; landmark := None; contactPhone := None |}.

Definition shirt_line : OrderItemDto :=
  {| clothingItemId := shirt_id; dto_category := MEN;
     dto_services := [WASHING; IRONING]; dto_quantity := 2 |}.

Definition dto : CreateOrderDto :=
  {| dto_items := [shirt_line]; dto_pickupAddress := address;
     dto_deliveryAddress := None; dto_notes := None; dto_scheduledPickupTime := None |}.

(** A line for an item the catalog does not have. *)
Definition ghost_line : OrderItemDto :=
  {| clothingItemId := ghost_id; dto_category := MEN;
     dto_services := [WASHING]; dto_quantity := 1 |}.

Definition ghost_dto : CreateOrderDto :=
  {| dto_items := [ghost_line]; dto_pickupAddress := address;
     dto_deliveryAddress := None; dto_notes := None; dto_scheduledPickupTime := None |}.

(** A line for a catalog item in a category that has no price. *)
Definition women_line : OrderItemDto :=
  {| clothingItemId := shirt_id; dto_category := WOMEN;
     dto_services := [WASHING]; dto_quantity := 1 |}.

Definition women_dto : CreateOrderDto :=
  {| dto_items := [shirt_line; women_line]; dto_pickupAddress := address;
     dto_deliveryAddress := None; dto_notes := None; dto_scheduledPickupTime := None |}.

(** Three shirts to wash, and one shirt to wash and iron. *)
Definition wash_line : OrderItemDto :=
  {| clothingItemId := shirt_id; dto_category := MEN;
     dto_services := [WASHING]; dto_quantity := 3 |}.

Definition piece_line : OrderItemDto :=
  {| clothingItemId := shirt_id; dto_category := MEN;
     dto_services := [WASHING; IRONING]; dto_quantity := 1 |}.

Definition plain_dto : CreateOrderDto :=
  {| dto_items := [wash_line; piece_line]; dto_pickupAddress := address;
     dto_deliveryAddress := None; dto_notes := None; dto_scheduledPickupTime := None |}.

(** The line without price first, the line for the unknown item second. *)
Definition mixed_dto : CreateOrderDto :=
  {| dto_items := [women_line; ghost_line]; dto_pickupAddress := address;
     dto_deliveryAddress := None; dto_notes := None; dto_scheduledPickupTime := None |}.

(** A line whose item id is a name, not an ObjectId. *)
Definition named_line : OrderItemDto :=
  {| clothingItemId := "shirt"; dto_category := MEN;
     dto_services := [WASHING]; dto_quantity := 1 |}.

Definition named_dto : CreateOrderDto :=
  {| dto_items := [named_line]; dto_pickupAddress := address;
     dto_deliveryAddress := None; dto_notes := None; dto_scheduledPickupTime := None |}.

Definition empty_dto : CreateOrderDto :=
  {| dto_items := []; dto_pickupAddress := address;
     dto_deliveryAddress := Some address; dto_notes := None;
     dto_scheduledPickupTime := None |}.

Definition alice : User := mkUser alice_id "Alice" "01711111111" CUSTOMER true.
Definition bob : User := mkUser bob_id "Bob" "01722222222" DELIVERY true.
Definition carol : User := mkUser carol_id "Carol" "01733333333" DELIVERY true.
Definition root : User := mkUser root_id "Root" "01744444444" ADMIN true.

Definition users : gmap string User :=
  {[ alice_id := alice; bob_id := bob; carol_id := carol; root_id := root ]}.

(** The order [createOrder] stores for [dto], placed by alice at instant 1000. *)
Definition order1 : Order :=
  {| _id := order1_id; customer := alice_id; deliveryPerson := None;
     items := [ mkOrderItem shirt_id "Shirt" MEN [WASHING; IRONING] 2 65 130 ];
     pricing := mkOrderPricing 130 60 190;
     pickupAddress := address; deliveryAddress := address;
     status := REQUESTED;
     statusHistory := [ mkStatusHistoryEntry REQUESTED 1000 "Order placed" alice_id ];
     notes := None; scheduledPickupTime := None; estimatedDeliveryTime := None;
     createdAt := 1000; updatedAt := 1000 |}.

Definition db1 : gmap string Order := {[ order1_id := order1 ]}.

(** The same order under a delivery charge of 80. *)
Definition order1_at_80 : Order :=
  {| _id := _id order1; customer := customer order1; deliveryPerson := None;
     items := items order1;
     pricing := mkOrderPricing 130 80 210;
     pickupAddress := address; deliveryAddress := address;
     status := REQUESTED;
     statusHistory := statusHistory order1;
     notes := None; scheduledPickupTime := None; estimatedDeliveryTime := None;
     createdAt := 1000; updatedAt := 1000 |}.

(** An order with the given id, creation instant, courier and status. *)
Definition order_at (id : string) (t : Z) (d : option string) (s : OrderStatus) : Order :=
  {| _id := id; customer := alice_id; deliveryPerson := d;
     items := items order1; pricing := pricing order1;
     pickupAddress := address; deliveryAddress := address;
     status := s;
     statusHistory := [ mkStatusHistoryEntry REQUESTED t "Order placed" alice_id ];
     notes := None; scheduledPickupTime := None; estimatedDeliveryTime := None;
     createdAt := t; updatedAt := t |}.

(** Three REQUESTED, two DELIVERED and one CANCELLED order. *)
Definition fleet : gmap string Order :=
  list_to_map
    [ (fleet1_id, order_at fleet1_id 30 None REQUESTED);
      (fleet2_id, order_at fleet2_id 10 None REQUESTED);
      (fleet3_id, order_at fleet3_id 20 (Some bob_id) REQUESTED);
      (fleet4_id, order_at fleet4_id 5 (Some bob_id) DELIVERED);
      (fleet5_id, order_at fleet5_id 6 (Some carol_id) DELIVERED);
      (fleet6_id, order_at fleet6_id 7 None CANCELLED) ].

End Sample.

(** ** The life of an order *)

(** A sequence of statuses in which each one follows the previous one by a
    transition of the table. *)
Fixpoint valid_chain (l : list OrderStatus) : Prop :=
  match l with
  | [] => True
  | a :: rest =>
    match rest with
    | [] => True
    | b :: _ => isValidStatusTransition a b = true /\ valid_chain rest
    end
  end.

(** How far a status is along the table. *)
Definition stage (s : OrderStatus) : nat :=
  match s with
  | REQUESTED => 0
  | PICKED_UP => 1
  | IN_LAUNDRY => 2
  | OUT_FOR_DELIVERY => 3
  | DELIVERED => 4
  | CANCELLED => 4
  end.

Definition terminal (s : OrderStatus) : Prop := s = DELIVERED \/ s = CANCELLED.

(** The statuses an order went through. *)
Definition statuses (o : Order) : list OrderStatus := entry_status <$> statusHistory o.

(** The stored amounts are consistent. *)
Definition amounts_ok (o : Order) : Prop :=
  Forall (fun i => subtotal i = unitPrice i * quantity i
                   /\ 1 <= quantity i /\ 0 <= unitPrice i) (items o)
  /\ itemsTotal (pricing o) = sumZ (subtotal <$> items o)
  /\ grandTotal (pricing o) = itemsTotal (pricing o) + deliveryCharge (pricing o)
  /\ 0 <= itemsTotal (pricing o)
  /\ 0 <= deliveryCharge (pricing o).

(** The document a successful [createOrder] stores. *)
Definition just_created (o : Order) : Prop :=
  deliveryPerson o = None
  /\ status o = REQUESTED
  /\ statusHistory o =
       [ mkStatusHistoryEntry REQUESTED (createdAt o) "Order placed" (customer o) ]
  /\ updatedAt o = createdAt o
  /\ estimatedDeliveryTime o = None
  /\ validate_Order o = true
  /\ amounts_ok o.

(** What one service call can do to a stored order: nothing, a status update
    by a permitted caller along the table, or an assignment. *)
Inductive order_step (o : Order) : Order -> Prop :=
  | order_same : order_step o o
  | order_status now dto user :
      isValidStatusTransition (status o) (dto_status dto) = true ->
      may_update o user ->
      order_step o
        (set_updatedAt now
           (set_status (dto_status dto)
              (statusHistory o ++
                 [ mkStatusHistoryEntry (dto_status dto) now
                     (default "" (dto_note dto)) (user_id user) ])
              o))
  | order_assigned o' d :
      deliveryPerson o' = Some d ->
      same_but_assignment o o' ->
      order_step o o'.

(** What never changes once the order is stored, and what only grows. *)
Definition keeps (o o' : Order) : Prop :=
  _id o' = _id o /\ customer o' = customer o /\ items o' = items o
  /\ pricing o' = pricing o /\ pickupAddress o' = pickupAddress o
  /\ deliveryAddress o' = deliveryAddress o /\ notes o' = notes o
  /\ scheduledPickupTime o' = scheduledPickupTime o
  /\ estimatedDeliveryTime o' = estimatedDeliveryTime o
  /\ createdAt o' = createdAt o
  /\ statusHistory o `prefix_of` statusHistory o'
  /\ (is_Some (deliveryPerson o) -> is_Some (deliveryPerson o')).

(** ** The other listings of the orders service *)

(** The sort key [{ createdAt: -1 }]. *)
Definition createdAt_ge (a b : Order) : Prop := createdAt b <= createdAt a.

#[global] Instance createdAt_ge_dec : RelDecision createdAt_ge.
Proof. intros a b. unfold createdAt_ge. apply _. Defined.

(** [getCustomerOrders]: [find({ customer: userId }).sort({ createdAt: -1 })]. *)
Definition getCustomerOrders (userId : ObjectId) : M (list Order) :=
  fun c =>
    (Ok (merge_sort createdAt_ge (filter (fun o => customer o = userId) (documents c))), c).

(** The filter of [getDeliveryOrders]:
    [{ deliveryPerson: userId, status: { $nin: [DELIVERED, CANCELLED] } }]. *)
Definition active_delivery_query (userId : ObjectId) (o : Order) : Prop :=
  deliveryPerson o = Some userId /\ status o ∉ [DELIVERED; CANCELLED].

(** The filter of [getDeliveryHistory]:
    [{ deliveryPerson: userId, status: { $in: [DELIVERED, CANCELLED] } }]. *)
Definition closed_delivery_query (userId : ObjectId) (o : Order) : Prop :=
  deliveryPerson o = Some userId /\ status o ∈ [DELIVERED; CANCELLED].

#[global] Instance active_delivery_query_dec userId o :
  Decision (active_delivery_query userId o).
Proof. unfold active_delivery_query. apply _. Defined.

#[global] Instance closed_delivery_query_dec userId o :
  Decision (closed_delivery_query userId o).
Proof. unfold closed_delivery_query. apply _. Defined.

(** [getDeliveryOrders] *)
Definition getDeliveryOrders (userId : ObjectId) : M (list Order) :=
  fun c =>
    (Ok (merge_sort createdAt_ge (filter (active_delivery_query userId) (documents c))), c).

(** [getDeliveryHistory] *)
Definition getDeliveryHistory (userId : ObjectId) : M (list Order) :=
  fun c =>
    (Ok (merge_sort createdAt_ge (filter (closed_delivery_query userId) (documents c))), c).

(** *** The paginated listing *)

Record OrdersPage : Set := mkOrdersPage {
  orders : list Order;
  total : nat;
  page : positive;
  totalPages : nat;
}.

(** [Math.ceil(a / b)] on counts, for a divisor that is not zero. *)
Definition ceil_div (a b : nat) : nat :=
  (a / b + if (a mod b =? 0)%nat then 0 else 1)%nat.

(** The query of [getAllOrders]: [{}], or [{ status }] when a status is given. *)
Definition status_query (st : option OrderStatus) (o : Order) : Prop :=
  match st with
  | None => True
  | Some s => status o = s
  end.

#[global] Instance status_query_dec st o : Decision (status_query st o).
Proof. destruct st; unfold status_query; apply _. Defined.

(** The answers the database may give to
    [find(query).sort({ createdAt: -1 })]: the matching documents, newest
    first.  Among documents of equal [createdAt] the order is the server's
    choice, which may differ from one query to the next. *)
Definition sorts_newest_first (sort : list Order -> list Order) : Prop :=
  forall l, sort l ≡ₚ l /\ StronglySorted createdAt_ge (sort l).

(** [getAllOrders(status?, page = 1, limit = 20)], for a page number and a
    page size that are positive integers; [sort] is the order in which the
    database answers this query. *)
Definition getAllOrders (sort : list Order -> list Order) (st : option OrderStatus)
    (pageArg limitArg : option positive) : M OrdersPage :=
  fun c =>
    let page := default 1%positive pageArg in
    let limit := Pos.to_nat (default 20%positive limitArg) in
    let matching := filter (status_query st) (documents c) in
    let total := length matching in
    let totalPages := ceil_div total limit in
    let orders := take limit (drop ((Pos.to_nat page - 1) * limit) (sort matching)) in
    (Ok {| orders := orders; total := total; page := page; totalPages := totalPages |}, c).

(** The orders shown on page [p]. *)
Definition page_orders (sort : list Order -> list Order) (st : option OrderStatus)
    (limit : positive) (c : gmap string Order) (p : nat) : list Order :=
  match (getAllOrders sort st (Some (Pos.of_nat p)) (Some limit) c).1 with
  | Ok r => orders r
  | Throw _ => []
  end.

(** *** The statistics of a delivery person *)

Section DeliveryStats.

(** The floating-point part of [getDeliveryStats]: from the durations
    [updatedAt - createdAt] (in milliseconds) of the matched orders to
    [Math.round((avgTime || 0) * 100) / 100], [avgTime] being the [$avg] of
    the durations divided by [1000 * 60 * 60]. *)
Context {number : Type} (roundedAverageHours : list Z -> number).

Record DeliveryStats : Type := mkDeliveryStats {
  totalDeliveries : nat;
  completedDeliveries : nat;
  cancelledDeliveries : nat;
  todayDeliveries : nat;
  thisWeekDeliveries : nat;
  thisMonthDeliveries : nat;
  totalRevenue : Z;
  averageDeliveryTime : number;
}.

(** [countDocuments({ deliveryPerson, status: DELIVERED, updatedAt: { $gte: since } })] *)
Definition delivered_since (userId : ObjectId) (since : Z) (docs : list Order) : nat :=
  length (filter (fun o => deliveryPerson o = Some userId /\ status o = DELIVERED
                           /\ since <= updatedAt o) docs).

(** The [$match] of the revenue and of the average pipelines. *)
Definition delivered_by (userId : ObjectId) (docs : list Order) : list Order :=
  filter (fun o => deliveryPerson o = Some userId /\ status o = DELIVERED) docs.

(** [getDeliveryStats]; [today], [thisWeek] and [thisMonth] are the three
    instants the method computes from the clock. *)
Definition getDeliveryStats (today thisWeek thisMonth : Z) (userId : ObjectId)
    : M DeliveryStats :=
  fun c =>
    let docs := documents c in
    let allStats :=
      group_by_status (filter (fun o => deliveryPerson o = Some userId) docs) in
    let todayStats := delivered_since userId today docs in
    let weekStats := delivered_since userId thisWeek docs in
    let monthStats := delivered_since userId thisMonth docs in
    let revenueStats :=
      match delivered_by userId docs with
      | [] => []
      | o :: l => [ foldl (fun acc d => acc + grandTotal (pricing d)) 0 (o :: l) ]
      end in
    let statusCounts := statusCounts_of allStats in
    let total := foldl Nat.add 0%nat (Object_values statusCounts) in
    (Ok {| totalDeliveries := total;
           completedDeliveries := count_or_0 statusCounts DELIVERED;
           cancelledDeliveries := count_or_0 statusCounts CANCELLED;
           todayDeliveries := todayStats;
           thisWeekDeliveries := weekStats;
           thisMonthDeliveries := monthStats;
           totalRevenue := default 0 (head revenueStats);
           averageDeliveryTime :=
             roundedAverageHours
               ((fun o => updatedAt o - createdAt o) <$> delivered_by userId docs) |},
     c).

End DeliveryStats.

(** A stored order that is well formed. *)
Definition sound (o : Order) : Prop :=
  valid_chain (statuses o) /\ amounts_ok o /\ validate_Order o = true.

(** ** Catalog administration ([catalog/catalog.service.ts]) *)

(** [catalog/dto/create-pricing.dto.ts] *)
Record CreatePricingDto : Set := mkCreatePricingDto {
  pricing_dto_clothingItemId : ObjectId;
  pricing_dto_serviceType : ServiceType;
  pricing_dto_category : ClothingCategory;
  pricing_dto_price : Z;
  pricing_dto_isActive : option bool;
}.

(** The key of a pricing entry, on which the collection has a unique index. *)
Definition pricing_key (p : Pricing) : ObjectId * ServiceType * ClothingCategory :=
  (pricing_clothingItem p, serviceType p, pricing_category p).

(** The filter of [findOneAndUpdate] in [upsertPricing]: the key alone. *)
Definition same_pricing_key (id : ObjectId) (st : ServiceType) (c : ClothingCategory)
    (p : Pricing) : bool :=
  bool_decide (pricing_key p = (id, st, c)).

(** [findOneAndUpdate(filter, update, { upsert: true, new: true })]: the first
    matching document is updated in place; without a match the document is
    inserted.  The updated or inserted document is returned. *)
Fixpoint findOneAndUpdate_upsert (matches : Pricing -> bool) (update : Pricing -> Pricing)
    (inserted : Pricing) (l : list Pricing) : Pricing * list Pricing :=
  match l with
  | [] => (inserted, [inserted])
  | p :: rest =>
    if matches p then (update p, update p :: rest)
    else
      let '(doc, rest') := findOneAndUpdate_upsert matches update inserted rest in
      (doc, p :: rest')
  end.

(** [upsertPricing]: the update sets [price] and [isActive: dto.isActive ?? true]. *)
Definition upsertPricing (dto : CreatePricingDto) (cat : Catalog) : Pricing * Catalog :=
  let active := default true (pricing_dto_isActive dto) in
  let '(doc, l) :=
    findOneAndUpdate_upsert
      (same_pricing_key (pricing_dto_clothingItemId dto) (pricing_dto_serviceType dto)
         (pricing_dto_category dto))
      (fun p => mkPricing (pricing_clothingItem p) (serviceType p) (pricing_category p)
                  (pricing_dto_price dto) active)
      (mkPricing (pricing_dto_clothingItemId dto) (pricing_dto_serviceType dto)
         (pricing_dto_category dto) (pricing_dto_price dto) active)
      (pricingModel cat) in
  (doc, {| clothingItemModel := clothingItemModel cat; pricingModel := l |}).

(** No two pricing entries share a key. *)
Definition unique_pricing_keys (cat : Catalog) : Prop :=
  NoDup (pricing_key <$> pricingModel cat).

(** The services of a line that have a price, with that price. *)
Definition priced_services (cat : Catalog) (line : OrderItemDto) : list (ServiceType * Z) :=
  omap (fun st =>
          match getItemPrice cat (clothingItemId line) st (dto_category line) with
          | Ok p => Some (st, p)
          | Throw _ => None
          end)
       (dto_services line).

(** ** Phone numbers ([auth/auth.service.ts], [users/schemas/user.schema.ts]) *)

(** [s] without its prefix [p], when it has that prefix. *)
Fixpoint strip_prefix (p s : string) : option string :=
  match p with
  | EmptyString => Some s
  | String a p' =>
    match s with
    | EmptyString => None
    | String b s' => if Ascii.eqb a b then strip_prefix p' s' else None
    end
  end.

(** [normalizePhone]: [phone.replace(/^\+880/, '0')], then a leading ['0']
    is added when there is none. *)
Definition normalizePhone (phone : string) : string :=
  let normalized :=
    match strip_prefix "+880" phone with
    | Some rest => "0" +:+ rest
    | None => phone
    end in
  match strip_prefix "0" normalized with
  | Some _ => normalized
  | None => "0" +:+ normalized
  end.

(** [\d] *)
Definition is_digit : Ascii.ascii -> bool := in_range 48 57.

Fixpoint all_digits (s : string) : bool :=
  match s with
  | EmptyString => true
  | String a s' => is_digit a && all_digits s'
  end.

(** The character [1]. *)
Definition digit_1 : Ascii.ascii := Ascii.ascii_of_nat 49.

(** [1[3-9]\d{8}$] *)
Definition is_national (s : string) : bool :=
  match s with
  | String a (String b rest) =>
    Ascii.eqb a digit_1 && in_range 51 57 b && (String.length rest =? 8)%nat && all_digits rest
  | _ => false
  end.

(** The pattern of the phone number in the schema and in the DTOs:
    [/^(\+880|0)?1[3-9]\d{8}$/]. *)
Definition is_bd_phone (s : string) : bool :=
  match strip_prefix "+880" s with
  | Some rest => is_national rest
  | None =>
    match strip_prefix "0" s with
    | Some rest => is_national rest
    | None => is_national s
    end
  end.

(** ** Users and one-time passwords ([users/users.service.ts]) *)

(** The user document: the fields the order engine reads, and the rest. *)
Record UserDocument : Set := mkUserDocument {
  account : User;
  user_address : string;
  otpCode : option string;
  otpExpiry : option Z;
}.

#[global] Instance User_eq_dec : EqDecision User.
Proof. solve_decision. Defined.
#[global] Instance UserDocument_eq_dec : EqDecision UserDocument.
Proof. solve_decision. Defined.

(** [findByPhone]: [userModel.findOne({ phoneNumber })], on the documents in
    storage order. *)
Definition findByPhone (phone : string) (users : list UserDocument) : option UserDocument :=
  List.find (fun d => bool_decide (phoneNumber (account d) = phone)) users.

(** [findById] of the users service, as [JwtStrategy.validate] calls it: on
    the [sub] of a token that the server signed, which is the hex form of the
    [_id] of a user document and so passes the cast to an ObjectId. *)
Definition users_findById (id : ObjectId) (users : list UserDocument) : option UserDocument :=
  List.find (fun d => bool_decide (user_id (account d) = id)) users.

(** The first document that satisfies [matches] is replaced by its update. *)
Fixpoint update_first (matches : UserDocument -> bool) (update : UserDocument -> UserDocument)
    (users : list UserDocument) : list UserDocument :=
  match users with
  | [] => []
  | d :: rest =>
    if matches d then update d :: rest else d :: update_first matches update rest
  end.

(** [saveOtp]: [updateOne({ phoneNumber }, { $set, $setOnInsert }, { upsert: true })];
    [newId] is the [_id] of the document an insert creates. *)
Definition saveOtp (newId : ObjectId) (phone code : string) (expiry : Z)
    (users : list UserDocument) : list UserDocument :=
  match findByPhone phone users with
  | Some _ =>
    update_first (fun d => bool_decide (phoneNumber (account d) = phone))
      (fun d => mkUserDocument (account d) (user_address d) (Some code) (Some expiry))
      users
  | None =>
    users ++
      [ mkUserDocument (mkUser newId "New User" phone CUSTOMER false) ""
          (Some code) (Some expiry) ]
  end.

(** The validators of the user schema that can fail: [fullName] and
    [phoneNumber] are required, and the phone number has to match. *)
Definition validate_User (d : UserDocument) : bool :=
  negb (String.eqb (fullName (account d)) "") && is_bd_phone (phoneNumber (account d)).

(** [user.save()] on a loaded user document. *)
Definition save_user (d : UserDocument) (users : list UserDocument)
    : Result UserDocument * list UserDocument :=
  if validate_User d then
    (Ok d,
     update_first (fun d' => bool_decide (user_id (account d') = user_id (account d)))
       (fun _ => d) users)
  else (Throw (MongooseValidationError "User validation failed"), users).

(** [verifyOtp] of the users service; [None] is the [null] it returns. *)
Definition users_verifyOtp (now : Z) (phone code : string) (users : list UserDocument)
    : Result (option UserDocument) * list UserDocument :=
  match findByPhone phone users with
  | None => (Ok None, users)
  | Some user =>
    if bool_decide (otpCode user <> Some code) then (Ok None, users)
    else if from_option (fun expiry => bool_decide (expiry < now)) false (otpExpiry user)
    then (Ok None, users)
    else
      let user' :=
        mkUserDocument
          (mkUser (user_id (account user)) (fullName (account user))
             (phoneNumber (account user)) (role (account user)) true)
          (user_address user) (Some "") None in
      match save_user user' users with
      | (Ok saved, users') => (Ok (Some saved), users')
      | (Throw e, users') => (Throw e, users')
      end
  end.

(** ** Authentication ([auth/auth.service.ts], [auth/strategies/jwt.strategy.ts]) *)

Inductive AuthException : Set :=
  | UnauthorizedException (message : string)
  | Rethrown (e : Exception).

Inductive Outcome (A : Type) : Type :=
  | Returned (a : A)
  | Thrown (e : AuthException).
Arguments Returned {A} a.
Arguments Thrown {A} e.

Record JwtPayload : Set := mkJwtPayload {
  sub : ObjectId;
  phone : string;
  jwt_role : UserRole;
}.

(** The settings the authentication service reads: [NODE_ENV] being
    ['production'] or not, and [OTP_EXPIRY_MINUTES]. *)
Record AuthConfig : Set := mkAuthConfig {
  production : bool;
  OTP_EXPIRY_MINUTES : option Z;
}.

(** [generateOtp]; [random] is the six-digit number drawn in production. *)
Definition generateOtp (cfg : AuthConfig) (random : string) : string :=
  if negb (production cfg) then "787800" else random.

Record OtpResponse : Set := mkOtpResponse {
  message : string;
  otp : option string;
}.

(** [requestOtp] *)
Definition requestOtp (cfg : AuthConfig) (random : string) (now : Z) (newId : ObjectId)
    (dtoPhone : string) (users : list UserDocument) : OtpResponse * list UserDocument :=
  let code := generateOtp cfg random in
  let expiry := now + default 5 (OTP_EXPIRY_MINUTES cfg) * 60 * 1000 in
  ({| message := "OTP sent successfully";
      otp := if negb (production cfg) then Some code else None |},
   saveOtp newId (normalizePhone dtoPhone) code expiry users).

Record VerifyOtpResponse : Set := mkVerifyOtpResponse {
  (* the payload that [jwtService.sign] signs *)
  accessToken : JwtPayload;
  (* the document whose [toJSON] is sent *)
  user : UserDocument;
  isNewUser : bool;
}.

(** [verifyOtp] of the authentication service. *)
Definition verifyOtp (now : Z) (dtoPhone dtoCode : string) (users : list UserDocument)
    : Outcome VerifyOtpResponse * list UserDocument :=
  match users_verifyOtp now (normalizePhone dtoPhone) dtoCode users with
  | (Throw e, users') => (Thrown (Rethrown e), users')
  | (Ok None, users') => (Thrown (UnauthorizedException "Invalid or expired OTP"), users')
  | (Ok (Some u), users') =>
    (Returned
       {| accessToken :=
            mkJwtPayload (user_id (account u)) (phoneNumber (account u)) (role (account u));
          user := u;
          isNewUser :=
            String.eqb (fullName (account u)) "New User" || String.eqb (user_address u) "" |},
     users')
  end.

(** [JwtStrategy.validate] *)
Definition validate (payload : JwtPayload) (users : list UserDocument) : Outcome UserDocument :=
  match users_findById (sub payload) users with
  | None => Thrown (UnauthorizedException "User not found")
  | Some u =>
    if negb (isVerified (account u)) then Thrown (UnauthorizedException "User not verified")
    else Returned u
  end.

(** The [_id]s of the user documents. *)
Definition user_ids (users : list UserDocument) : list string :=
  (fun d => user_id (account d)) <$> users.

(** The user collection holds valid documents with distinct [_id]s. *)
Definition users_ok (users : list UserDocument) : Prop :=
  Forall (fun d => validate_User d = true) users /\ NoDup (user_ids users).

(** The document [verifyOtp] saves: verified, the code cleared to the empty
    string, the expiry unset. *)
Definition verified_user (d : UserDocument) : UserDocument :=
  mkUserDocument
    (mkUser (user_id (account d)) (fullName (account d)) (phoneNumber (account d))
       (role (account d)) true)
    (user_address d) (Some "") None.

(** A request line the catalog can price: the clothing item exists and has
    a name, the quantity is at least one, and every requested service has an
    active price that is not negative. *)
Definition acceptable (cat : Catalog) (line : OrderItemDto) : Prop :=
  (exists ci, clothingItemModel cat !! clothingItemId line = Some ci /\ name_en ci <> "")
  /\ 1 <= dto_quantity line
  /\ Forall (fun st => exists p, resolves cat line st p /\ 0 <= p) (dto_services line).

(** ** A sample run *)

Module Demo.

(** root assigns bob to alice's order, bob walks it through the table, and
    root then hands the delivered order to carol. *)
Definition db2 : gmap string Order :=
  (assignDeliveryPerson Sample.users 2000 order1_id (mkAssignDeliveryDto bob_id)
     Sample.db1).2.

Definition db3 : gmap string Order :=
  (updateOrderStatus 3000 order1_id (mkUpdateOrderStatusDto PICKED_UP (Some "at the door"))
     Sample.bob db2).2.

Definition db4 : gmap string Order :=
  (updateOrderStatus 4000 order1_id (mkUpdateOrderStatusDto IN_LAUNDRY None)
     Sample.bob db3).2.

Definition db5 : gmap string Order :=
  (updateOrderStatus 5000 order1_id (mkUpdateOrderStatusDto OUT_FOR_DELIVERY None)
     Sample.bob db4).2.

Definition db6 : gmap string Order :=
  (updateOrderStatus 6000 order1_id (mkUpdateOrderStatusDto DELIVERED None)
     Sample.bob db5).2.

Definition db7 : gmap string Order :=
  (assignDeliveryPerson Sample.users 7000 order1_id (mkAssignDeliveryDto carol_id)
     db6).2.

(** The delivered order, before and after the late re-assignment. *)
Definition delivered : Order :=
  {| _id := order1_id; customer := alice_id; deliveryPerson := Some bob_id;
     items := items Sample.order1; pricing := pricing Sample.order1;
     pickupAddress := Sample.address; deliveryAddress := Sample.address;
     status := DELIVERED;
     statusHistory :=
       [ mkStatusHistoryEntry REQUESTED 1000 "Order placed" alice_id;
         mkStatusHistoryEntry PICKED_UP 3000 "at the door" bob_id;
         mkStatusHistoryEntry IN_LAUNDRY 4000 "" bob_id;
         mkStatusHistoryEntry OUT_FOR_DELIVERY 5000 "" bob_id;
         mkStatusHistoryEntry DELIVERED 6000 "" bob_id ];
     notes := None; scheduledPickupTime := None; estimatedDeliveryTime := None;
     createdAt := 1000; updatedAt := 6000 |}.

Definition handed_over : Order :=
  set_updatedAt 7000 (set_deliveryPerson carol_id delivered).

(** The user collection: alice has an account, with no code pending. *)
Definition accounts : list UserDocument :=
  [ mkUserDocument Sample.alice "Dhanmondi, Dhaka" None None ].

End Demo.

(** * Theorems *)

(** C1: [isValidStatusTransition current target] is true exactly when
    [target] is in the table entry of [current], for all 36 pairs; DELIVERED
    and CANCELLED have no outgoing transition, and IN_LAUNDRY -> CANCELLED is
    rejected. *)
Theorem isValidStatusTransition_table :
  (forall current target,
      isValidStatusTransition current target = true <-> table_entry current target)
  /\ (forall target, isValidStatusTransition DELIVERED target = false)
  /\ (forall target, isValidStatusTransition CANCELLED target = false)
  /\ isValidStatusTransition IN_LAUNDRY CANCELLED = false.
Proof.
  split; [|by repeat split; intros []].
  intros current target; split.
  - destruct current, target; cbn; first [discriminate | constructor].
  - by destruct 1.
Qed.

(** ** Permission and transition checks *)

Ltac run_service :=
  unfold updateOrderStatus, getOrderById, assignDeliveryPerson,
    bind, lift, findById, Model_findById, throw, ret, save; cbn.

Lemma negb_bool_decide_true (P : Prop) `{Decision P} : ~ P -> negb (bool_decide P) = true.
Proof. intros. by rewrite bool_decide_eq_false_2. Qed.

(** On a collection whose [_id]s are ObjectIds, [findById] is the cast
    followed by the lookup, in the order in which Mongoose runs them. *)
Lemma Model_findById_cast_first {A} name (collection : gmap string A) id :
  (forall k, is_Some (collection !! k) -> castsToObjectId k = true) ->
  Model_findById name collection id
  = if castsToObjectId id then Ok (collection !! id) else Throw (CastError name id).
Proof.
  intros Hids. unfold Model_findById.
  destruct (collection !! id) as [doc|] eqn:Hdoc; [|by destruct (castsToObjectId id)].
  by rewrite (Hids id) by by rewrite Hdoc.
Qed.

(** C2 (as the code has it): the transition check runs before the permission
    check.  A caller who is neither the assigned delivery person nor an
    administrator gets Forbidden when the requested transition is in the
    table, and the transition error when it is not. *)
Theorem updateOrderStatus_unauthorized
    now orderId dto user (c : gmap string Order) o :
  c !! orderId = Some o ->
  ~ may_update o user ->
  updateOrderStatus now orderId dto user c =
    (Throw (if isValidStatusTransition (status o) (dto_status dto)
            then ForbiddenException "Only delivery person or admin can update order status"
            else invalid_transition o dto),
     c).
Proof.
  intros Hfound Hdenied. run_service. rewrite Hfound.
  destruct (isValidStatusTransition (status o) (dto_status dto)); cbn; [|done].
  rewrite !negb_bool_decide_true; [done | |];
    intros ?; apply Hdenied; [by right | by left].
Qed.

Lemma updateOrderStatus_unauthorized_witness :
  Sample.db1 !! order1_id = Some Sample.order1
  /\ ~ may_update Sample.order1 Sample.bob
  /\ updateOrderStatus 2000 order1_id (mkUpdateOrderStatusDto PICKED_UP None)
       Sample.bob Sample.db1 =
     (Throw (ForbiddenException "Only delivery person or admin can update order status"),
      Sample.db1).
Proof.
  assert (Hfound : Sample.db1 !! order1_id = Some Sample.order1) by reflexivity.
  assert (Hdenied : ~ may_update Sample.order1 Sample.bob)
    by (intros [H | H]; discriminate H).
  split; [exact Hfound | split; [exact Hdenied |]].
  exact (updateOrderStatus_unauthorized 2000 order1_id
           (mkUpdateOrderStatusDto PICKED_UP None) Sample.bob Sample.db1
           Sample.order1 Hfound Hdenied).
Defined.

(** C2, counterexample: bob has the delivery role but is not the courier of
    the order, nor an administrator, and he asks for REQUESTED -> DELIVERED,
    which the table rejects; the call ends with the transition error, not
    with Forbidden. *)
Lemma updateOrderStatus_transition_error_wins :
  Sample.db1 !! order1_id = Some Sample.order1
  /\ ~ may_update Sample.order1 Sample.bob
  /\ updateOrderStatus 2000 order1_id (mkUpdateOrderStatusDto DELIVERED None)
       Sample.bob Sample.db1 =
     (Throw (BadRequestException "Invalid status transition from requested to delivered"),
      Sample.db1)
  /\ ~ (exists message,
          (updateOrderStatus 2000 order1_id (mkUpdateOrderStatusDto DELIVERED None)
             Sample.bob Sample.db1).1 = Throw (ForbiddenException message)).
Proof.
  split; [reflexivity | split; [by intros [H | H] | split; [reflexivity |]]].
  intros [message H]. vm_compute in H. discriminate H.
Qed.

(** C9: for an existing order, [getOrderById] returns the order to its
    customer, to its assigned delivery person and to an administrator, and
    throws Forbidden for every other caller; a user with the delivery role who
    is not assigned to the order (and did not place it) gets Forbidden, also
    while the order has no delivery person. *)
Theorem getOrderById_access orderId user (c : gmap string Order) o :
  c !! orderId = Some o ->
  (may_read o user -> getOrderById orderId user c = (Ok o, c))
  /\ (~ may_read o user ->
      getOrderById orderId user c =
        (Throw (ForbiddenException "Access denied to this order"), c))
  /\ (role user = DELIVERY ->
      customer o <> user_id user ->
      deliveryPerson o <> Some (user_id user) ->
      getOrderById orderId user c =
        (Throw (ForbiddenException "Access denied to this order"), c)).
Proof.
  intros Hfound.
  assert (Hdenied : ~ may_read o user ->
      getOrderById orderId user c =
        (Throw (ForbiddenException "Access denied to this order"), c)).
  { intros Hno. run_service. rewrite Hfound.
    rewrite !negb_bool_decide_true; [done | | |];
      intros ?; apply Hno; unfold may_read; auto. }
  split; [|split; [exact Hdenied |]].
  - intros Hyes. run_service. rewrite Hfound.
    destruct Hyes as [H | [H | H]].
    + by rewrite (bool_decide_eq_true_2 _ H).
    + rewrite (bool_decide_eq_true_2 _ H). by rewrite andb_false_r.
    + rewrite (bool_decide_eq_true_2 _ H). by rewrite andb_false_r.
  - intros Hrole Hcust Hdel. apply Hdenied.
    intros [H | [H | H]]; [done | done |]. rewrite Hrole in H. discriminate H.
Qed.

Lemma getOrderById_access_witness :
  Sample.db1 !! order1_id = Some Sample.order1
  /\ getOrderById order1_id Sample.alice Sample.db1 = (Ok Sample.order1, Sample.db1)
  /\ getOrderById order1_id Sample.bob Sample.db1 =
       (Throw (ForbiddenException "Access denied to this order"), Sample.db1).
Proof.
  assert (Hfound : Sample.db1 !! order1_id = Some Sample.order1) by reflexivity.
  split; [exact Hfound | split].
  - apply (getOrderById_access order1_id Sample.alice Sample.db1 Sample.order1 Hfound).
    left. reflexivity.
  - apply (getOrderById_access order1_id Sample.bob Sample.db1 Sample.order1 Hfound).
    + reflexivity.
    + discriminate.
    + discriminate.
Defined.

(** ** Assignment *)




(** ** Pricing at creation *)

Lemma sumZ_app l1 l2 : sumZ (l1 ++ l2) = sumZ l1 + sumZ l2.
Proof. unfold sumZ. induction l1 as [|x l1 IH]; cbn; [done | rewrite IH; lia]. Qed.

Section Pricing.

Context (cat : Catalog).

(** A successful inner loop has resolved every service of the line. *)
Lemma price_services_Ok item ci svcs acc up :
  price_services cat item ci svcs acc = Ok up ->
  exists prices, Forall2 (resolves cat item) svcs prices /\ up = acc + sumZ prices.
Proof.
  revert acc. induction svcs as [|st rest IH]; intros acc; cbn.
  - intros [= <-]. exists []. split; [constructor | unfold sumZ; cbn; lia].
  - destruct (getItemPrice cat (clothingItemId item) st (dto_category item)) as [p|e] eqn:Hp;
      [|discriminate].
    intros Hrest. destruct (IH _ Hrest) as (prices & Hall & ->).
    exists (p :: prices). split; [by constructor | unfold sumZ; cbn; lia].
Qed.

(** A failed inner loop names the first service of the line that has no
    price. *)
Lemma price_services_Throw item ci svcs acc e :
  price_services cat item ci svcs acc = Throw e ->
  exists priced st rest,
    svcs = (priced ++ st :: rest)%list
    /\ (forall s, s ∈ priced -> exists p, resolves cat item s p)
    /\ (forall p, ~ resolves cat item st p)
    /\ e = pricing_not_found ci st.
Proof.
  revert acc. induction svcs as [|st rest IH]; intros acc; cbn; [discriminate|].
  destruct (getItemPrice cat (clothingItemId item) st (dto_category item)) as [p|e'] eqn:Hp.
  - intros Hrest. destruct (IH _ Hrest) as (priced & st' & rest' & -> & Hpriced & Hno & ->).
    exists (st :: priced), st', rest'. split; [done | split; [|done]].
    intros s [-> | Hs]%elem_of_cons; [by exists p | by apply Hpriced].
  - intros [= <-]. exists [], st, rest. split; [done | split; [|split; [|done]]].
    + intros s Hs. by apply not_elem_of_nil in Hs.
    + intros p Hres. unfold resolves in Hres. congruence.
Qed.

Lemma resolves_each item svcs prices st :
  Forall2 (resolves cat item) svcs prices -> st ∈ svcs -> exists p, resolves cat item st p.
Proof.
  induction 1 as [|s p svcs prices Hs Hall IH]; intros Hin; [by apply not_elem_of_nil in Hin|].
  apply elem_of_cons in Hin as [-> | Hin]; [by exists p | by apply IH].
Qed.

Lemma price_items_Ok lines acc total its t :
  price_items cat lines acc total = Ok (its, t) ->
  exists priced,
    its = (acc ++ priced)%list
    /\ Forall2 (line_priced cat) lines priced
    /\ t = total + sumZ (subtotal <$> priced).
Proof.
  revert acc total. induction lines as [|line rest IH]; intros acc total; cbn.
  - intros [= <- <-]. exists []. rewrite app_nil_r. split; [done | split; [constructor | unfold sumZ; cbn; lia]].
  - destruct (getClothingItemById cat (clothingItemId line)) as [ci|e]; [|discriminate].
    destruct (price_services cat line ci (dto_services line) 0) as [up|e] eqn:Hup;
      [|discriminate].
    intros Hrest. destruct (IH _ _ Hrest) as (priced & -> & Hall & ->).
    destruct (price_services_Ok _ _ _ _ _ Hup) as (prices & Hprices & ->).
    eexists (_ :: priced). split; [by rewrite <- app_assoc | split].
    + constructor; [|done]. repeat split; cbn. exists prices. split; [done | unfold sumZ; cbn; lia].
    + unfold sumZ. cbn. lia.
Qed.

(** A failed pricing failed at the first line that cannot be priced. *)
Lemma price_items_Throw lines acc total e :
  price_items cat lines acc total = Throw e ->
  exists before l after,
    lines = (before ++ l :: after)%list
    /\ Forall (priceable cat) before
    /\ line_failure cat l e.
Proof.
  revert acc total. induction lines as [|line rest IH]; intros acc total; cbn; [discriminate|].
  unfold getClothingItemById, Model_findById.
  destruct (clothingItemModel cat !! clothingItemId line) as [ci|] eqn:Hci.
  - destruct (price_services cat line ci (dto_services line) 0) as [up|e'] eqn:Hup.
    + intros Hrest. destruct (IH _ _ Hrest) as (before & l & after & -> & Hall & Hfail).
      exists (line :: before), l, after. split; [done | split; [|done]].
      constructor; [|done]. split; [by rewrite Hci |].
      destruct (price_services_Ok _ _ _ _ _ Hup) as (prices & Hprices & _).
      intros st. by apply resolves_each with prices.
    + intros [= <-]. exists [], line, rest. split; [done | split; [constructor |]].
      unfold line_failure. rewrite Hci. by apply price_services_Throw with 0.
  - destruct (castsToObjectId (clothingItemId line)) eqn:Hcast;
      intros [= <-]; exists [], line, rest;
      (split; [done | split; [constructor |]]);
      unfold line_failure; by rewrite Hci, Hcast.
Qed.

(** A priced line has a price for each of its services. *)
Lemma line_priced_resolves line item st :
  line_priced cat line item -> st ∈ dto_services line -> exists p, resolves cat line st p.
Proof.
  intros (_ & _ & _ & _ & (prices & Hall & _) & _) Hin.
  induction Hall as [|s p svcs prices Hs Hall IH]; [by apply not_elem_of_nil in Hin|].
  apply elem_of_cons in Hin as [-> | Hin]; [by exists p | by apply IH].
Qed.

Lemma price_items_unpriced lines acc total line st :
  line ∈ lines -> unpriced cat line st ->
  exists e, price_items cat lines acc total = Throw e.
Proof.
  intros Hline [Hst Hno].
  destruct (price_items cat lines acc total) as [[its t]|e] eqn:Hrun; [|by exists e].
  destruct (price_items_Ok _ _ _ _ _ Hrun) as (priced & _ & Hall & _).
  exfalso. clear Hrun. induction Hall as [|l i ls rest Hl Hall IH]; [by apply not_elem_of_nil in Hline|].
  apply elem_of_cons in Hline as [-> | Hline]; [|by apply IH].
  destruct (line_priced_resolves _ _ _ Hl Hst) as [p Hp]. by apply (Hno p).
Qed.

End Pricing.

(** [createOrder] is the pricing loop followed by the insert. *)
Lemma createOrder_unfold cat cfg now newId userId dto (c : gmap string Order) :
  createOrder cat cfg now newId userId dto c =
    match price_items cat (dto_items dto) [] 0 with
    | Throw e => (Throw e, c)
    | Ok (its, total) =>
      save_new
        {| _id := newId; customer := userId; deliveryPerson := None; items := its;
           pricing := {| itemsTotal := total;
                         deliveryCharge := config_deliveryCharge cfg;
                         grandTotal := total + config_deliveryCharge cfg |};
           pickupAddress := dto_pickupAddress dto;
           deliveryAddress := default (dto_pickupAddress dto) (dto_deliveryAddress dto);
           status := REQUESTED;
           statusHistory := [ mkStatusHistoryEntry REQUESTED now "Order placed" userId ];
           notes := dto_notes dto;
           scheduledPickupTime := dto_scheduledPickupTime dto;
           estimatedDeliveryTime := None;
           createdAt := now; updatedAt := now |} c
    end.
Proof.
  unfold createOrder, bind, lift.
  by destruct (price_items cat (dto_items dto) [] 0) as [[its total]|e].
Qed.

(** A successful insert returns the document it was given and stores it
    under its [_id], which was free. *)
Lemma save_new_Ok o (c c' : gmap string Order) o' :
  save_new o c = (Ok o', c') ->
  o' = o /\ c' = <[_id o := o]> c /\ c !! _id o = None /\ validate_Order o = true.
Proof.
  unfold save_new. destruct (validate_Order o); [|discriminate].
  destruct (c !! _id o) eqn:Hfree; [discriminate|].
  by intros [= <- <-].
Qed.

(** A failed insert leaves the collection alone. *)
Lemma save_new_Throw o (c c' : gmap string Order) e :
  save_new o c = (Throw e, c') -> c' = c.
Proof.
  unfold save_new. destruct (validate_Order o); [|by intros [= _ <-]].
  destruct (c !! _id o); [by intros [= _ <-] | discriminate].
Qed.




(** An item id that is a name ends in a CastError. *)
Example createOrder_item_id_not_ObjectId :
  createOrder Sample.catalog Sample.config 1000 order2_id
    alice_id Sample.named_dto Sample.db1 =
  (Throw (CastError "ClothingItem" "shirt"), Sample.db1).
Proof. vm_compute; reflexivity. Qed.

(** What a successful [createOrder] went through. *)
Lemma createOrder_Ok cat cfg now newId userId dto (c c' : gmap string Order) o :
  createOrder cat cfg now newId userId dto c = (Ok o, c') ->
  exists total,
    price_items cat (dto_items dto) [] 0 = Ok (items o, total)
    /\ pricing o = {| itemsTotal := total;
                      deliveryCharge := config_deliveryCharge cfg;
                      grandTotal := total + config_deliveryCharge cfg |}
    /\ _id o = newId /\ customer o = userId /\ deliveryPerson o = None
    /\ status o = REQUESTED
    /\ statusHistory o = [ mkStatusHistoryEntry REQUESTED now "Order placed" userId ]
    /\ c !! newId = None
    /\ c' = <[newId := o]> c.
Proof.
  rewrite createOrder_unfold.
  destruct (price_items cat (dto_items dto) [] 0) as [[its total]|e] eqn:Hprice;
    [|discriminate].
  intros Hsave. apply save_new_Ok in Hsave as (-> & -> & Hfree & _).
  exists total. cbn in *. by repeat split.
Qed.

(** C4: in a created order every line carries the sum of the prices of its
    services as unit price and unit price times quantity as subtotal;
    [itemsTotal] is the sum of the subtotals; the delivery charge is the
    value of the setting DEFAULT_DELIVERY_CHARGE, 60 when the setting is
    absent, whatever the lines; and [grandTotal] is [itemsTotal] plus that
    charge, once. *)
Theorem createOrder_pricing cat cfg now newId userId dto (c c' : gmap string Order) o :
  createOrder cat cfg now newId userId dto c = (Ok o, c') ->
  Forall2 (line_priced cat) (dto_items dto) (items o)
  /\ itemsTotal (pricing o) = sumZ (subtotal <$> items o)
  /\ deliveryCharge (pricing o) = default 60 (DEFAULT_DELIVERY_CHARGE cfg)
  /\ grandTotal (pricing o)
     = sumZ (subtotal <$> items o) + default 60 (DEFAULT_DELIVERY_CHARGE cfg)
  /\ grandTotal (pricing o) = itemsTotal (pricing o) + deliveryCharge (pricing o)
  /\ c' !! newId = Some o.
Proof.
  intros Hrun.
  destruct (createOrder_Ok _ _ _ _ _ _ _ _ _ Hrun)
    as (total & Hprice & Hpricing & _ & _ & _ & _ & _ & _ & ->).
  destruct (price_items_Ok _ _ _ _ _ _ Hprice) as (priced & Hitems & Hall & Htotal).
  cbn in Hitems. subst priced. rewrite Hpricing. unfold config_deliveryCharge. cbn.
  repeat split; [done | lia | lia | by rewrite lookup_insert_eq].
Qed.

(** The scenario of the specification: one line (Shirt, MEN, washing and
    ironing, twice) at 40 and 25, with the delivery charge set to 60, absent,
    and set to 80. *)
Lemma createOrder_pricing_witness :
  createOrder Sample.catalog Sample.config 1000 order1_id
    alice_id Sample.dto ∅ = (Ok Sample.order1, Sample.db1)
  /\ Forall2 (line_priced Sample.catalog) [Sample.shirt_line] (items Sample.order1)
  /\ itemsTotal (pricing Sample.order1) = 130
  /\ grandTotal (pricing Sample.order1) = 190
  /\ (createOrder Sample.catalog Sample.config_unset 1000 order1_id
        alice_id Sample.dto ∅).1 = Ok Sample.order1
  /\ (createOrder Sample.catalog Sample.config_80 1000 order1_id
        alice_id Sample.dto ∅).1 = Ok Sample.order1_at_80
  /\ deliveryCharge (pricing Sample.order1_at_80) = 80
  /\ grandTotal (pricing Sample.order1_at_80) = 210.
Proof.
  assert (Hrun : createOrder Sample.catalog Sample.config 1000 order1_id
                   alice_id Sample.dto ∅ = (Ok Sample.order1, Sample.db1))
    by (vm_compute; reflexivity).
  assert (Hrun80 : createOrder Sample.catalog Sample.config_80 1000
                     order1_id alice_id Sample.dto ∅
                   = (Ok Sample.order1_at_80,
                      {[ order1_id := Sample.order1_at_80 ]}))
    by (vm_compute; reflexivity).
  destruct (createOrder_pricing _ _ _ _ _ _ _ _ _ Hrun) as (Hlines & Htotal & _ & Hgrand & _).
  destruct (createOrder_pricing _ _ _ _ _ _ _ _ _ Hrun80) as (_ & _ & Hcharge80 & Hgrand80 & _).
  split; [exact Hrun | split; [exact Hlines | split; [|split; [|split; [|split; [|split]]]]]].
  - rewrite Htotal. reflexivity.
  - rewrite Hgrand. reflexivity.
  - vm_compute. reflexivity.
  - by rewrite Hrun80.
  - rewrite Hcharge80. reflexivity.
  - rewrite Hgrand80. reflexivity.
Defined.

(** C6 (as the code has it): a created order has one item per line of the
    request, and nothing rejects a request without lines: with a pickup
    address that is not empty, a delivery address that is not empty when one
    is given, a delivery charge that is not negative and a free [_id], such a
    request is stored as an order with [items = []] and [itemsTotal = 0]. *)
Theorem createOrder_items_follow_request
    cat cfg now newId userId dto (c : gmap string Order) :
  (forall o c',
      createOrder cat cfg now newId userId dto c = (Ok o, c') ->
      length (items o) = length (dto_items dto))
  /\ (dto_items dto = [] ->
      fullAddress (dto_pickupAddress dto) <> "" ->
      (forall a, dto_deliveryAddress dto = Some a -> fullAddress a <> "") ->
      0 <= default 60 (DEFAULT_DELIVERY_CHARGE cfg) ->
      c !! newId = None ->
      exists o,
        createOrder cat cfg now newId userId dto c = (Ok o, <[newId := o]> c)
        /\ items o = []
        /\ itemsTotal (pricing o) = 0
        /\ deliveryCharge (pricing o) = default 60 (DEFAULT_DELIVERY_CHARGE cfg)
        /\ grandTotal (pricing o) = deliveryCharge (pricing o)).
Proof.
  split.
  - intros o c' Hrun.
    destruct (createOrder_Ok _ _ _ _ _ _ _ _ _ Hrun) as (total & Hprice & _).
    destruct (price_items_Ok _ _ _ _ _ _ Hprice) as (priced & -> & Hall & _).
    cbn. symmetry. by eapply Forall2_length.
  - intros Hempty Hpick Hdeliv Hcharge Hfree.
    assert (Hp : validate_OrderAddress (dto_pickupAddress dto) = true).
    { unfold validate_OrderAddress. by apply negb_true_iff, String.eqb_neq. }
    assert (Hd : validate_OrderAddress
                   (default (dto_pickupAddress dto) (dto_deliveryAddress dto)) = true).
    { destruct (dto_deliveryAddress dto) as [a|] eqn:Ha; cbn; [|done].
      unfold validate_OrderAddress. apply negb_true_iff, String.eqb_neq. by apply Hdeliv. }
    rewrite createOrder_unfold, Hempty. cbn.
    unfold save_new, validate_Order, validate_OrderPricing, config_deliveryCharge. cbn.
    rewrite Hp, Hd, Hfree. cbn.
    rewrite !(proj2 (Z.leb_le _ _)) by lia.
    cbn. eexists. split; [reflexivity | cbn; repeat split; lia].
Qed.

(** A request without lines that carries a delivery address. *)
Lemma createOrder_items_follow_request_witness :
  validate_CreateOrderDto utf16_length Sample.empty_dto = true
  /\ exists o,
       createOrder Sample.catalog Sample.config 1000 order2_id
         alice_id Sample.empty_dto Sample.db1
       = (Ok o, <[order2_id := o]> Sample.db1)
       /\ items o = []
       /\ itemsTotal (pricing o) = 0
       /\ grandTotal (pricing o) = 60.
Proof.
  split; [reflexivity |].
  destruct (createOrder_items_follow_request Sample.catalog Sample.config 1000
              order2_id alice_id
              Sample.empty_dto Sample.db1) as [_ Hempty].
  destruct Hempty as (o & Hrun & Hitems & Htotal & Hcharge & Hgrand).
  - reflexivity.
  - discriminate.
  - intros a [= <-]. discriminate.
  - vm_compute. discriminate.
  - reflexivity.
  - exists o. split; [exact Hrun | split; [exact Hitems | split; [exact Htotal |]]].
    rewrite Hgrand, Hcharge. reflexivity.
Defined.

(** C6, counterexample: a request with [items = []] passes the request
    validation and [createOrder] stores an order with no item and
    [itemsTotal = 0]. *)
Lemma createOrder_accepts_empty_items :
  dto_items Sample.empty_dto = []
  /\ validate_CreateOrderDto utf16_length Sample.empty_dto = true
  /\ exists o,
       createOrder Sample.catalog Sample.config 1000 order1_id alice_id
         Sample.empty_dto ∅ = (Ok o, {[ order1_id := o ]})
       /\ items o = []
       /\ itemsTotal (pricing o) = 0.
Proof.
  split; [reflexivity | split; [reflexivity |]].
  eexists. split; [vm_compute; reflexivity | done].
Qed.

(** ** The status history *)

Lemma updateOrderStatus_Ok now orderId dto user (c c' : gmap string Order) o' :
  updateOrderStatus now orderId dto user c = (Ok o', c') ->
  exists o,
    c !! orderId = Some o
    /\ isValidStatusTransition (status o) (dto_status dto) = true
    /\ o' = set_updatedAt now
              (set_status (dto_status dto)
                 (statusHistory o ++
                    [ mkStatusHistoryEntry (dto_status dto) now
                        (default "" (dto_note dto)) (user_id user) ])
                 o)
    /\ c' = <[_id o := o']> c.
Proof.
  run_service. destruct (c !! orderId) as [o|] eqn:Hfound;
    [|by destruct (castsToObjectId orderId)].
  destruct (isValidStatusTransition (status o) (dto_status dto)) eqn:Hvalid;
    cbn; [|discriminate].
  destruct (negb _ && negb _); [discriminate|].
  intros [= <- <-]. by exists o.
Qed.

Lemma updateOrderStatus_Throw now orderId dto user (c c' : gmap string Order) e :
  updateOrderStatus now orderId dto user c = (Throw e, c') -> c' = c.
Proof.
  run_service. destruct (c !! orderId) as [o|];
    [|by destruct (castsToObjectId orderId); intros [= _ <-]].
  destruct (isValidStatusTransition (status o) (dto_status dto)); cbn;
    [|by intros [= _ <-]].
  destruct (negb _ && negb _); [by intros [= _ <-] | discriminate].
Qed.

Lemma assignDeliveryPerson_Ok users now orderId dto (c c' : gmap string Order) o' :
  assignDeliveryPerson users now orderId dto c = (Ok o', c') ->
  exists o,
    c !! orderId = Some o
    /\ deliveryPerson o' = Some (deliveryPersonId dto)
    /\ same_but_assignment o o'
    /\ c' = <[_id o := o']> c.
Proof.
  run_service. destruct (c !! orderId) as [o|] eqn:Hfound;
    [|by destruct (castsToObjectId orderId)].
  cbn. destruct (users !! deliveryPersonId dto) as [person|];
    [|by destruct (castsToObjectId (deliveryPersonId dto))].
  cbn. case_bool_decide; [discriminate|].
  intros [= <- <-]. exists o. by case_bool_decide.
Qed.

Lemma assignDeliveryPerson_Throw users now orderId dto (c c' : gmap string Order) e :
  assignDeliveryPerson users now orderId dto c = (Throw e, c') -> c' = c.
Proof.
  run_service. destruct (c !! orderId) as [o|];
    [|by destruct (castsToObjectId orderId); intros [= _ <-]].
  cbn. destruct (users !! deliveryPersonId dto) as [person|];
    [|by destruct (castsToObjectId (deliveryPersonId dto)); intros [= _ <-]].
  cbn. case_bool_decide; [by intros [= _ <-] | discriminate].
Qed.

Lemma createOrder_Throw cat cfg now newId userId dto (c c' : gmap string Order) e :
  createOrder cat cfg now newId userId dto c = (Throw e, c') -> c' = c.
Proof.
  rewrite createOrder_unfold.
  destruct (price_items cat (dto_items dto) [] 0) as [[its total]|e'].
  - apply save_new_Throw.
  - by intros [= _ <-].
Qed.

(** The document [createOrder] builds satisfies the history invariant. *)
Lemma history_ok_created (o : Order) now userId :
  customer o = userId ->
  status o = REQUESTED ->
  statusHistory o = [ mkStatusHistoryEntry REQUESTED now "Order placed" userId ] ->
  history_ok o.
Proof.
  intros Hc Hs Hh. split; rewrite Hh; cbn.
  - lia.
  - eexists. split; [done |]. unfold is_creation_entry. cbn. by rewrite Hc.
  - by rewrite Hs.
Qed.

(** Pushing an entry with the new status keeps the invariant. *)
Lemma history_ok_pushed (o o' : Order) e :
  history_ok o ->
  customer o' = customer o ->
  statusHistory o' = (statusHistory o ++ [e])%list ->
  status o' = entry_status e ->
  history_ok o'.
Proof.
  intros [Hlen (e0 & Hhead & Hfirst) _] Hc Hh Hs. split; rewrite Hh.
  - rewrite length_app. lia.
  - exists e0. split.
    + destruct (statusHistory o); [discriminate | done].
    + unfold is_creation_entry in *. by rewrite Hc.
  - by rewrite last_snoc, Hs.
Qed.

(** A write that leaves customer, status and history alone keeps it too. *)
Lemma history_ok_frame (o o' : Order) :
  history_ok o ->
  customer o' = customer o ->
  statusHistory o' = statusHistory o ->
  status o' = status o ->
  history_ok o'.
Proof.
  intros [Hlen Hfirst Hlast] Hc Hh Hs.
  split; rewrite Hh; [done | | by rewrite Hs].
  unfold is_creation_entry in *. by rewrite Hc.
Qed.

Lemma step_write c c' : step c c' -> write c c'.
Proof.
  destruct 1 as [cat cfg now newId userId dto [o|e] c' Hrun
                |now orderId dto user [o'|e] c' Hrun
                |users now orderId dto [o'|e] c' Hrun].
  - destruct (createOrder_Ok _ _ _ _ _ _ _ _ _ Hrun)
      as (total & _ & _ & Hid & Hc & _ & Hs & Hh & Hfree & ->).
    rewrite <- Hid in *. rewrite <- Hc in Hh. by eapply write_insert.
  - apply createOrder_Throw in Hrun as ->. constructor.
  - destruct (updateOrderStatus_Ok _ _ _ _ _ _ _ Hrun) as (o & Hfound & _ & Ho' & ->).
    eapply write_push; [exact Hfound | by subst o' ..].
  - apply updateOrderStatus_Throw in Hrun as ->. constructor.
  - destruct (assignDeliveryPerson_Ok _ _ _ _ _ _ _ Hrun)
      as (o & Hfound & _ & (Hid & Hc & _ & _ & _ & _ & Hs & Hh & _) & ->).
    by eapply write_frame.
  - apply assignDeliveryPerson_Throw in Hrun as ->. constructor.
Qed.

Create HintDb history.
#[local] Hint Resolve history_ok_created history_ok_pushed history_ok_frame : history.

(** Each kind of write keeps the documents under their [_id] and keeps the
    history invariant of every stored order. *)
Lemma write_stored_ok c c' : stored_ok c -> write c c' -> stored_ok c'.
Proof.
  intros [Hkey Hinv].
  destruct 1 as [c|c o now Hfree Hs Hh|c k o o' e Hk Hid Hc Hh Hs|c k o o' Hk Hid Hc Hh Hs];
    [done | ..];
    (split; intros id o1; rewrite lookup_insert;
       (case_decide; [intros [= <-] | intros Hold]);
       eauto with history; congruence).
Qed.

Lemma reachable_stored_ok c : reachable c -> stored_ok c.
Proof.
  induction 1 as [|c c' _ IH Hstep].
  - split; intros id o Hlook; by rewrite lookup_empty in Hlook.
  - eauto using write_stored_ok, step_write.
Qed.

(** No write edits or drops an entry of a stored history. *)
Lemma write_append_only c c' id o :
  keyed c -> write c c' -> c !! id = Some o ->
  exists o', c' !! id = Some o' /\ statusHistory o `prefix_of` statusHistory o'.
Proof.
  intros Hkey Hwrite Hlook.
  destruct Hwrite as [c|c o1 now Hfree Hs Hh|c k o1 o' e Hk Hid Hc Hh Hs|c k o1 o' Hk Hid Hc Hh Hs].
  - by exists o.
  - exists o. rewrite lookup_insert_ne; [done | congruence].
  - rewrite (Hkey _ _ Hk). destruct (decide (k = id)) as [->|Hne].
    + exists o'. rewrite lookup_insert_eq. split; [done |].
      rewrite Hh. replace o1 with o by congruence. by apply prefix_app_r.
    + exists o. by rewrite lookup_insert_ne.
  - rewrite (Hkey _ _ Hk). destruct (decide (k = id)) as [->|Hne].
    + exists o'. rewrite lookup_insert_eq. split; [done |].
      rewrite Hh. by replace o1 with o by congruence.
    + exists o. by rewrite lookup_insert_ne.
Qed.

(** C5: in every collection the service can reach, each order has a history
    of length at least one whose first entry is the REQUESTED "Order placed"
    entry of its customer and whose last entry has the status of the order;
    a status update pushes exactly one entry, with the caller, the new status,
    the current instant and the note (or the empty string), and no service
    call edits or removes an entry. *)
Theorem statusHistory_invariant (c : gmap string Order) :
  reachable c ->
  (forall id o, c !! id = Some o -> history_ok o)
  /\ (forall now orderId dto user o' c',
        updateOrderStatus now orderId dto user c = (Ok o', c') ->
        exists o,
          c !! orderId = Some o
          /\ statusHistory o' =
               (statusHistory o ++
                  [ mkStatusHistoryEntry (dto_status dto) now
                      (default "" (dto_note dto)) (user_id user) ])%list
          /\ status o' = dto_status dto
          /\ c' !! orderId = Some o')
  /\ (forall c', step c c' ->
        forall id o, c !! id = Some o ->
        exists o', c' !! id = Some o' /\ statusHistory o `prefix_of` statusHistory o').
Proof.
  intros Hreach. destruct (reachable_stored_ok c Hreach) as [Hkey Hinv].
  split; [exact Hinv | split].
  - intros now orderId dto user o' c' Hrun.
    destruct (updateOrderStatus_Ok _ _ _ _ _ _ _ Hrun) as (o & Hfound & _ & -> & ->).
    exists o. rewrite (Hkey _ _ Hfound), lookup_insert_eq. by cbn.
  - intros c' Hstep id o Hlook.
    eauto using write_append_only, step_write.
Qed.

(** ** Statistics *)

Lemma OrderStatus_value_inj s1 s2 : OrderStatus_value s1 = OrderStatus_value s2 -> s1 = s2.
Proof. by destruct s1, s2. Qed.

Lemma row_of_bump s s' g :
  row_of s (bump s' g) =
    if decide (s' = s) then Some (S (default 0%nat (row_of s g))) else row_of s g.
Proof.
  induction g as [|[k n] g IH]; cbn.
  - by repeat case_decide.
  - repeat (case_decide; cbn; subst); try done; try congruence;
      rewrite IH; by rewrite ?decide_True, ?decide_False.
Qed.

Lemma row_of_None s g : row_of s g = None <-> s ∉ g.*1.
Proof.
  induction g as [|[k n] g IH]; cbn.
  - split; [intros _; apply not_elem_of_nil | done].
  - rewrite not_elem_of_cons. case_decide as Hk; subst.
    + split; [discriminate | by intros [? _]].
    + rewrite IH. split; [by split | by intros [_ ?]].
Qed.

Lemma bump_keys_NoDup s g : NoDup g.*1 -> NoDup (bump s g).*1.
Proof.
  induction g as [|[k n] g IH]; cbn.
  - intros _. apply NoDup_singleton.
  - rewrite NoDup_cons. intros [Hk Hg]. case_decide; cbn.
    + by apply NoDup_cons.
    + apply NoDup_cons. split; [|by apply IH].
      rewrite <- row_of_None in Hk |- *. rewrite row_of_bump. by rewrite decide_False.
Qed.

Lemma bump_sum s g : sum_list (bump s g).*2 = S (sum_list g.*2).
Proof.
  induction g as [|[k n] g IH]; cbn; [done |].
  case_decide; cbn; [done |]. rewrite IH. lia.
Qed.

Lemma group_by_status_NoDup docs : NoDup (group_by_status docs).*1.
Proof. induction docs; cbn; [constructor | by apply bump_keys_NoDup]. Qed.

Lemma group_by_status_sum docs : sum_list (group_by_status docs).*2 = length docs.
Proof. induction docs as [|o docs IH]; cbn; [done |]. by rewrite bump_sum, IH. Qed.

Lemma bucket_cons s o docs :
  bucket s (o :: docs) = if decide (status o = s) then S (bucket s docs) else bucket s docs.
Proof. unfold bucket. rewrite filter_cons. by case_decide. Qed.

Lemma group_by_status_row s docs :
  default 0%nat (row_of s (group_by_status docs)) = bucket s docs.
Proof.
  induction docs as [|o docs IH]; [done |].
  cbn [group_by_status]. rewrite row_of_bump, bucket_cons.
  case_decide; cbn; by rewrite IH.
Qed.

(** The object built by the [reduce] holds, under the value of each status,
    the row of that status. *)
Lemma statusCounts_of_lookup_acc g (acc : gmap string nat) s :
  NoDup g.*1 ->
  foldl (fun acc item => <[OrderStatus_value item.1 := item.2]> acc) acc g
    !! OrderStatus_value s
  = match row_of s g with
    | Some n => Some n
    | None => acc !! OrderStatus_value s
    end.
Proof.
  revert acc. induction g as [|[k n] g IH]; intros acc; cbn; [done |].
  rewrite NoDup_cons. intros [Hk Hg]. rewrite IH by done.
  case_decide; subst.
  - apply row_of_None in Hk. by rewrite Hk, lookup_insert_eq.
  - destruct (row_of s g); [done |].
    rewrite lookup_insert_ne; [done |]. intros Heq. by apply OrderStatus_value_inj in Heq.
Qed.

Lemma count_or_0_bucket docs s :
  count_or_0 (statusCounts_of (group_by_status docs)) s = bucket s docs.
Proof.
  unfold count_or_0, statusCounts_of.
  rewrite statusCounts_of_lookup_acc by apply group_by_status_NoDup.
  rewrite <- group_by_status_row.
  by destruct (row_of s (group_by_status docs)).
Qed.

(** The values of that object are the counts of the rows, in some order. *)
Lemma statusCounts_of_values_acc g (acc : gmap string nat) :
  NoDup g.*1 ->
  (forall k, k ∈ g.*1 -> acc !! OrderStatus_value k = None) ->
  Object_values
    (foldl (fun acc item => <[OrderStatus_value item.1 := item.2]> acc) acc g)
  ≡ₚ (g.*2 ++ Object_values acc)%list.
Proof.
  unfold Object_values.
  revert acc. induction g as [|[k n] g IH]; intros acc; cbn; [done |].
  rewrite NoDup_cons. intros [Hk Hg] Hfree. rewrite IH; [|done|].
  - rewrite map_to_list_insert by (apply Hfree; left).
    cbn. by rewrite Permutation_middle.
  - intros k' Hk'. rewrite lookup_insert_ne; [apply Hfree; by right |].
    intros Heq. apply OrderStatus_value_inj in Heq. by subst.
Qed.

Lemma foldl_add_sum_list (l : list nat) (a : nat) :
  foldl Nat.add a l = (a + sum_list l)%nat.
Proof.
  revert a. induction l as [|x l IH]; intros a; cbn; [lia |]. rewrite IH. lia.
Qed.

Lemma total_is_length docs :
  foldl Nat.add 0%nat (Object_values (statusCounts_of (group_by_status docs)))
  = length docs.
Proof.
  rewrite foldl_add_sum_list. unfold statusCounts_of.
  rewrite statusCounts_of_values_acc.
  - unfold Object_values. rewrite map_to_list_empty, app_nil_r. cbn.
    apply group_by_status_sum.
  - apply group_by_status_NoDup.
  - intros. apply lookup_empty.
Qed.

(** Every document is in exactly one bucket. *)
Lemma buckets_partition docs :
  (bucket REQUESTED docs + bucket PICKED_UP docs + bucket IN_LAUNDRY docs
   + bucket OUT_FOR_DELIVERY docs + bucket DELIVERED docs + bucket CANCELLED docs)%nat
  = length docs.
Proof.
  induction docs as [|o docs IH]; [done |].
  rewrite !bucket_cons. cbn [length]. rewrite <- IH.
  destruct (status o); repeat case_decide; try done; lia.
Qed.

(** C8: [getOrderStats] reports the REQUESTED bucket as pending, the sum of
    the PICKED_UP, IN_LAUNDRY and OUT_FOR_DELIVERY buckets as in progress,
    the DELIVERED bucket as completed, the CANCELLED bucket as cancelled, and
    as total the sum of all buckets, which is the size of the collection. *)
Theorem getOrderStats_buckets today (c : gmap string Order) :
  exists s,
    getOrderStats today c = (Ok s, c)
    /\ pendingOrders s = bucket REQUESTED (documents c)
    /\ inProgressOrders s =
         (bucket PICKED_UP (documents c) + bucket IN_LAUNDRY (documents c)
          + bucket OUT_FOR_DELIVERY (documents c))%nat
    /\ completedOrders s = bucket DELIVERED (documents c)
    /\ cancelledOrders s = bucket CANCELLED (documents c)
    /\ totalOrders s =
         (bucket REQUESTED (documents c) + bucket PICKED_UP (documents c)
          + bucket IN_LAUNDRY (documents c) + bucket OUT_FOR_DELIVERY (documents c)
          + bucket DELIVERED (documents c) + bucket CANCELLED (documents c))%nat
    /\ totalOrders s = size c.
Proof.
  eexists. split; [reflexivity |]. cbn.
  rewrite !count_or_0_bucket, total_is_length, buckets_partition.
  repeat split. unfold documents. by rewrite length_fmap, length_map_to_list.
Qed.

(** The scenario of the specification: three REQUESTED, two DELIVERED and one
    CANCELLED order. *)
Example getOrderStats_fleet :
  bucket REQUESTED (documents Sample.fleet) = 3%nat
  /\ bucket DELIVERED (documents Sample.fleet) = 2%nat
  /\ bucket CANCELLED (documents Sample.fleet) = 1%nat
  /\ exists s,
       getOrderStats 0 Sample.fleet = (Ok s, Sample.fleet)
       /\ totalOrders s = 6%nat /\ pendingOrders s = 3%nat
       /\ completedOrders s = 2%nat /\ cancelledOrders s = 1%nat
       /\ inProgressOrders s = 0%nat.
Proof.
  split; [vm_compute; reflexivity |].
  split; [vm_compute; reflexivity |].
  split; [vm_compute; reflexivity |].
  eexists. split; [reflexivity |]. vm_compute. by repeat split.
Qed.

(** ** The unassigned-orders listing *)

#[global] Instance createdAt_le_total : Total createdAt_le.
Proof. intros a b. unfold createdAt_le. lia. Qed.

#[global] Instance createdAt_le_trans : Transitive createdAt_le.
Proof. intros a b d. unfold createdAt_le. lia. Qed.

(** C10: [getUnassignedOrders] returns exactly the stored orders that have no
    delivery person and are REQUESTED, oldest first; an order without
    delivery person in another status is not listed. *)
Theorem getUnassignedOrders_listing (c : gmap string Order) :
  exists l,
    getUnassignedOrders c = (Ok l, c)
    /\ l ≡ₚ filter unassigned_query (documents c)
    /\ (forall o, o ∈ l <->
          o ∈ documents c /\ deliveryPerson o = None /\ status o = REQUESTED)
    /\ StronglySorted createdAt_le l
    /\ (forall i j a b, l !! i = Some a -> l !! j = Some b -> (i <= j)%nat ->
          createdAt a <= createdAt b)
    /\ (forall o, o ∈ documents c -> deliveryPerson o = None ->
          status o <> REQUESTED -> o ∉ l).
Proof.
  eexists. split; [reflexivity |].
  set (l := merge_sort createdAt_le (filter unassigned_query (documents c))).
  assert (Hperm : l ≡ₚ filter unassigned_query (documents c))
    by apply merge_sort_Permutation.
  assert (Hmem : forall o, o ∈ l <->
            o ∈ documents c /\ deliveryPerson o = None /\ status o = REQUESTED).
  { intros o. rewrite Hperm, list_elem_of_filter. unfold unassigned_query. tauto. }
  assert (Hsorted : StronglySorted createdAt_le l)
    by apply (StronglySorted_merge_sort _).
  split; [exact Hperm | split; [exact Hmem | split; [exact Hsorted | split]]].
  - intros i j a b Hi Hj Hij.
    destruct (decide (i = j)) as [-> | Hne].
    + replace b with a by congruence. lia.
    + clear Hperm Hmem. revert i j Hi Hj Hij Hne.
      induction Hsorted as [|x l' Hs IH Hall]; intros i j Hi Hj Hij Hne; [done |].
      destruct i as [|i], j as [|j]; cbn in *; try lia.
      * injection Hi as ->. rewrite Forall_forall in Hall.
        apply Hall. by eapply list_elem_of_lookup_2.
      * apply (IH i j); [done | done | lia | lia].
  - intros o _ _ Hstatus Hin. apply Hmem in Hin. tauto.
Qed.

(** In the sample fleet the unassigned REQUESTED orders are o2 (created at
    10) and o1 (created at 30); o6 is unassigned but CANCELLED. *)
Example getUnassignedOrders_fleet :
  (getUnassignedOrders Sample.fleet).1 =
    Ok [Sample.order_at fleet2_id 10 None REQUESTED; Sample.order_at fleet1_id 30 None REQUESTED].
Proof. vm_compute; reflexivity. Qed.

(** The collection after alice placed her order is reachable; root then moves
    the order to PICKED_UP. *)
Lemma statusHistory_invariant_witness :
  reachable Sample.db1
  /\ history_ok Sample.order1
  /\ exists o',
       updateOrderStatus 2000 order1_id (mkUpdateOrderStatusDto PICKED_UP None)
         Sample.root Sample.db1 = (Ok o', <[order1_id := o']> Sample.db1)
       /\ statusHistory o' =
            [ mkStatusHistoryEntry REQUESTED 1000 "Order placed" alice_id;
              mkStatusHistoryEntry PICKED_UP 2000 "" root_id ]
       /\ status o' = PICKED_UP.
Proof.
  assert (Hreach : reachable Sample.db1).
  { apply (reachable_step ∅ Sample.db1 reachable_empty).
    apply (step_createOrder ∅ Sample.catalog Sample.config 1000 order1_id alice_id
             Sample.dto (Ok Sample.order1) Sample.db1).
    vm_compute. reflexivity. }
  destruct (statusHistory_invariant Sample.db1 Hreach) as (Hinv & Hpush & _).
  split; [exact Hreach | split].
  - apply (Hinv order1_id). reflexivity.
  - destruct (updateOrderStatus 2000 order1_id (mkUpdateOrderStatusDto PICKED_UP None)
                Sample.root Sample.db1) as [[o'|e] c'] eqn:Hrun.
    + destruct (Hpush _ _ _ _ _ _ Hrun) as (o & Hfound & Hh & Hs & _).
      destruct (updateOrderStatus_Ok _ _ _ _ _ _ _ Hrun) as (o1 & Hfound1 & _ & _ & ->).
      change (Some Sample.order1 = Some o) in Hfound.
      change (Some Sample.order1 = Some o1) in Hfound1.
      injection Hfound as <-. injection Hfound1 as <-.
      exists o'. split; [reflexivity | split; [exact Hh | exact Hs]].
    + vm_compute in Hrun. discriminate Hrun.
Defined.

(** ** The price preview *)

(** The preview never fails: on the request whose second line has no price
    it reports the first line alone, where [createOrder] throws. *)
Example calculateOrderTotal_skips_unpriced :
  calculateOrderTotal Sample.catalog (dto_items Sample.women_dto) =
    (130,
     [ mkBreakdownEntry shirt_id [(WASHING, 40); (IRONING, 25)] 2 130;
       mkBreakdownEntry shirt_id [] 1 0 ]).
Proof. reflexivity. Qed.

(** * Further properties of the code *)

(** ** The transition table as a graph *)

Lemma transition_advances a b :
  isValidStatusTransition a b = true -> (stage a < stage b)%nat.
Proof. destruct a, b; cbn; first [discriminate | lia]. Qed.

Lemma valid_chain_cons a b rest :
  valid_chain (a :: b :: rest) <->
  isValidStatusTransition a b = true /\ valid_chain (b :: rest).
Proof. done. Qed.

Lemma valid_chain_later a l :
  valid_chain (a :: l) -> Forall (fun s => (stage a < stage s)%nat) l.
Proof.
  revert a. induction l as [|b l IH]; intros a; [constructor |].
  rewrite valid_chain_cons. intros [Hab Hl].
  apply transition_advances in Hab. constructor; [done |].
  eapply Forall_impl; [by apply IH |]. cbn. intros s Hs. lia.
Qed.

Lemma valid_chain_budget a l :
  valid_chain (a :: l) -> (length (a :: l) + stage a <= 5)%nat.
Proof.
  revert a. induction l as [|b l IH]; intros a.
  - intros _. destruct a; cbn; lia.
  - rewrite valid_chain_cons. intros [Hab Hl].
    apply transition_advances in Hab. specialize (IH b Hl). cbn in *. lia.
Qed.

Lemma valid_chain_tail a l : valid_chain (a :: l) -> valid_chain l.
Proof. destruct l; [done |]. rewrite valid_chain_cons. tauto. Qed.

Lemma valid_chain_NoDup l : valid_chain l -> NoDup l.
Proof.
  induction l as [|a l IH]; intros Hl; [constructor |].
  apply NoDup_cons. split; [|by eapply IH, valid_chain_tail].
  intros Hin. apply valid_chain_later in Hl.
  rewrite Forall_forall in Hl. specialize (Hl a Hin). lia.
Qed.

(** X1: the table has no cycle: along any chain of valid transitions no
    status occurs twice, and a chain visits at most five statuses (four
    transitions). *)
Theorem valid_chain_no_return (l : list OrderStatus) :
  valid_chain l -> NoDup l /\ (length l <= 5)%nat.
Proof.
  intros Hl. split.
  - by apply valid_chain_NoDup.
  - destruct l as [|a l]; [cbn; lia |].
    apply valid_chain_budget in Hl. lia.
Qed.

Lemma valid_chain_no_return_witness :
  valid_chain [REQUESTED; PICKED_UP; IN_LAUNDRY; OUT_FOR_DELIVERY; DELIVERED]
  /\ NoDup [REQUESTED; PICKED_UP; IN_LAUNDRY; OUT_FOR_DELIVERY; DELIVERED]
  /\ (length [REQUESTED; PICKED_UP; IN_LAUNDRY; OUT_FOR_DELIVERY; DELIVERED] <= 5)%nat.
Proof.
  assert (H : valid_chain [REQUESTED; PICKED_UP; IN_LAUNDRY; OUT_FOR_DELIVERY; DELIVERED])
    by (cbn; tauto).
  split; [exact H |].
  exact (valid_chain_no_return _ H).
Defined.

Lemma valid_chain_snoc l y x :
  valid_chain l -> last l = Some y -> isValidStatusTransition y x = true ->
  valid_chain (l ++ [x]).
Proof.
  induction l as [|a l IH]; [done |].
  destruct l as [|b l].
  - cbn. intros _ [= ->] Hyx. done.
  - rewrite valid_chain_cons. intros [Hab Hl] Hlast Hyx.
    cbn [app]. rewrite valid_chain_cons. split; [done |]. by apply IH.
Qed.

(** ** What a service call does to each stored order *)

Lemma createOrder_Ok_created cat cfg now newId userId dto (c c' : gmap string Order) o :
  createOrder cat cfg now newId userId dto c = (Ok o, c') ->
  just_created o /\ _id o = newId /\ customer o = userId /\ createdAt o = now
  /\ pickupAddress o = dto_pickupAddress dto
  /\ deliveryAddress o = default (dto_pickupAddress dto) (dto_deliveryAddress dto)
  /\ c !! newId = None /\ c' = <[newId := o]> c.
Proof.
  rewrite createOrder_unfold.
  destruct (price_items cat (dto_items dto) [] 0) as [[its total]|e] eqn:Hprice;
    [|discriminate].
  intros Hsave. apply save_new_Ok in Hsave as (-> & -> & Hfree & Hvalid).
  destruct (price_items_Ok _ _ _ _ _ _ Hprice) as (priced & Hits & Hall & Htotal).
  cbn in Hits. subst priced.
  assert (Hvalid' := Hvalid).
  unfold validate_Order, validate_OrderPricing in Hvalid'. cbn in Hvalid'.
  repeat (apply andb_prop in Hvalid' as [Hvalid' ?]).
  repeat match goal with
         | H : _ && _ = true |- _ => apply andb_prop in H as [? ?]
         end.
  assert (Hitems : Forall (fun i => subtotal i = unitPrice i * quantity i
                     /\ 1 <= quantity i /\ 0 <= unitPrice i) its).
  { clear -Hall Hvalid'. induction Hall as [|l i ls its' Hl Hall IH]; [constructor |].
    cbn in Hvalid'. apply andb_prop in Hvalid' as [Hi Hvalid']. constructor; [|by apply IH].
    destruct Hl as (_ & _ & _ & _ & _ & Hsub).
    unfold validate_OrderItem in Hi.
    repeat (apply andb_prop in Hi as [Hi ?]). split; [done |]. split; by apply Z.leb_le. }
  assert (0 <= total) by by apply Z.leb_le.
  assert (0 <= config_deliveryCharge cfg) by by apply Z.leb_le.
  unfold just_created, amounts_ok. cbn.
  repeat split; first [done | lia].
Qed.

Lemma updateOrderStatus_Ok_by now orderId dto user (c c' : gmap string Order) o' :
  updateOrderStatus now orderId dto user c = (Ok o', c') ->
  exists o,
    c !! orderId = Some o
    /\ isValidStatusTransition (status o) (dto_status dto) = true
    /\ may_update o user
    /\ o' = set_updatedAt now
              (set_status (dto_status dto)
                 (statusHistory o ++
                    [ mkStatusHistoryEntry (dto_status dto) now
                        (default "" (dto_note dto)) (user_id user) ])
                 o)
    /\ c' = <[_id o := o']> c.
Proof.
  run_service. destruct (c !! orderId) as [o|] eqn:Hfound;
    [|by destruct (castsToObjectId orderId)].
  destruct (isValidStatusTransition (status o) (dto_status dto)) eqn:Hvalid;
    cbn; [|discriminate].
  destruct (bool_decide (deliveryPerson o = Some (user_id user))) eqn:Hd;
    destruct (bool_decide (role user = ADMIN)) eqn:Ha; cbn; try discriminate;
    intros [= <- <-]; exists o; repeat split; try done; unfold may_update;
    first [ left; by apply bool_decide_eq_true in Hd
          | right; by apply bool_decide_eq_true in Ha ].
Qed.

(** Every stored order is carried over by a service call, changed by at most
    one [order_step]; an order that appears was just created. *)
Lemma step_orders (c c' : gmap string Order) :
  keyed c -> step c c' ->
  (forall id o, c !! id = Some o -> exists o', c' !! id = Some o' /\ order_step o o')
  /\ (forall id o', c' !! id = Some o' -> c !! id = None -> just_created o').
Proof.
  intros Hkey.
  destruct 1 as [cat cfg now newId userId dto [o1|e] c' Hrun
                |now orderId dto user [o1|e] c' Hrun
                |users now orderId dto [o1|e] c' Hrun].
  - destruct (createOrder_Ok_created _ _ _ _ _ _ _ _ _ Hrun)
      as (Hnew & _ & _ & _ & _ & _ & Hfree & ->).
    split.
    + intros id o Ho. exists o. rewrite lookup_insert_ne by congruence.
      split; [done | constructor].
    + intros id o'. rewrite lookup_insert. case_decide; [by intros [= <-] | congruence].
  - apply createOrder_Throw in Hrun as ->.
    split; [intros id o Ho; exists o; split; [done | constructor] | congruence].
  - destruct (updateOrderStatus_Ok_by _ _ _ _ _ _ _ Hrun) as (o & Ho & Hv & Hp & -> & ->).
    rewrite (Hkey _ _ Ho). split.
    + intros id o2 Ho2. rewrite lookup_insert. case_decide as Hid.
      * subst id. eexists. split; [done |].
        replace o2 with o by congruence. by econstructor.
      * exists o2. split; [done | constructor].
    + intros id o'. rewrite lookup_insert. case_decide; [congruence | congruence].
  - apply updateOrderStatus_Throw in Hrun as ->.
    split; [intros id o Ho; exists o; split; [done | constructor] | congruence].
  - destruct (assignDeliveryPerson_Ok _ _ _ _ _ _ _ Hrun) as (o & Ho & Hd & Hsame & ->).
    rewrite (Hkey _ _ Ho). split.
    + intros id o2 Ho2. rewrite lookup_insert. case_decide as Hid.
      * subst id. eexists. split; [done |].
        replace o2 with o by congruence. by econstructor.
      * exists o2. split; [done | constructor].
    + intros id o'. rewrite lookup_insert. case_decide; [congruence | congruence].
  - apply assignDeliveryPerson_Throw in Hrun as ->.
    split; [intros id o Ho; exists o; split; [done | constructor] | congruence].
Qed.

Lemma reachable_keyed c : reachable c -> keyed c.
Proof. intros H. by destruct (reachable_stored_ok c H). Qed.

Lemma reachable_rtc c c' : reachable c -> rtc step c c' -> reachable c'.
Proof. intros Hc. induction 1; [done |]. eauto using reachable_step. Qed.

(** ** Invariants of the stored orders *)

Lemma keeps_refl o : keeps o o.
Proof. by repeat split. Qed.

Lemma keeps_trans o1 o2 o3 : keeps o1 o2 -> keeps o2 o3 -> keeps o1 o3.
Proof.
  intros (?&?&?&?&?&?&?&?&?&?&?&?) (?&?&?&?&?&?&?&?&?&?&?&?).
  repeat split; first [congruence | by etrans | auto].
Qed.

Lemma order_step_keeps o o' : order_step o o' -> keeps o o'.
Proof.
  destruct 1 as [|now dto user Hv Hp|o' d Hd Hsame].
  - apply keeps_refl.
  - repeat split; cbn; try done. by apply prefix_app_r.
  - destruct Hsame as (?&?&?&?&?&?&?&Hh&?&?&?&?).
    repeat split; first [done | by rewrite Hh | by rewrite Hd].
Qed.

(** A terminal order is not moved by a service call. *)
Lemma order_step_terminal o o' :
  order_step o o' -> terminal (status o) ->
  status o' = status o /\ statusHistory o' = statusHistory o.
Proof.
  destruct 1 as [|now dto user Hv Hp|o' d Hd Hsame]; intros Hterm.
  - done.
  - exfalso. destruct Hterm as [Hs | Hs]; rewrite Hs in Hv; by destruct (dto_status dto).
  - by destruct Hsame as (?&?&?&?&?&?&?&?&?).
Qed.

Lemma order_step_chain o o' :
  history_ok o -> order_step o o' -> valid_chain (statuses o) -> valid_chain (statuses o').
Proof.
  intros Hok. destruct 1 as [|now dto user Hv Hp|o' d Hd Hsame]; intros Hchain.
  - done.
  - unfold statuses in *. cbn. rewrite fmap_app. cbn.
    apply (valid_chain_snoc _ (status o)); [done | | done].
    rewrite fmap_last. apply Hok.
  - destruct Hsame as (?&?&?&?&?&?&?&Hh&?). unfold statuses. by rewrite Hh.
Qed.

Lemma order_step_amounts o o' :
  order_step o o' ->
  amounts_ok o /\ validate_Order o = true -> amounts_ok o' /\ validate_Order o' = true.
Proof.
  intros Hstep. apply order_step_keeps in Hstep as (_&_&Hi&Hp&Ha&Hd&_).
  unfold amounts_ok, validate_Order. by rewrite Hi, Hp, Ha, Hd.
Qed.

Lemma just_created_sound o : just_created o -> sound o.
Proof.
  intros (_ & _ & Hh & _ & _ & Hv & Ha). split; [|done].
  unfold statuses. by rewrite Hh.
Qed.

Lemma reachable_sound c : reachable c -> forall id o, c !! id = Some o -> sound o.
Proof.
  induction 1 as [|c c' Hreach IH Hstep]; intros id o' Ho'.
  - by rewrite lookup_empty in Ho'.
  - destruct (reachable_stored_ok c Hreach) as [Hkey Hhist].
    destruct (step_orders c c' Hkey Hstep) as [Hold Hnew].
    destruct (c !! id) as [o|] eqn:Ho.
    + destruct (Hold _ _ Ho) as (o2 & Ho2 & Hos).
      replace o' with o2 by congruence.
      destruct (IH _ _ Ho) as (Hchain & Hamounts).
      split; [by eapply order_step_chain; eauto | by eapply order_step_amounts].
    + by apply just_created_sound, (Hnew id).
Qed.

(** X2: every stored order went through a chain of valid transitions: its
    history never repeats a status and holds at most five entries, so an
    order changes status at most four times. *)
Theorem statusHistory_follows_table (c : gmap string Order) id o :
  reachable c ->
  c !! id = Some o ->
  valid_chain (statuses o)
  /\ NoDup (statuses o)
  /\ (length (statusHistory o) <= 5)%nat.
Proof.
  intros Hreach Ho. destruct (reachable_sound c Hreach id o Ho) as [Hchain _].
  split; [done | split; [by apply valid_chain_NoDup |]].
  destruct (statuses o) as [|a l] eqn:Hst.
  - apply (f_equal length) in Hst. unfold statuses in Hst.
    rewrite length_fmap in Hst. cbn in Hst. lia.
  - apply valid_chain_budget in Hchain.
    apply (f_equal length) in Hst. unfold statuses in Hst.
    rewrite length_fmap in Hst. lia.
Qed.

(** Each service call is a step, whatever it returns. *)
Lemma step_create cat cfg now newId userId dto c :
  step c (createOrder cat cfg now newId userId dto c).2.
Proof. eapply step_createOrder. apply surjective_pairing. Qed.

Lemma step_update now orderId dto user c :
  step c (updateOrderStatus now orderId dto user c).2.
Proof. eapply step_updateOrderStatus. apply surjective_pairing. Qed.

Lemma step_assign users now orderId dto c :
  step c (assignDeliveryPerson users now orderId dto c).2.
Proof. eapply step_assignDeliveryPerson. apply surjective_pairing. Qed.

Lemma reachable_db1 : reachable Sample.db1.
Proof.
  apply (reachable_step ∅); [constructor |].
  apply (step_createOrder ∅ Sample.catalog Sample.config 1000 order1_id alice_id
           Sample.dto (Ok Sample.order1)).
  vm_compute; reflexivity.
Qed.

Lemma reachable_db6 : reachable Demo.db6.
Proof.
  repeat (eapply reachable_step; [| first [apply step_update | apply step_assign]]).
  apply reachable_db1.
Qed.

Lemma db6_delivered : Demo.db6 !! order1_id = Some Demo.delivered.
Proof. vm_compute; reflexivity. Qed.

Lemma db7_handed_over : Demo.db7 !! order1_id = Some Demo.handed_over.
Proof. vm_compute; reflexivity. Qed.

Lemma statusHistory_follows_table_witness :
  reachable Demo.db6
  /\ Demo.db6 !! order1_id = Some Demo.delivered
  /\ statuses Demo.delivered =
       [REQUESTED; PICKED_UP; IN_LAUNDRY; OUT_FOR_DELIVERY; DELIVERED]
  /\ valid_chain (statuses Demo.delivered)
  /\ NoDup (statuses Demo.delivered)
  /\ (length (statusHistory Demo.delivered) <= 5)%nat.
Proof.
  split; [apply reachable_db6 | split; [apply db6_delivered | split; [reflexivity |]]].
  exact (statusHistory_follows_table Demo.db6 order1_id Demo.delivered
           reachable_db6 db6_delivered).
Defined.

(** X3: every stored order keeps consistent amounts: each subtotal is unit
    price times quantity, with a quantity of at least one and a unit price
    that is not negative; [itemsTotal] is the sum of the subtotals and
    [grandTotal] is [itemsTotal] plus the delivery charge, none of them
    negative; and the order passes the validators of the schema. *)
Theorem stored_amounts_consistent (c : gmap string Order) id o :
  reachable c ->
  c !! id = Some o ->
  amounts_ok o /\ validate_Order o = true.
Proof.
  intros Hreach Ho. destruct (reachable_sound c Hreach id o Ho) as (_ & Ha & Hv).
  by split.
Qed.

Lemma stored_amounts_consistent_witness :
  reachable Demo.db6
  /\ Demo.db6 !! order1_id = Some Demo.delivered
  /\ amounts_ok Demo.delivered
  /\ validate_Order Demo.delivered = true.
Proof.
  split; [apply reachable_db6 | split; [apply db6_delivered |]].
  exact (stored_amounts_consistent Demo.db6 order1_id Demo.delivered
           reachable_db6 db6_delivered).
Defined.

Lemma rtc_step_orders (P : Order -> Order -> Prop) :
  (forall o, P o o) ->
  (forall o1 o2 o3, P o1 o2 -> order_step o2 o3 -> P o1 o3) ->
  forall c c', reachable c -> rtc step c c' ->
  forall id o, c !! id = Some o -> exists o', c' !! id = Some o' /\ P o o'.
Proof.
  intros Hrefl Hext c c' Hreach Hrun. revert c' Hrun.
  apply (rtc_ind_r (fun c' => forall id o, c !! id = Some o ->
                      exists o', c' !! id = Some o' /\ P o o')).
  - intros id o Ho. by exists o.
  - intros c1 c' Hrun Hstep IH id o Ho.
    destruct (IH id o Ho) as (o1 & Ho1 & HP).
    assert (Hreach1 : reachable c1) by eauto using reachable_rtc.
    destruct (step_orders c1 c' (reachable_keyed _ Hreach1) Hstep) as [Hold _].
    destruct (Hold _ _ Ho1) as (o' & Ho' & Hos).
    exists o'. eauto.
Qed.

(** X4: a DELIVERED or CANCELLED order is frozen: [updateOrderStatus] throws
    the transition error for every caller and every target status, and after
    any number of service calls the order has the same status and the same
    history. *)
Theorem terminal_order_frozen (c : gmap string Order) id o :
  reachable c ->
  c !! id = Some o ->
  terminal (status o) ->
  (forall now dto user,
      updateOrderStatus now id dto user c = (Throw (invalid_transition o dto), c))
  /\ (forall c', rtc step c c' ->
        exists o', c' !! id = Some o'
                   /\ status o' = status o /\ statusHistory o' = statusHistory o).
Proof.
  intros Hreach Ho Hterm. split.
  - intros now dto user. run_service. rewrite Ho.
    replace (isValidStatusTransition (status o) (dto_status dto)) with false; [done |].
    destruct Hterm as [-> | ->]; by destruct (dto_status dto).
  - intros c' Hrun.
    set (P := fun o1 o2 : Order => terminal (status o1) ->
                status o2 = status o1 /\ statusHistory o2 = statusHistory o1).
    assert (Hrefl : forall o1, P o1 o1) by done.
    assert (Hext : forall o1 o2 o3, P o1 o2 -> order_step o2 o3 -> P o1 o3).
    { intros o1 o2 o3 H12 Hos Ht. destruct (H12 Ht) as [Hs Hh].
      destruct (order_step_terminal o2 o3 Hos) as [Hs' Hh']; [by rewrite Hs |].
      split; congruence. }
    destruct (rtc_step_orders P Hrefl Hext c c' Hreach Hrun id o Ho) as (o' & Ho' & Hsame).
    exists o'. split; [done | by apply Hsame].
Qed.

Lemma terminal_order_frozen_witness :
  reachable Demo.db6
  /\ Demo.db6 !! order1_id = Some Demo.delivered
  /\ terminal (status Demo.delivered)
  /\ updateOrderStatus 6500 order1_id (mkUpdateOrderStatusDto CANCELLED None)
       Sample.root Demo.db6 =
     (Throw (BadRequestException "Invalid status transition from delivered to cancelled"),
      Demo.db6)
  /\ exists o', Demo.db7 !! order1_id = Some o'
                /\ status o' = DELIVERED
                /\ statusHistory o' = statusHistory Demo.delivered.
Proof.
  assert (Hterm : terminal (status Demo.delivered)) by (by left).
  destruct (terminal_order_frozen Demo.db6 order1_id Demo.delivered
              reachable_db6 db6_delivered Hterm) as [Hthrow Hkeep].
  split; [apply reachable_db6 | split; [apply db6_delivered | split; [exact Hterm | split]]].
  - exact (Hthrow 6500 (mkUpdateOrderStatusDto CANCELLED None) Sample.root).
  - apply (Hkeep Demo.db7). apply rtc_once. apply step_assign.
Defined.

(** X5: service calls never remove an order and never change its customer,
    items, pricing, addresses, notes, pickup time or creation instant; its
    history only grows at the end, and an order that has a delivery person
    keeps having one. *)
Theorem stored_order_keeps (c c' : gmap string Order) id o :
  reachable c ->
  rtc step c c' ->
  c !! id = Some o ->
  exists o', c' !! id = Some o' /\ keeps o o'.
Proof.
  intros Hreach Hrun Ho.
  apply (rtc_step_orders keeps keeps_refl) with (c := c); [| done | done | done].
  intros o1 o2 o3 H12 H23. apply (keeps_trans o1 o2 o3 H12).
  by apply order_step_keeps.
Qed.

Lemma stored_order_keeps_witness :
  reachable Sample.db1
  /\ rtc step Sample.db1 Demo.db6
  /\ Sample.db1 !! order1_id = Some Sample.order1
  /\ exists o', Demo.db6 !! order1_id = Some o' /\ keeps Sample.order1 o'.
Proof.
  assert (Hrun : rtc step Sample.db1 Demo.db6).
  { eapply rtc_l; [apply step_assign |].
    eapply rtc_l; [apply step_update |].
    eapply rtc_l; [apply step_update |].
    eapply rtc_l; [apply step_update |].
    apply rtc_once. apply step_update. }
  assert (Ho : Sample.db1 !! order1_id = Some Sample.order1) by reflexivity.
  split; [apply reachable_db1 | split; [exact Hrun | split; [exact Ho |]]].
  exact (stored_order_keeps Sample.db1 Demo.db6 order1_id Sample.order1
           reachable_db1 Hrun Ho).
Defined.

(** ** Listings and permissions after a write *)

Lemma elem_of_documents (c : gmap string Order) o :
  o ∈ documents c <-> exists id, c !! id = Some o.
Proof.
  unfold documents. rewrite list_elem_of_fmap. split.
  - intros [[id o'] [-> Hin]]. exists id. by apply elem_of_map_to_list in Hin.
  - intros [id Ho]. exists (id, o). split; [done |]. by apply elem_of_map_to_list.
Qed.

Lemma elem_of_merge_sort {A} (R : relation A) `{!RelDecision R} (l : list A) x :
  x ∈ merge_sort R l <-> x ∈ l.
Proof. by rewrite merge_sort_Permutation. Qed.

#[global] Instance createdAt_ge_total : Total createdAt_ge.
Proof. intros a b. unfold createdAt_ge. lia. Qed.

#[global] Instance createdAt_ge_trans : Transitive createdAt_ge.
Proof. intros a b d. unfold createdAt_ge. lia. Qed.

(** X6: a created order is at once readable by the customer who placed it,
    listed among that customer's orders and listed as unassigned; it is in
    status REQUESTED, has no delivery person, and is delivered to the pickup
    address unless a delivery address was given. *)
Theorem created_order_visible
    cat cfg now newId userId dto (c c' : gmap string Order) o :
  createOrder cat cfg now newId userId dto c = (Ok o, c') ->
  (forall user, user_id user = userId -> getOrderById newId user c' = (Ok o, c'))
  /\ (exists l, getCustomerOrders userId c' = (Ok l, c') /\ o ∈ l)
  /\ (exists l, getUnassignedOrders c' = (Ok l, c') /\ o ∈ l)
  /\ status o = REQUESTED /\ deliveryPerson o = None
  /\ deliveryAddress o = default (pickupAddress o) (dto_deliveryAddress dto).
Proof.
  intros Hrun.
  destruct (createOrder_Ok_created _ _ _ _ _ _ _ _ _ Hrun)
    as ((Hd & Hs & _) & Hid & Hc & _ & Hp & Ha & _ & ->).
  assert (Hstored : o ∈ documents (<[newId := o]> c)).
  { apply elem_of_documents. exists newId. by rewrite lookup_insert_eq. }
  split; [|split; [|split]].
  - intros user Hu. run_service. rewrite lookup_insert_eq.
    rewrite Hc, Hu. by rewrite bool_decide_eq_true_2.
  - eexists. split; [reflexivity |]. apply elem_of_merge_sort, list_elem_of_filter. done.
  - eexists. split; [reflexivity |]. apply elem_of_merge_sort, list_elem_of_filter. done.
  - by rewrite Hp.
Qed.

Lemma created_order_visible_witness :
  createOrder Sample.catalog Sample.config 1000 order1_id alice_id Sample.dto ∅ =
    (Ok Sample.order1, Sample.db1)
  /\ getOrderById order1_id Sample.alice Sample.db1 = (Ok Sample.order1, Sample.db1)
  /\ (exists l, getUnassignedOrders Sample.db1 = (Ok l, Sample.db1) /\ Sample.order1 ∈ l).
Proof.
  assert (Hrun : createOrder Sample.catalog Sample.config 1000 order1_id alice_id
                   Sample.dto ∅ = (Ok Sample.order1, Sample.db1))
    by (vm_compute; reflexivity).
  destruct (created_order_visible _ _ _ _ _ _ _ _ _ Hrun) as (Hread & _ & Hlisted & _).
  split; [exact Hrun | split; [by apply Hread | exact Hlisted]].
Defined.

(** X7: after a successful assignment the order is no longer listed as
    unassigned; it is in the new courier's active list, or in the courier's
    history when it is already DELIVERED or CANCELLED; and the new courier may
    read it and move it along any transition of the table. *)
Theorem assigned_order_moves
    users now orderId dto (c c' : gmap string Order) o' :
  reachable c ->
  assignDeliveryPerson users now orderId dto c = (Ok o', c') ->
  (exists l, getUnassignedOrders c' = (Ok l, c')
             /\ forall x, x ∈ l -> _id x <> orderId)
  /\ (exists l, getDeliveryOrders (deliveryPersonId dto) c' = (Ok l, c')
                /\ (o' ∈ l <-> ~ terminal (status o')))
  /\ (exists l, getDeliveryHistory (deliveryPersonId dto) c' = (Ok l, c')
                /\ (o' ∈ l <-> terminal (status o')))
  /\ (forall user, user_id user = deliveryPersonId dto ->
        getOrderById orderId user c' = (Ok o', c'))
  /\ (forall user now' dto', user_id user = deliveryPersonId dto ->
        isValidStatusTransition (status o') (dto_status dto') = true ->
        exists o'', (updateOrderStatus now' orderId dto' user c').1 = Ok o''
                    /\ status o'' = dto_status dto').
Proof.
  intros Hreach Hrun.
  assert (Hreach' : reachable c').
  { eapply reachable_step; [done |]. by eapply step_assignDeliveryPerson. }
  assert (Hkey' := reachable_keyed _ Hreach').
  destruct (assignDeliveryPerson_Ok _ _ _ _ _ _ _ Hrun) as (o & Ho & Hd & Hsame & ->).
  assert (Hid : _id o = orderId) by by apply (reachable_keyed _ Hreach).
  rewrite Hid in *.
  assert (Hstored : <[orderId := o']> c !! orderId = Some o') by by rewrite lookup_insert_eq.
  assert (Hdoc : o' ∈ documents (<[orderId := o']> c)) by (apply elem_of_documents; eauto).
  assert (Hterm : terminal (status o') <-> status o' ∈ [DELIVERED; CANCELLED]).
  { unfold terminal. rewrite !elem_of_cons, elem_of_nil. tauto. }
  split; [|split; [|split; [|split]]].
  - eexists. split; [reflexivity |]. intros x Hx Hidx.
    apply elem_of_merge_sort, list_elem_of_filter in Hx as [[Hnone _] Hin].
    apply elem_of_documents in Hin as [id Hin].
    assert (id = orderId) by (rewrite <- Hidx; symmetry; by apply Hkey').
    subst id. rewrite Hstored in Hin. injection Hin as <-. congruence.
  - eexists. split; [reflexivity |].
    rewrite elem_of_merge_sort, list_elem_of_filter. unfold active_delivery_query.
    rewrite Hterm. tauto.
  - eexists. split; [reflexivity |].
    rewrite elem_of_merge_sort, list_elem_of_filter. unfold closed_delivery_query.
    rewrite Hterm. tauto.
  - intros user Hu. run_service. rewrite Hstored, Hd, Hu.
    rewrite (bool_decide_eq_true_2 (Some _ = Some _)) by done.
    by rewrite andb_false_r.
  - intros user now' dto' Hu Hvalid. run_service. rewrite Hstored, Hvalid. cbn.
    rewrite Hd, Hu. rewrite (bool_decide_eq_true_2 (Some _ = Some _)) by done.
    cbn. eexists. split; [reflexivity | done].
Qed.

Lemma assigned_order_moves_witness :
  reachable Sample.db1
  /\ (assignDeliveryPerson Sample.users 2000 order1_id (mkAssignDeliveryDto bob_id)
        Sample.db1).2 = Demo.db2
  /\ exists o'' : Order,
       (updateOrderStatus 3000 order1_id (mkUpdateOrderStatusDto PICKED_UP None)
          Sample.bob Demo.db2).1 = Ok o''
       /\ status o'' = PICKED_UP.
Proof.
  split; [apply reachable_db1 | split; [reflexivity |]].
  destruct (assignDeliveryPerson Sample.users 2000 order1_id
              (mkAssignDeliveryDto bob_id) Sample.db1) as [[o'|e] c'] eqn:Hrun.
  - assert (Hc' : c' = Demo.db2) by (unfold Demo.db2; by rewrite Hrun).
    destruct (assigned_order_moves _ _ _ _ _ _ _ reachable_db1 Hrun)
      as (_ & _ & _ & _ & Hmove).
    rewrite <- Hc'.
    apply (Hmove Sample.bob 3000 (mkUpdateOrderStatusDto PICKED_UP None)); [reflexivity |].
    assert (Hs : (assignDeliveryPerson Sample.users 2000 order1_id
                    (mkAssignDeliveryDto bob_id) Sample.db1).1
                 = Ok (set_updatedAt 2000 (set_deliveryPerson bob_id Sample.order1)))
      by (vm_compute; reflexivity).
    rewrite Hrun in Hs. injection Hs as ->. reflexivity.
  - vm_compute in Hrun. discriminate Hrun.
Defined.

(** X8: a re-assignment takes the order away from the previous courier: a
    user who is neither the new courier, nor the customer, nor an
    administrator can no longer read it nor change its status. *)
Theorem reassignment_revokes_access
    users now orderId dto (c c' : gmap string Order) o' user :
  reachable c ->
  assignDeliveryPerson users now orderId dto c = (Ok o', c') ->
  user_id user <> deliveryPersonId dto ->
  user_id user <> customer o' ->
  role user <> ADMIN ->
  getOrderById orderId user c' =
    (Throw (ForbiddenException "Access denied to this order"), c')
  /\ (forall now' dto', exists e, updateOrderStatus now' orderId dto' user c' = (Throw e, c'))
  /\ (exists l, getDeliveryOrders (user_id user) c' = (Ok l, c') /\ o' ∉ l).
Proof.
  intros Hreach Hrun Hother Hcust Hadmin.
  destruct (assignDeliveryPerson_Ok _ _ _ _ _ _ _ Hrun) as (o & Ho & Hd & Hsame & ->).
  assert (Hid : _id o = orderId) by by apply (reachable_keyed _ Hreach).
  rewrite Hid in *.
  assert (Hstored : <[orderId := o']> c !! orderId = Some o') by by rewrite lookup_insert_eq.
  split; [|split].
  - run_service. rewrite Hstored, Hd.
    rewrite !negb_bool_decide_true; [done | done | congruence | congruence].
  - intros now' dto'. run_service. rewrite Hstored, Hd.
    destruct (isValidStatusTransition (status o') (dto_status dto')); cbn; [|by eexists].
    rewrite !negb_bool_decide_true; [by eexists | done | congruence].
  - eexists. split; [reflexivity |]. intros Hin.
    apply elem_of_merge_sort, list_elem_of_filter in Hin as [[Hmine _] _]. congruence.
Qed.

Lemma reassignment_revokes_access_witness :
  reachable Demo.db6
  /\ (assignDeliveryPerson Sample.users 7000 order1_id (mkAssignDeliveryDto carol_id)
        Demo.db6) = (Ok Demo.handed_over, Demo.db7)
  /\ getOrderById order1_id Sample.bob Demo.db7 =
       (Throw (ForbiddenException "Access denied to this order"), Demo.db7).
Proof.
  assert (Hrun : assignDeliveryPerson Sample.users 7000 order1_id
                   (mkAssignDeliveryDto carol_id) Demo.db6
                 = (Ok Demo.handed_over, Demo.db7)) by (vm_compute; reflexivity).
  split; [apply reachable_db6 | split; [exact Hrun |]].
  apply (reassignment_revokes_access _ _ _ _ _ _ _ Sample.bob reachable_db6 Hrun);
    discriminate.
Defined.

(** ** The listings of a courier and of a customer *)

Lemma delivery_filters_partition userId (l : list Order) :
  filter (active_delivery_query userId) l ++ filter (closed_delivery_query userId) l
  ≡ₚ filter (fun o => deliveryPerson o = Some userId) l.
Proof.
  induction l as [|o l IH]; [done |].
  rewrite !filter_cons.
  destruct (decide (deliveryPerson o = Some userId)) as [Hd | Hd].
  - destruct (decide (status o ∈ [DELIVERED; CANCELLED])) as [Hs | Hs].
    + rewrite decide_False by (intros [_ ?]; done).
      rewrite decide_True by done.
      rewrite <- Permutation_middle. by constructor.
    + rewrite decide_True by done.
      rewrite decide_False by (intros [_ ?]; done).
      cbn. by constructor.
  - rewrite !decide_False by (intros [? _]; done). done.
Qed.

(** X9: the active list and the history of a courier split the orders
    assigned to that courier: together they hold each of them once, no order
    is in both, and each list is sorted newest first. *)
Theorem delivery_listings_partition (c : gmap string Order) userId :
  exists active closed,
    getDeliveryOrders userId c = (Ok active, c)
    /\ getDeliveryHistory userId c = (Ok closed, c)
    /\ active ++ closed ≡ₚ filter (fun o => deliveryPerson o = Some userId) (documents c)
    /\ (forall o, o ∈ active -> o ∉ closed)
    /\ (forall o, o ∈ active -> ~ terminal (status o))
    /\ (forall o, o ∈ closed -> terminal (status o))
    /\ StronglySorted createdAt_ge active
    /\ StronglySorted createdAt_ge closed.
Proof.
  do 2 eexists. split; [reflexivity | split; [reflexivity |]].
  assert (Hterm : forall s, terminal s <-> s ∈ [DELIVERED; CANCELLED]).
  { intros s. unfold terminal. rewrite !elem_of_cons, elem_of_nil. tauto. }
  split; [|split; [|split; [|split; [|split]]]].
  - rewrite !merge_sort_Permutation. apply delivery_filters_partition.
  - intros o Ha Hc.
    apply elem_of_merge_sort, list_elem_of_filter in Ha as [[_ Ha] _].
    apply elem_of_merge_sort, list_elem_of_filter in Hc as [[_ Hc] _]. done.
  - intros o Ha. rewrite Hterm.
    by apply elem_of_merge_sort, list_elem_of_filter in Ha as [[_ Ha] _].
  - intros o Hc. rewrite Hterm.
    by apply elem_of_merge_sort, list_elem_of_filter in Hc as [[_ Hc] _].
  - apply (StronglySorted_merge_sort _).
  - apply (StronglySorted_merge_sort _).
Qed.

(** X10: [getCustomerOrders] lists exactly the stored orders placed by the
    customer, newest first; an order of another customer is never listed. *)
Theorem getCustomerOrders_listing (c : gmap string Order) userId :
  exists l,
    getCustomerOrders userId c = (Ok l, c)
    /\ l ≡ₚ filter (fun o => customer o = userId) (documents c)
    /\ (forall o, o ∈ l <-> (exists id, c !! id = Some o) /\ customer o = userId)
    /\ StronglySorted createdAt_ge l.
Proof.
  eexists. split; [reflexivity | split; [apply merge_sort_Permutation | split]].
  - intros o. rewrite elem_of_merge_sort, list_elem_of_filter, elem_of_documents. tauto.
  - apply (StronglySorted_merge_sort _).
Qed.

(** ** Pagination *)

Lemma ceil_div_bounds a b :
  (0 < b)%nat ->
  (a <= ceil_div a b * b)%nat /\ (ceil_div a b * b < a + b)%nat.
Proof.
  intros Hb. unfold ceil_div.
  pose proof (Nat.div_mod a b ltac:(lia)) as Hdm.
  pose proof (Nat.mod_upper_bound a b ltac:(lia)) as Hmod.
  destruct (Nat.eqb_spec (a mod b) 0) as [Hz | Hz]; nia.
Qed.

(** Cutting a list into consecutive chunks of [n] and gluing them back. *)
Lemma chunks_glue {A} (n k : nat) (l : list A) :
  (length l <= k * n)%nat ->
  mjoin ((fun i => take n (drop (i * n) l)) <$> seq 0 k) = l.
Proof.
  revert l. induction k as [|k IH]; intros l Hlen.
  - cbn in *. destruct l; [done | cbn in Hlen; lia].
  - rewrite <- cons_seq, <- fmap_S_seq. cbn [fmap list_fmap mjoin list_join].
    rewrite <- list_fmap_compose. cbn. rewrite drop_0.
    rewrite <- (take_drop n l) at 2. f_equal.
    rewrite <- (IH (drop n l)) by (rewrite length_drop; lia).
    f_equal. apply list_fmap_ext. intros _ i _. cbn. by rewrite drop_drop.
Qed.

(** Documents with distinct sort keys have one sorted arrangement. *)
Lemma sorted_newest_first_unique (l l1 l2 : list Order) :
  NoDup (createdAt <$> l) ->
  l1 ≡ₚ l -> l2 ≡ₚ l ->
  StronglySorted createdAt_ge l1 -> StronglySorted createdAt_ge l2 ->
  l1 = l2.
Proof.
  intros Hdistinct Hl1 Hl2 Hs1 Hs2.
  apply (StronglySorted_unique_strong createdAt_ge); [|done | done | by rewrite Hl1, Hl2].
  intros x1 x2 Hx1 Hx2 H12 H21. rewrite Hl1 in Hx1. rewrite Hl2 in Hx2.
  apply list_elem_of_lookup in Hx1 as [i Hi]. apply list_elem_of_lookup in Hx2 as [j Hj].
  assert (i = j) as ->; [|congruence].
  apply (NoDup_lookup (createdAt <$> l) i j (createdAt x1)); [done | |].
  - by rewrite list_lookup_fmap, Hi.
  - rewrite list_lookup_fmap, Hj. cbn. f_equal. unfold createdAt_ge in *. lia.
Qed.

(** X11: every page of [getAllOrders] reports the number of matching orders
    as [total] and the least number of pages that hold them as [totalPages];
    a page holds at most [limit] orders, all of them matching, and a page
    after the last is empty.  When no two matching orders were created at the
    same instant, pages 1 to [totalPages], one after the other, are all the
    matching orders, newest first, each once, whatever order the database
    chooses for each query. *)
Theorem getAllOrders_pages (sorts : positive -> list Order -> list Order)
    (c : gmap string Order) st limit :
  (forall p, sorts_newest_first (sorts p)) ->
  let matching := filter (status_query st) (documents c) in
  let n := length matching in
  let k := ceil_div n (Pos.to_nat limit) in
  (forall p, exists r,
      getAllOrders (sorts p) st (Some p) (Some limit) c = (Ok r, c)
      /\ total r = n /\ totalPages r = k /\ page r = p
      /\ (length (orders r) <= Pos.to_nat limit)%nat
      /\ (forall o, o ∈ orders r -> o ∈ matching)
      /\ ((k < Pos.to_nat p)%nat -> orders r = []))
  /\ (n <= k * Pos.to_nat limit)%nat
  /\ (k * Pos.to_nat limit < n + Pos.to_nat limit)%nat
  /\ (NoDup (createdAt <$> matching) ->
      mjoin ((fun p => page_orders (sorts (Pos.of_nat p)) st limit c p) <$> seq 1 k)
      = merge_sort createdAt_ge matching).
Proof.
  intros Hsorts matching n k. pose proof (Pos2Nat.is_pos limit) as Hlimit.
  destruct (ceil_div_bounds n (Pos.to_nat limit) Hlimit) as [Hlow Hhigh]. fold k in Hlow, Hhigh.
  assert (Hlen : forall p, length (sorts p matching) = n).
  { intros p. by rewrite (proj1 (Hsorts p matching)). }
  split; [|split; [done | split; [done |]]].
  - intros p. eexists. split; [reflexivity |]. cbn.
    repeat split.
    + rewrite length_take. lia.
    + intros o Ho. apply subseteq_take, subseteq_drop in Ho.
      pose proof (proj1 (Hsorts p matching)) as Hperm.
      unfold matching in *. by rewrite <- Hperm.
    + intros Hp. apply nil_length_inv.
      fold matching. rewrite length_take, length_drop, Hlen. nia.
  - intros Hdistinct.
    assert (Hsame : forall p, sorts p matching = merge_sort createdAt_ge matching).
    { intros p. destruct (Hsorts p matching) as [Hperm Hsorted].
      apply (sorted_newest_first_unique matching); [done | done | | done |].
      - apply merge_sort_Permutation.
      - apply StronglySorted_merge_sort; apply _. }
    rewrite <- (chunks_glue (Pos.to_nat limit) k (merge_sort createdAt_ge matching))
      by (rewrite merge_sort_Permutation; fold n; lia).
    f_equal. rewrite <- fmap_S_seq, <- list_fmap_compose.
    apply list_fmap_ext. intros _ i _. unfold page_orders. cbn.
    fold matching. rewrite Hsame, Nat2Pos.id by lia. do 2 f_equal. lia.
Qed.

(** Six orders created at six instants, four to a page. *)
Lemma getAllOrders_pages_witness :
  (forall p : positive, sorts_newest_first (merge_sort createdAt_ge))
  /\ NoDup (createdAt <$> filter (status_query None) (documents Sample.fleet))
  /\ (exists r,
        getAllOrders (merge_sort createdAt_ge) None (Some 2%positive) (Some 4%positive)
          Sample.fleet = (Ok r, Sample.fleet)
        /\ total r = 6%nat /\ totalPages r = 2%nat)
  /\ mjoin ((fun p => page_orders (merge_sort createdAt_ge) None 4 Sample.fleet p)
              <$> seq 1 2)
     = merge_sort createdAt_ge (filter (status_query None) (documents Sample.fleet)).
Proof.
  assert (Hsorts : forall p : positive, sorts_newest_first (merge_sort createdAt_ge)).
  { intros _ l. split; [apply merge_sort_Permutation |].
    apply StronglySorted_merge_sort; apply _. }
  assert (Hdistinct : NoDup (createdAt <$> filter (status_query None)
                                             (documents Sample.fleet))).
  { apply (bool_decide_eq_true_1 (NoDup _)). vm_compute; reflexivity. }
  destruct (getAllOrders_pages (fun _ => merge_sort createdAt_ge) Sample.fleet None 4 Hsorts)
    as (Hpage & _ & _ & Htile).
  split; [exact Hsorts | split; [exact Hdistinct | split]].
  - destruct (Hpage 2%positive) as (r & Hrun & Htotal & Hpages & _).
    exists r. split; [exact Hrun | split].
    + rewrite Htotal. vm_compute; reflexivity.
    + rewrite Hpages. vm_compute; reflexivity.
  - exact (Htile Hdistinct).
Defined.

(** ** The statistics of a delivery person *)

Lemma length_filter_impl {A} (P Q : A -> Prop)
    `{!forall x, Decision (P x)} `{!forall x, Decision (Q x)} (l : list A) :
  (forall x, P x -> Q x) -> (length (filter P l) <= length (filter Q l))%nat.
Proof.
  intros HPQ. induction l as [|x l IH]; [done |].
  rewrite !filter_cons. destruct (decide (P x)) as [HP | HP].
  - rewrite decide_True by auto. cbn. lia.
  - destruct (decide (Q x)); cbn; lia.
Qed.

Lemma foldl_grandTotal (l : list Order) (acc : Z) :
  foldl (fun acc d => acc + grandTotal (pricing d)) acc l
  = acc + sumZ ((fun d => grandTotal (pricing d)) <$> l).
Proof.
  revert acc. induction l as [|o l IH]; intros acc; cbn; [unfold sumZ; cbn; lia |].
  rewrite IH. unfold sumZ. cbn. lia.
Qed.

Lemma bucket_of_assigned userId s (docs : list Order) :
  bucket s (filter (fun o => deliveryPerson o = Some userId) docs)
  = length (filter (fun o => deliveryPerson o = Some userId /\ status o = s) docs).
Proof.
  unfold bucket. rewrite list_filter_filter.
  apply Nat.le_antisymm; apply length_filter_impl; tauto.
Qed.

(** X12: the counters of [getDeliveryStats] are those of the orders
    currently assigned to the courier: [totalDeliveries] is their number,
    [completedDeliveries] and [cancelledDeliveries] are the DELIVERED and
    CANCELLED ones among them (so their sum is at most the total), and
    [totalRevenue] is the sum of the grand totals of the DELIVERED ones, zero
    when there is none. *)
Theorem getDeliveryStats_counters
    {number : Type} (roundedAverageHours : list Z -> number)
    today thisWeek thisMonth userId (c : gmap string Order) :
  exists s,
    getDeliveryStats roundedAverageHours today thisWeek thisMonth userId c = (Ok s, c)
    /\ totalDeliveries s
       = length (filter (fun o => deliveryPerson o = Some userId) (documents c))
    /\ completedDeliveries s
       = length (filter (fun o => deliveryPerson o = Some userId /\ status o = DELIVERED)
                   (documents c))
    /\ cancelledDeliveries s
       = length (filter (fun o => deliveryPerson o = Some userId /\ status o = CANCELLED)
                   (documents c))
    /\ (completedDeliveries s + cancelledDeliveries s <= totalDeliveries s)%nat
    /\ totalRevenue s
       = sumZ ((fun o => grandTotal (pricing o)) <$> delivered_by userId (documents c))
    /\ (completedDeliveries s = 0%nat -> totalRevenue s = 0).
Proof.
  eexists. split; [reflexivity |].
  cbn [totalDeliveries completedDeliveries cancelledDeliveries totalRevenue].
  rewrite !count_or_0_bucket, total_is_length, !bucket_of_assigned.
  set (mine := filter (fun o => deliveryPerson o = Some userId) (documents c)).
  assert (Hrev : default 0
            (head match delivered_by userId (documents c) with
                  | [] => []
                  | o :: l => [foldl (fun acc d => acc + grandTotal (pricing d)) 0 (o :: l)]
                  end)
          = sumZ ((fun o => grandTotal (pricing o)) <$> delivered_by userId (documents c))).
  { destruct (delivered_by userId (documents c)) as [|o l]; [done |].
    cbn. rewrite foldl_grandTotal. unfold sumZ. cbn. lia. }
  repeat split; [| exact Hrev |].
  - pose proof (buckets_partition mine) as Hsum.
    rewrite <- !bucket_of_assigned. fold mine. lia.
  - intros Hnone. rewrite Hrev. unfold delivered_by.
    apply nil_length_inv in Hnone. by rewrite Hnone.
Qed.

(** X13: when the three instants are ordered as the method computes them
    (a month back, then a week back, then the start of today), the windows
    nest: today's deliveries are among this week's, those among this month's,
    and those among the completed ones. *)
Theorem getDeliveryStats_windows
    {number : Type} (roundedAverageHours : list Z -> number)
    today thisWeek thisMonth userId (c : gmap string Order) s :
  thisMonth <= thisWeek ->
  thisWeek <= today ->
  (getDeliveryStats roundedAverageHours today thisWeek thisMonth userId c).1 = Ok s ->
  (todayDeliveries s <= thisWeekDeliveries s)%nat
  /\ (thisWeekDeliveries s <= thisMonthDeliveries s)%nat
  /\ (thisMonthDeliveries s <= completedDeliveries s)%nat.
Proof.
  intros Hmw Hwt [= <-]. cbn.
  rewrite count_or_0_bucket, bucket_of_assigned. unfold delivered_since.
  repeat split; apply length_filter_impl; intros o (? & ? & ?); repeat split; try done; lia.
Qed.

Lemma getDeliveryStats_windows_witness :
  exists s,
    (getDeliveryStats (fun _ => tt) 6 4 2 bob_id Sample.fleet).1 = Ok s
    /\ todayDeliveries s = 0%nat /\ thisWeekDeliveries s = 1%nat
    /\ (todayDeliveries s <= thisWeekDeliveries s)%nat
    /\ (thisWeekDeliveries s <= thisMonthDeliveries s)%nat
    /\ (thisMonthDeliveries s <= completedDeliveries s)%nat.
Proof.
  eexists. split; [reflexivity |].
  split; [vm_compute; reflexivity | split; [vm_compute; reflexivity |]].
  apply (getDeliveryStats_windows (fun _ => tt) 6 4 2 bob_id Sample.fleet);
    [lia | lia | reflexivity].
Defined.

(** ** Prices: upsert, lookup and preview *)

Lemma find_pricing_matches_key id st c p :
  pricing_matches id st c p = same_pricing_key id st c p && isActive p.
Proof.
  unfold pricing_matches, same_pricing_key, pricing_key.
  destruct (isActive p); rewrite ?andb_true_r, ?andb_false_r; [|done].
  repeat case_bool_decide; try done; congruence.
Qed.

Section Upsert.

Context (id : string) (st : ServiceType) (cg : ClothingCategory).
Context (update : Pricing -> Pricing) (inserted : Pricing).
Hypothesis update_key : forall p, pricing_key (update p) = pricing_key p.
Hypothesis inserted_key : pricing_key inserted = (id, st, cg).

(** The looked-up entry after the upsert is the written one, when the
    lookup is for the written key. *)
Lemma find_after_upsert_same (q : Pricing -> bool) l :
  (forall p, q p = true -> same_pricing_key id st cg p = true) ->
  let '(doc, l') := findOneAndUpdate_upsert (same_pricing_key id st cg) update inserted l in
  same_pricing_key id st cg doc = true
  /\ (q doc = true -> List.find q l' = Some doc)
  /\ (NoDup (pricing_key <$> l) -> q doc = false -> List.find q l' = None).
Proof.
  intros Hq. induction l as [|p l IH]; cbn.
  - assert (Hk : same_pricing_key id st cg inserted = true)
      by by apply bool_decide_eq_true.
    split; [done |]. split; intros ?; [by rewrite H | intros ->; done].
  - destruct (same_pricing_key id st cg p) eqn:Hp.
    + assert (Hk : same_pricing_key id st cg (update p) = true).
      { apply bool_decide_eq_true. rewrite update_key. by apply bool_decide_eq_true in Hp. }
      split; [done |]. cbn. split; [by intros -> |].
      intros Hnd ->. apply NoDup_cons in Hnd as [Hnotin _].
      destruct (List.find q l) as [p'|] eqn:Hfind; [|done].
      exfalso. apply find_some in Hfind as [Hin Hqp'].
      apply Hq in Hqp'. apply bool_decide_eq_true in Hqp', Hp.
      apply Hnotin. rewrite Hp, <- Hqp'. apply list_elem_of_fmap_2.
      by apply list_elem_of_In.
    + destruct (findOneAndUpdate_upsert (same_pricing_key id st cg) update inserted l)
        as [doc l'].
      destruct IH as (Hk & Hfound & Hnone). split; [done |].
      assert (Hqp : q p = false).
      { destruct (q p) eqn:Hqp; [|done]. apply Hq in Hqp. congruence. }
      cbn. rewrite Hqp. split; [done |].
      intros Hnd. apply NoDup_cons in Hnd as [_ Hnd]. auto.
Qed.

(** A lookup for another key does not see the upsert. *)
Lemma find_after_upsert_other (q : Pricing -> bool) l :
  (forall p, q p = true -> same_pricing_key id st cg p = false) ->
  List.find q (findOneAndUpdate_upsert (same_pricing_key id st cg) update inserted l).2
  = List.find q l.
Proof.
  intros Hq. induction l as [|p l IH]; cbn.
  - destruct (q inserted) eqn:Hqi; [|done].
    apply Hq in Hqi. unfold same_pricing_key in Hqi.
    by rewrite bool_decide_eq_true_2 in Hqi by exact inserted_key.
  - destruct (same_pricing_key id st cg p) eqn:Hp; cbn.
    + assert (Hk : same_pricing_key id st cg (update p) = true).
      { apply bool_decide_eq_true. rewrite update_key. by apply bool_decide_eq_true in Hp. }
      destruct (q (update p)) eqn:H1; [apply Hq in H1; congruence |].
      destruct (q p) eqn:H2; [apply Hq in H2; congruence | done].
    + destruct (findOneAndUpdate_upsert (same_pricing_key id st cg) update inserted l)
        as [doc l'].
      cbn in *. by rewrite IH.
Qed.

(** The upsert keeps the keys, in order, adding the new key at the end when
    it was absent. *)
Lemma upsert_keys l :
  pricing_key <$> (findOneAndUpdate_upsert (same_pricing_key id st cg) update inserted l).2
  = if bool_decide ((id, st, cg) ∈ pricing_key <$> l)
    then pricing_key <$> l
    else ((pricing_key <$> l) ++ [(id, st, cg)])%list.
Proof.
  induction l as [|p l IH]; cbn.
  - rewrite bool_decide_eq_false_2 by apply not_elem_of_nil. by rewrite inserted_key.
  - destruct (same_pricing_key id st cg p) eqn:Hp; cbn.
    + apply bool_decide_eq_true in Hp.
      rewrite bool_decide_eq_true_2 by (rewrite Hp; left). by rewrite update_key.
    + apply bool_decide_eq_false in Hp.
      destruct (findOneAndUpdate_upsert (same_pricing_key id st cg) update inserted l)
        as [doc l'].
      cbn in *. rewrite IH.
      destruct (bool_decide ((id, st, cg) ∈ pricing_key <$> l)) eqn:Hin.
      * apply bool_decide_eq_true in Hin.
        by rewrite bool_decide_eq_true_2 by by right.
      * apply bool_decide_eq_false in Hin.
        rewrite bool_decide_eq_false_2; [done |].
        rewrite not_elem_of_cons. split; [congruence | done].
Qed.

End Upsert.

Lemma upsert_doc matches update inserted l :
  let doc := (findOneAndUpdate_upsert matches update inserted l).1 in
  doc = inserted \/ exists p, doc = update p.
Proof.
  induction l as [|p l IH]; cbn; [by left |].
  destruct (matches p); cbn; [right; by exists p |].
  destruct (findOneAndUpdate_upsert matches update inserted l) as [doc l']. done.
Qed.

(** What [upsertPricing] returns and what it leaves in the collection. *)
Lemma upsertPricing_spec dto cat :
  let key := (pricing_dto_clothingItemId dto, pricing_dto_serviceType dto,
              pricing_dto_category dto) in
  let doc := (upsertPricing dto cat).1 in
  let cat' := (upsertPricing dto cat).2 in
  pricing_key doc = key
  /\ price doc = pricing_dto_price dto
  /\ isActive doc = default true (pricing_dto_isActive dto)
  /\ clothingItemModel cat' = clothingItemModel cat
  /\ (forall q, (forall p, q p = true -> same_pricing_key key.1.1 key.1.2 key.2 p = true) ->
        (q doc = true -> List.find q (pricingModel cat') = Some doc)
        /\ (unique_pricing_keys cat -> q doc = false -> List.find q (pricingModel cat') = None))
  /\ (forall q, (forall p, q p = true -> same_pricing_key key.1.1 key.1.2 key.2 p = false) ->
        List.find q (pricingModel cat') = List.find q (pricingModel cat))
  /\ (unique_pricing_keys cat -> unique_pricing_keys cat').
Proof.
  intros key doc cat'. subst doc cat'. unfold upsertPricing.
  set (upd := fun p => mkPricing _ _ _ _ _). set (ins := mkPricing _ _ _ _ _).
  assert (Hupd : forall p, pricing_key (upd p) = pricing_key p) by done.
  assert (Hins : pricing_key ins = key) by done.
  pose proof (upsert_doc (same_pricing_key key.1.1 key.1.2 key.2) upd ins (pricingModel cat))
    as Hdoc.
  pose proof (fun q => find_after_upsert_same key.1.1 key.1.2 key.2 upd ins Hupd Hins q
                         (pricingModel cat)) as Hsame.
  pose proof (fun q => find_after_upsert_other key.1.1 key.1.2 key.2 upd ins Hupd Hins q
                         (pricingModel cat)) as Hother.
  pose proof (upsert_keys key.1.1 key.1.2 key.2 upd ins Hupd Hins (pricingModel cat))
    as Hkeys.
  cbn [fst snd] in *. fold key in Hdoc, Hsame, Hother, Hkeys.
  destruct (findOneAndUpdate_upsert _ upd ins (pricingModel cat)) as [doc l'] eqn:Hrun.
  cbn [fst snd pricingModel clothingItemModel] in *.
  assert (Hk : same_pricing_key (pricing_dto_clothingItemId dto)
                 (pricing_dto_serviceType dto) (pricing_dto_category dto) doc = true).
  { by destruct (Hsame (fun _ => false)) as [? _]. }
  apply bool_decide_eq_true in Hk.
  split; [done |].
  split; [destruct Hdoc as [-> | [p ->]]; done |].
  split; [destruct Hdoc as [-> | [p ->]]; done |].
  split; [done |].
  split; [intros q Hq; by destruct (Hsame q Hq) as (_ & ? & ?) |].
  split; [intros q Hq; by apply Hother |].
  unfold unique_pricing_keys. cbn. rewrite Hkeys. intros Hnd.
  case_bool_decide as Hin; [done |].
  apply NoDup_app. split; [done |]. split; [|apply NoDup_singleton].
  intros k Hk1 Hk2. apply list_elem_of_singleton in Hk2. by subst.
Qed.




Section Preview.

Context (cat : Catalog).

(** The services of [svcs] that have a price for the line, with that price. *)
Let priced (line : OrderItemDto) (svcs : list ServiceType) : list (ServiceType * Z) :=
  omap (fun st =>
          match getItemPrice cat (clothingItemId line) st (dto_category line) with
          | Ok p => Some (st, p)
          | Throw _ => None
          end) svcs.

(** The two loops, with the additions in the order the code makes them. *)
Lemma preview_services_run line svcs acc sub :
  preview_services cat line svcs acc sub
  = ((acc ++ priced line svcs)%list,
     foldl (fun a sp => a + sp.2 * dto_quantity line) sub (priced line svcs)).
Proof.
  unfold priced. revert acc sub. induction svcs as [|st svcs IH]; intros acc sub; cbn.
  - by rewrite app_nil_r.
  - destruct (getItemPrice cat (clothingItemId line) st (dto_category line)) as [p|e]; cbn.
    + by rewrite IH, <- app_assoc.
    + apply IH.
Qed.

Lemma preview_items_run lines acc bd :
  exists entries,
    preview_items cat lines acc bd
    = (foldl (fun a e => a + breakdown_subtotal e) acc entries, (bd ++ entries)%list)
    /\ Forall2 (fun line e =>
                  breakdown_clothingItemId e = clothingItemId line
                  /\ breakdown_quantity e = dto_quantity line
                  /\ breakdown_services e = priced_services cat line
                  /\ breakdown_subtotal e
                     = foldl (fun a sp => a + sp.2 * dto_quantity line) 0
                         (priced_services cat line))
               lines entries.
Proof.
  revert acc bd. induction lines as [|line lines IH]; intros acc bd; cbn.
  - exists []. by rewrite app_nil_r.
  - rewrite preview_services_run. cbn.
    match goal with
    | |- context [preview_items cat lines ?a ?b] =>
      destruct (IH a b) as (entries & -> & Hall)
    end.
    exists (mkBreakdownEntry (clothingItemId line) (priced line (dto_services line))
              (dto_quantity line)
              (foldl (fun a sp => a + sp.2 * dto_quantity line) 0
                 (priced line (dto_services line)))
            :: entries).
    split.
    + by rewrite <- app_assoc.
    + constructor; [|done]. cbn. unfold priced, priced_services. by repeat split.
Qed.

(** The two loops of [createOrder], with the additions in the order the code
    makes them. *)
Lemma price_services_run line ci svcs acc up :
  price_services cat line ci svcs acc = Ok up ->
  up = foldl (fun a sp => a + sp.2) acc (priced line svcs)
  /\ length (priced line svcs) = length svcs.
Proof.
  unfold priced. revert acc. induction svcs as [|st svcs IH]; intros acc; cbn.
  - by intros [= <-].
  - destruct (getItemPrice cat (clothingItemId line) st (dto_category line)) as [p|e];
      [|discriminate].
    cbn. intros Hrest. destruct (IH _ Hrest) as [-> Hlen]. by rewrite Hlen.
Qed.

Lemma price_items_run lines acc total its t :
  price_items cat lines acc total = Ok (its, t) ->
  exists stored,
    its = (acc ++ stored)%list
    /\ t = foldl (fun a i => a + subtotal i) total stored
    /\ Forall2 (fun line i =>
                  subtotal i
                  = foldl (fun a sp => a + sp.2) 0 (priced_services cat line)
                    * dto_quantity line
                  /\ length (priced_services cat line) = length (dto_services line))
               lines stored.
Proof.
  revert acc total. induction lines as [|line rest IH]; intros acc total; cbn.
  - intros [= <- <-]. exists []. by rewrite app_nil_r.
  - destruct (getClothingItemById cat (clothingItemId line)) as [ci|e]; [|discriminate].
    destruct (price_services cat line ci (dto_services line) 0) as [up|e] eqn:Hup;
      [|discriminate].
    intros Hrest. destruct (IH _ _ Hrest) as (stored & -> & -> & Hall).
    destruct (price_services_run _ _ _ _ _ Hup) as [-> Hlen].
    eexists (_ :: stored). split; [by rewrite <- app_assoc | split; [done |]].
    constructor; [|done]. by split.
Qed.

(** For one piece the preview adds the prices themselves. *)
Lemma preview_one_piece (l : list (ServiceType * Z)) (a : Z) :
  foldl (fun a sp => a + sp.2 * 1) a l = foldl (fun a sp => a + sp.2) a l.
Proof.
  revert a. induction l as [|sp l IH]; intros a; cbn; [done |].
  by rewrite Z.mul_1_r.
Qed.

End Preview.

Lemma elem_of_priced_services cat line st p :
  (st, p) ∈ priced_services cat line <-> st ∈ dto_services line /\ resolves cat line st p.
Proof.
  unfold priced_services, resolves. rewrite list_elem_of_omap. split.
  - intros (st' & Hin & Hp).
    destruct (getItemPrice cat (clothingItemId line) st' (dto_category line)) eqn:Hg;
      [|done].
    by injection Hp as <- <-.
  - intros [Hin Hres]. exists st. by rewrite Hres.
Qed.


(** X17: on a request in which every line asks for one piece, or for one
    service at most, the preview agrees with the order: when [createOrder]
    succeeds, [calculateOrderTotal] on the same lines and catalog reports the
    [itemsTotal] of the order and, line by line, the subtotals of its items.
    On such lines the two methods make the same additions and
    multiplications; on the others the preview multiplies each price by the
    quantity before it adds, where [createOrder] adds the prices first. *)
Theorem calculateOrderTotal_agrees
    cat cfg now newId userId dto (c c' : gmap string Order) o :
  Forall (fun line => dto_quantity line = 1 \/ (length (dto_services line) <= 1)%nat)
    (dto_items dto) ->
  createOrder cat cfg now newId userId dto c = (Ok o, c') ->
  (calculateOrderTotal cat (dto_items dto)).1 = itemsTotal (pricing o)
  /\ breakdown_subtotal <$> (calculateOrderTotal cat (dto_items dto)).2
     = subtotal <$> items o.
Proof.
  intros Hshape Hrun.
  destruct (createOrder_Ok _ _ _ _ _ _ _ _ _ Hrun) as (total & Hprice & Hpricing & _).
  destruct (price_items_run _ _ _ _ _ _ Hprice) as (stored & Hitems & Htotal & Hall).
  cbn in Hitems. subst stored. rewrite Hpricing. cbn [itemsTotal].
  unfold calculateOrderTotal.
  destruct (preview_items_run cat (dto_items dto) 0 []) as (entries & -> & Hentries).
  cbn [fst snd app].
  assert (Hsame : breakdown_subtotal <$> entries = subtotal <$> items o).
  { clear -Hshape Hall Hentries. revert entries Hshape Hentries.
    induction Hall as [|line i lines its [Hsub Hlen] Hall IH]; intros entries Hshape Hentries.
    - by inversion Hentries.
    - inversion Hentries as [|? e ? es He Hes]; subst.
      inversion Hshape as [|? ? Hline Hlines]; subst.
      cbn. f_equal; [|by apply IH].
      destruct He as (_ & _ & _ & ->). rewrite Hsub.
      destruct Hline as [Hone | Hfew].
      + by rewrite Hone, preview_one_piece, Z.mul_1_r.
      + rewrite <- Hlen in Hfew.
        destruct (priced_services cat line) as [|sp [|sp' l]]; cbn in *; [| |lia].
        * by rewrite Z.mul_0_l.
        * by rewrite !Z.add_0_l. }
  split; [|done].
  rewrite Htotal, <- (foldl_fmap Z.add 0 entries breakdown_subtotal).
  by rewrite <- (foldl_fmap Z.add 0 (items o) subtotal), Hsame.
Qed.

(** Three shirts to wash and one to wash and iron: 120 and 65. *)
Lemma calculateOrderTotal_agrees_witness :
  Forall (fun line => dto_quantity line = 1 \/ (length (dto_services line) <= 1)%nat)
    (dto_items Sample.plain_dto)
  /\ (exists o c',
        createOrder Sample.catalog Sample.config 1000 order1_id
          alice_id Sample.plain_dto ∅ = (Ok o, c')
        /\ itemsTotal (pricing o) = 185
        /\ subtotal <$> items o = [120; 65])
  /\ (calculateOrderTotal Sample.catalog (dto_items Sample.plain_dto)).1 = 185
  /\ breakdown_subtotal <$> (calculateOrderTotal Sample.catalog (dto_items Sample.plain_dto)).2
     = [120; 65].
Proof.
  assert (Hshape : Forall (fun line => dto_quantity line = 1
                                       \/ (length (dto_services line) <= 1)%nat)
                     (dto_items Sample.plain_dto)).
  { constructor; [right; cbn; lia |]. constructor; [by left | constructor]. }
  destruct (createOrder Sample.catalog Sample.config 1000 order1_id
              alice_id Sample.plain_dto ∅) as [[o|e] c'] eqn:Hrun.
  - destruct (calculateOrderTotal_agrees _ _ _ _ _ _ _ _ _ Hshape Hrun) as [Htotal Hsubs].
    split; [exact Hshape | split; [|split]].
    + exists o, c'. split; [reflexivity |]. rewrite <- Htotal, <- Hsubs. by split.
    + reflexivity.
    + reflexivity.
  - vm_compute in Hrun. discriminate Hrun.
Defined.

(** ** Phone numbers *)

Lemma strip_prefix_Some p s r : strip_prefix p s = Some r <-> s = p +:+ r.
Proof.
  revert s. induction p as [|a p IH]; intros s; cbn.
  - split; [by intros [= ->] | by intros ->].
  - destruct s as [|b s]; [split; discriminate |].
    destruct (Ascii.eqb_spec a b) as [<- | Hne].
    + rewrite IH. split; [by intros -> | by intros [= ->]].
    + split; [discriminate | intros [= ? _]; done].
Qed.

Lemma is_national_shape d :
  is_national d = true ->
  exists rest, d = String digit_1 rest /\ String.length d = 10%nat.
Proof.
  destruct d as [|a [|b rest]]; cbn; try discriminate.
  intros H. repeat (apply andb_prop in H as [H ?]).
  apply Ascii.eqb_eq in H as ->. apply Nat.eqb_eq in H1.
  eexists. split; [done |]. cbn. by rewrite H1.
Qed.

(** The three spellings the pattern accepts, and their common normal form. *)
Lemma bd_phone_spelling p :
  is_bd_phone p = true ->
  exists d,
    is_national d = true
    /\ (p = "+880" +:+ d \/ p = "0" +:+ d \/ p = d)
    /\ normalizePhone p = "0" +:+ d.
Proof.
  intros Hp. unfold is_bd_phone in Hp.
  assert (Hd : exists d, is_national d = true
                 /\ (p = "+880" +:+ d \/ p = "0" +:+ d \/ p = d)).
  { destruct (strip_prefix "+880" p) as [r|] eqn:H1.
    - apply strip_prefix_Some in H1. exists r. auto.
    - destruct (strip_prefix "0" p) as [r|] eqn:H2.
      + apply strip_prefix_Some in H2. exists r. auto.
      + exists p. auto. }
  destruct Hd as (d & Hnat & Hspell). exists d. split; [done | split; [done |]].
  destruct (is_national_shape d Hnat) as (rest & -> & _).
  by destruct Hspell as [-> | [-> | ->]].
Qed.

Lemma normalizePhone_valid p : is_bd_phone p = true -> is_bd_phone (normalizePhone p) = true.
Proof.
  intros Hp. destruct (bd_phone_spelling p Hp) as (d & Hnat & _ & ->).
  destruct (is_national_shape d Hnat) as (rest & -> & _). exact Hnat.
Qed.

(** X18: a phone number that matches the pattern is written [+8801...],
    [01...] or [1...]; [normalizePhone] maps the three spellings of a national
    number to the same string, its eleven-character [01...] form, which
    matches the pattern again and is left alone by a second normalisation. *)
Theorem normalizePhone_canonical (p : string) :
  is_bd_phone p = true ->
  exists d,
    is_national d = true
    /\ (p = "+880" +:+ d \/ p = "0" +:+ d \/ p = d)
    /\ normalizePhone p = "0" +:+ d
    /\ normalizePhone ("+880" +:+ d) = "0" +:+ d
    /\ normalizePhone ("0" +:+ d) = "0" +:+ d
    /\ normalizePhone d = "0" +:+ d
    /\ is_bd_phone (normalizePhone p) = true
    /\ normalizePhone (normalizePhone p) = normalizePhone p
    /\ String.length (normalizePhone p) = 11%nat.
Proof.
  intros Hp. destruct (bd_phone_spelling p Hp) as (d & Hnat & Hspell & Hn).
  exists d. destruct (is_national_shape d Hnat) as (rest & Hd & Hlen).
  rewrite Hn. subst d.
  split; [done | split; [done | split; [done |]]].
  split; [reflexivity | split; [reflexivity | split; [reflexivity |]]].
  split; [exact Hnat | split; [reflexivity |]].
  change (S (String.length (String digit_1 rest)) = 11%nat). lia.
Qed.

Lemma normalizePhone_canonical_witness :
  is_bd_phone "+8801712345678" = true
  /\ normalizePhone "+8801712345678" = "01712345678"
  /\ normalizePhone "1712345678" = "01712345678"
  /\ is_bd_phone (normalizePhone "+8801712345678") = true.
Proof.
  assert (Hp : is_bd_phone "+8801712345678" = true) by reflexivity.
  destruct (normalizePhone_canonical "+8801712345678" Hp)
    as (d & _ & _ & _ & _ & _ & _ & Hok & _).
  split; [exact Hp | split; [reflexivity | split; [reflexivity | exact Hok]]].
Defined.

(** ** One-time passwords *)

Section UpdateFirst.

Context (matches : UserDocument -> bool) (update : UserDocument -> UserDocument).

Lemma find_update_first users :
  (forall d, matches (update d) = matches d) ->
  List.find matches (update_first matches update users) = update <$> List.find matches users.
Proof.
  intros Hm. induction users as [|d users IH]; [done |]. cbn.
  destruct (matches d) eqn:Hd; cbn; [by rewrite Hm, Hd | by rewrite Hd].
Qed.

Lemma fmap_update_first {B} (f : UserDocument -> B) users :
  (forall d, matches d = true -> f (update d) = f d) ->
  f <$> update_first matches update users = f <$> users.
Proof.
  intros Hf. induction users as [|d users IH]; [done |]. cbn.
  destruct (matches d) eqn:Hd; cbn; [by rewrite Hf | by rewrite IH].
Qed.

Lemma Forall_update_first (P : UserDocument -> Prop) users :
  (forall d, matches d = true -> P d -> P (update d)) ->
  Forall P users -> Forall P (update_first matches update users).
Proof.
  intros HP. induction 1 as [|d users Hd Hall IH]; [constructor |]. cbn.
  destruct (matches d) eqn:Hm; constructor; auto.
Qed.

(** A lookup by another predicate sees the update only at the updated
    document. *)
Lemma find_update_first_at (q : UserDocument -> bool) users u :
  List.find q users = Some u ->
  (forall d, d ∈ users -> matches d = true -> d = u) ->
  matches u = true ->
  q (update u) = true ->
  List.find q (update_first matches update users) = Some (update u).
Proof.
  intros Hfind Honly Hmu Hqu. induction users as [|d users IH]; [done |].
  cbn in *. destruct (q d) eqn:Hqd.
  - injection Hfind as ->. by rewrite Hmu; cbn; rewrite Hqu.
  - destruct (matches d) eqn:Hmd.
    + assert (d = u) by (apply Honly; [left | done]). subst d.
      cbn. by rewrite Hqu.
    + cbn. rewrite Hqd. apply IH; [done |]. intros d' Hd'. apply Honly. by right.
Qed.

End UpdateFirst.

Lemma find_elem_of {A} (f : A -> bool) l x :
  List.find f l = Some x -> x ∈ l /\ f x = true.
Proof. intros H. apply find_some in H as [Hin Hf]. by rewrite list_elem_of_In. Qed.

(** With distinct [_id]s, the [_id] of a stored document finds it. *)
Lemma id_is_key users u d :
  NoDup (user_ids users) -> u ∈ users -> d ∈ users ->
  user_id (account d) = user_id (account u) -> d = u.
Proof.
  unfold user_ids. induction users as [|x users IH]; cbn; [by intros _ ?%elem_of_nil |].
  rewrite NoDup_cons, !elem_of_cons. intros [Hx Hnd] [-> | Hu] [-> | Hd] Hid.
  - done.
  - exfalso. apply Hx. rewrite <- Hid. apply list_elem_of_fmap. by exists d.
  - exfalso. apply Hx. rewrite Hid. apply list_elem_of_fmap. by exists u.
  - by apply IH.
Qed.

(** After [saveOtp] the phone number has a document that carries the code
    and its expiry; an existing document keeps its account data. *)
Lemma saveOtp_found newId phone code expiry users :
  exists d,
    findByPhone phone (saveOtp newId phone code expiry users) = Some d
    /\ phoneNumber (account d) = phone
    /\ otpCode d = Some code /\ otpExpiry d = Some expiry
    /\ match findByPhone phone users with
       | Some d0 => account d = account d0 /\ user_address d = user_address d0
       | None => account d = mkUser newId "New User" phone CUSTOMER false
                 /\ user_address d = ""
       end.
Proof.
  unfold saveOtp, findByPhone.
  destruct (List.find _ users) as [d0|] eqn:Hfind.
  - rewrite find_update_first by done. rewrite Hfind. cbn.
    apply find_elem_of in Hfind as [_ Hp]. apply bool_decide_eq_true in Hp.
    eexists. split; [done |]. by cbn.
  - eexists. split.
    + induction users as [|x users IH]; cbn in *.
      * by rewrite bool_decide_eq_true_2.
      * destruct (bool_decide _); [discriminate | by apply IH].
    + by cbn.
Qed.

Lemma saveOtp_users_ok newId phone code expiry users :
  users_ok users -> newId ∉ user_ids users -> is_bd_phone phone = true ->
  users_ok (saveOtp newId phone code expiry users).
Proof.
  intros [Hvalid Hnd] Hfresh Hphone. unfold saveOtp, users_ok, user_ids.
  destruct (findByPhone phone users) as [d0|].
  - split; [by apply Forall_update_first | by rewrite fmap_update_first].
  - split.
    + apply Forall_app. split; [done |]. constructor; [|constructor].
      unfold validate_User. cbn. by rewrite Hphone.
    + rewrite fmap_app. cbn. apply NoDup_app. split; [done |].
      split; [|apply NoDup_singleton].
      intros x Hx ->%list_elem_of_singleton. done.
Qed.

Lemma find_by_own_id users d :
  NoDup (user_ids users) -> d ∈ users ->
  users_findById (user_id (account d)) users = Some d.
Proof.
  intros Hnd Hd. unfold users_findById.
  destruct (List.find _ users) as [x|] eqn:Hfind.
  - apply find_elem_of in Hfind as [Hx Hid]. apply bool_decide_eq_true in Hid.
    f_equal. by apply (id_is_key users d x).
  - exfalso. apply list_elem_of_In in Hd.
    pose proof (find_none _ _ Hfind d Hd) as Hno. cbn in Hno.
    by rewrite bool_decide_eq_true_2 in Hno.
Qed.

(** What a verification with the right code, in time, does. *)
Lemma users_verifyOtp_accepts now phone code users d :
  users_ok users ->
  findByPhone phone users = Some d ->
  otpCode d = Some code ->
  (forall expiry, otpExpiry d = Some expiry -> now <= expiry) ->
  exists users',
    users_verifyOtp now phone code users = (Ok (Some (verified_user d)), users')
    /\ findByPhone phone users' = Some (verified_user d)
    /\ users_findById (user_id (account d)) users' = Some (verified_user d)
    /\ users_ok users'.
Proof.
  intros [Hvalid Hnd] Hfind Hcode Hexp.
  destruct (find_elem_of _ _ _ Hfind) as [Hd Hphone]. apply bool_decide_eq_true in Hphone.
  assert (Hdv : validate_User (verified_user d) = true).
  { rewrite Forall_forall in Hvalid. by apply (Hvalid d). }
  assert (Honly : forall d', d' ∈ users ->
            bool_decide (user_id (account d') = user_id (account (verified_user d))) = true ->
            d' = d).
  { intros d' Hd' Hid. apply bool_decide_eq_true in Hid. by apply (id_is_key users). }
  unfold users_verifyOtp. rewrite Hfind, Hcode.
  rewrite bool_decide_eq_false_2 by (intros H; by apply H).
  assert (Hnot : from_option (fun expiry => bool_decide (expiry < now)) false (otpExpiry d)
                 = false).
  { destruct (otpExpiry d) as [e|] eqn:He; [|done]. cbn.
    apply bool_decide_eq_false. specialize (Hexp e eq_refl). lia. }
  rewrite Hnot. fold (verified_user d). unfold save_user. rewrite Hdv.
  eexists. split; [reflexivity |]. split; [|split; [|split]].
  - apply (find_update_first_at _ (fun _ => verified_user d) _ users d Hfind Honly).
    + by rewrite bool_decide_eq_true_2.
    + by rewrite bool_decide_eq_true_2.
  - apply (find_update_first_at _ (fun _ => verified_user d) _ users d
             (find_by_own_id users d Hnd Hd) Honly).
    + by rewrite bool_decide_eq_true_2.
    + by rewrite bool_decide_eq_true_2.
  - apply Forall_update_first; [|done]. by intros.
  - unfold user_ids. rewrite fmap_update_first; [done |].
    intros d' Hid. apply bool_decide_eq_true in Hid. by rewrite Hid.
Qed.

(** X19: a code stored by [saveOtp] verifies once.  With the code, not
    after the expiry, [verifyOtp] returns the user of the phone number, now
    verified, with the code cleared; the account keeps its [_id], name and
    role.  From then on every code but the empty string is refused, without
    a write. *)
Theorem otp_verifies_once newId phone code expiry now users :
  users_ok users ->
  newId ∉ user_ids users ->
  is_bd_phone phone = true ->
  now <= expiry ->
  exists u users',
    users_verifyOtp now phone code (saveOtp newId phone code expiry users)
      = (Ok (Some u), users')
    /\ phoneNumber (account u) = phone
    /\ isVerified (account u) = true
    /\ otpCode u = Some "" /\ otpExpiry u = None
    /\ (forall d, findByPhone phone users = Some d ->
          user_id (account u) = user_id (account d)
          /\ fullName (account u) = fullName (account d)
          /\ role (account u) = role (account d))
    /\ (findByPhone phone users = None ->
          user_id (account u) = newId /\ role (account u) = CUSTOMER)
    /\ findByPhone phone users' = Some u
    /\ users_ok users'
    /\ (forall now' code', code' <> "" ->
          users_verifyOtp now' phone code' users' = (Ok None, users')).
Proof.
  intros Hok Hfresh Hphone Hnow.
  destruct (saveOtp_found newId phone code expiry users) as (d & Hfind & Hp & Hc & He & Hacc).
  destruct (users_verifyOtp_accepts now phone code _ d
              (saveOtp_users_ok _ _ _ _ _ Hok Hfresh Hphone) Hfind Hc)
    as (users' & Hrun & Hfind' & _ & Hok').
  { intros e. rewrite He. intros [= <-]. done. }
  exists (verified_user d), users'.
  split; [done |]. split; [done |]. split; [done |]. split; [done |]. split; [done |].
  split; [|split; [|split; [done | split; [done |]]]].
  - intros d0 Hd0. rewrite Hd0 in Hacc. destruct Hacc as [Ha _]. cbn. by rewrite Ha.
  - intros Hnone. rewrite Hnone in Hacc. destruct Hacc as [Ha _]. cbn. by rewrite Ha.
  - intros now' code' Hne. unfold users_verifyOtp. rewrite Hfind'. cbn.
    rewrite bool_decide_eq_true_2; [done |]. congruence.
Qed.

Lemma otp_verifies_once_witness :
  users_ok Demo.accounts
  /\ exists u users',
       users_verifyOtp 2000 "01711111111" "787800"
         (saveOtp newcomer_id "01711111111" "787800" 3000 Demo.accounts)
       = (Ok (Some u), users')
       /\ user_id (account u) = alice_id
       /\ isVerified (account u) = true
       /\ users_verifyOtp 2500 "01711111111" "787800" users' = (Ok None, users').
Proof.
  assert (Hok : users_ok Demo.accounts).
  { split; [by repeat constructor |]. apply NoDup_singleton. }
  split; [exact Hok |].
  destruct (otp_verifies_once newcomer_id "01711111111" "787800" 3000 2000 Demo.accounts Hok)
    as (u & users' & Hrun & _ & Hv & _ & _ & Hsame & _ & _ & _ & Honce).
  - unfold user_ids. cbn. rewrite list_elem_of_singleton. discriminate.
  - reflexivity.
  - lia.
  - exists u, users'. split; [exact Hrun |]. split; [|split; [exact Hv |]].
    + by destruct (Hsame _ eq_refl) as [-> _].
    + apply Honce. discriminate.
Defined.

(** X20: [verifyOtp] returns [null] and writes nothing when the phone number
    has no document, when the code is not the stored one (also when no code
    was ever stored), and when the stored expiry has passed. *)
Theorem otp_refused now phone code users :
  (findByPhone phone users = None ->
   users_verifyOtp now phone code users = (Ok None, users))
  /\ (forall d, findByPhone phone users = Some d -> otpCode d <> Some code ->
        users_verifyOtp now phone code users = (Ok None, users))
  /\ (forall d expiry, findByPhone phone users = Some d ->
        otpExpiry d = Some expiry -> expiry < now ->
        users_verifyOtp now phone code users = (Ok None, users))
  /\ (forall newId code' expiry,
        (code' <> code \/ expiry < now) ->
        users_verifyOtp now phone code (saveOtp newId phone code' expiry users)
        = (Ok None, saveOtp newId phone code' expiry users)).
Proof.
  assert (H1 : forall us d, findByPhone phone us = Some d -> otpCode d <> Some code ->
                 users_verifyOtp now phone code us = (Ok None, us)).
  { intros us d Hd Hc. unfold users_verifyOtp. rewrite Hd.
    by rewrite bool_decide_eq_true_2. }
  assert (H2 : forall us d expiry, findByPhone phone us = Some d ->
                 otpExpiry d = Some expiry -> expiry < now ->
                 users_verifyOtp now phone code us = (Ok None, us)).
  { intros us d expiry Hd He Hlate. unfold users_verifyOtp. rewrite Hd, He. cbn.
    rewrite (bool_decide_eq_true_2 (expiry < now)) by done.
    by destruct (bool_decide _). }
  split; [|split; [by apply H1 | split; [by apply H2 |]]].
  - intros Hnone. unfold users_verifyOtp. by rewrite Hnone.
  - intros newId code' expiry Hbad.
    destruct (saveOtp_found newId phone code' expiry users) as (d & Hfind & _ & Hc & He & _).
    destruct Hbad as [Hne | Hlate].
    + apply (H1 _ d Hfind). rewrite Hc. congruence.
    + by apply (H2 _ d expiry Hfind He).
Qed.

(** ** Logging in *)

(** X21: the login flow works end to end.  After [requestOtp] for a phone
    number that matches the pattern, [verifyOtp] with any spelling of that
    number and the generated code, before the expiry, returns a token for the
    user of the normalised number, and [JwtStrategy.validate] accepts that
    token and returns the same, verified, user.  Outside production the code
    is the fixed one and is part of the response. *)
Theorem login_flow cfg random now now' newId dtoPhone dtoPhone' users :
  users_ok users ->
  newId ∉ user_ids users ->
  is_bd_phone dtoPhone = true ->
  normalizePhone dtoPhone' = normalizePhone dtoPhone ->
  now' <= now + default 5 (OTP_EXPIRY_MINUTES cfg) * 60 * 1000 ->
  exists r users',
    verifyOtp now' dtoPhone' (generateOtp cfg random)
      (requestOtp cfg random now newId dtoPhone users).2 = (Returned r, users')
    /\ validate (accessToken r) users' = Returned (user r)
    /\ isVerified (account (user r)) = true
    /\ sub (accessToken r) = user_id (account (user r))
    /\ phone (accessToken r) = normalizePhone dtoPhone
    /\ jwt_role (accessToken r) = role (account (user r))
    /\ (findByPhone (normalizePhone dtoPhone) users = None ->
          user_id (account (user r)) = newId /\ isNewUser r = true)
    /\ (production cfg = false ->
          otp (requestOtp cfg random now newId dtoPhone users).1 = Some "787800"
          /\ generateOtp cfg random = "787800").
Proof.
  intros Hok Hfresh Hphone Hsame Hnow.
  unfold requestOtp, verifyOtp. cbn [fst snd]. rewrite Hsame.
  destruct (saveOtp_found newId (normalizePhone dtoPhone) (generateOtp cfg random)
              (now + default 5 (OTP_EXPIRY_MINUTES cfg) * 60 * 1000) users)
    as (d & Hfind & Hp & Hc & He & Hacc).
  destruct (users_verifyOtp_accepts now' (normalizePhone dtoPhone) (generateOtp cfg random)
              _ d
              (saveOtp_users_ok _ _ _ _ _ Hok Hfresh (normalizePhone_valid _ Hphone))
              Hfind Hc)
    as (users' & Hrun & _ & Hbyid & _).
  { intros e. rewrite He. by intros [= <-]. }
  rewrite Hrun. eexists _, users'. split; [reflexivity |]. cbn.
  split; [|split; [done | split; [done | split; [done | split; [done | split]]]]].
  - unfold validate. cbn. by rewrite Hbyid.
  - intros Hnone. rewrite Hnone in Hacc. destruct Hacc as [-> ->]. done.
  - intros Hdev. unfold generateOtp. by rewrite Hdev.
Qed.

Lemma login_flow_witness :
  users_ok Demo.accounts
  /\ exists r users',
       verifyOtp 2000 "1799999999" "787800"
         (requestOtp (mkAuthConfig false None) "123456" 1000 newcomer_id "+8801799999999"
            Demo.accounts).2 = (Returned r, users')
       /\ validate (accessToken r) users' = Returned (user r)
       /\ user_id (account (user r)) = newcomer_id
       /\ isNewUser r = true.
Proof.
  assert (Hok : users_ok Demo.accounts).
  { split; [by repeat constructor |]. apply NoDup_singleton. }
  split; [exact Hok |].
  destruct (login_flow (mkAuthConfig false None) "123456" 1000 2000 newcomer_id
              "+8801799999999" "1799999999" Demo.accounts Hok)
    as (r & users' & Hrun & Hval & _ & _ & _ & _ & Hnew & _).
  - unfold user_ids. cbn. rewrite list_elem_of_singleton. discriminate.
  - reflexivity.
  - reflexivity.
  - cbn. lia.
  - exists r, users'. split; [exact Hrun | split; [exact Hval |]].
    by apply Hnew.
Defined.

Lemma find_by_id_app_fresh users d :
  user_id (account d) ∉ user_ids users ->
  users_findById (user_id (account d)) (users ++ [d]) = Some d.
Proof.
  unfold users_findById, user_ids. induction users as [|x users IH]; cbn.
  - intros _. by rewrite bool_decide_eq_true_2.
  - rewrite not_elem_of_cons. intros [Hne Hfresh].
    rewrite bool_decide_eq_false_2 by congruence. by apply IH.
Qed.

(** X22: a user that exists only because a code was requested cannot
    authenticate: for a phone number without account, [requestOtp] creates
    an unverified customer, and [JwtStrategy.validate] throws "User not
    verified" for every token that names it; a token that names no stored
    user is refused with "User not found". *)
Theorem unverified_user_rejected cfg random now newId dtoPhone users :
  newId ∉ user_ids users ->
  findByPhone (normalizePhone dtoPhone) users = None ->
  let users' := (requestOtp cfg random now newId dtoPhone users).2 in
  (exists d,
      users_findById newId users' = Some d
      /\ isVerified (account d) = false
      /\ role (account d) = CUSTOMER
      /\ phoneNumber (account d) = normalizePhone dtoPhone)
  /\ (forall payload, sub payload = newId ->
        validate payload users' = Thrown (UnauthorizedException "User not verified"))
  /\ (forall payload, sub payload ∉ user_ids users' ->
        validate payload users' = Thrown (UnauthorizedException "User not found")).
Proof.
  intros Hfresh Hnone users'. subst users'. unfold requestOtp, saveOtp. cbn [snd].
  rewrite Hnone.
  set (d := mkUserDocument _ _ _ _).
  assert (Hd : users_findById newId (users ++ [d]) = Some d)
    by by apply (find_by_id_app_fresh users d).
  split; [by exists d | split].
  - intros payload Hsub. unfold validate. by rewrite Hsub, Hd.
  - intros payload Hsub. unfold validate, users_findById.
    destruct (List.find _ _) as [x|] eqn:Hfind; [|done].
    exfalso. apply find_elem_of in Hfind as [Hx Hid]. apply bool_decide_eq_true in Hid.
    apply Hsub. rewrite <- Hid. unfold user_ids. apply list_elem_of_fmap. by exists x.
Qed.

Lemma unverified_user_rejected_witness :
  (newcomer_id ∉ user_ids Demo.accounts)
  /\ findByPhone (normalizePhone "+8801799999999") Demo.accounts = None
  /\ validate (mkJwtPayload newcomer_id "01799999999" CUSTOMER)
       (requestOtp (mkAuthConfig false None) "123456" 1000 newcomer_id "+8801799999999"
          Demo.accounts).2
     = Thrown (UnauthorizedException "User not verified").
Proof.
  assert (Hfresh : newcomer_id ∉ user_ids Demo.accounts).
  { unfold user_ids. cbn. rewrite list_elem_of_singleton. discriminate. }
  assert (Hnone : findByPhone (normalizePhone "+8801799999999") Demo.accounts = None)
    by reflexivity.
  split; [exact Hfresh | split; [exact Hnone |]].
  destruct (unverified_user_rejected (mkAuthConfig false None) "123456" 1000 newcomer_id
              "+8801799999999" Demo.accounts Hfresh Hnone) as (_ & Hreject & _).
  by apply Hreject.
Defined.

(** ** Locality of the writes *)

Lemma step_inserts c c' : step c c' -> c' = c \/ exists id o, c' = <[id := o]> c.
Proof.
  destruct 1 as [cat cfg now newId userId dto [o1|e] c' Hrun
                |now orderId dto user [o1|e] c' Hrun
                |users now orderId dto [o1|e] c' Hrun].
  - right. destruct (createOrder_Ok _ _ _ _ _ _ _ _ _ Hrun) as (_ & _ & _ & _ & _ & _ & _ & _ & _ & ->).
    eauto.
  - left. by eapply createOrder_Throw.
  - right. destruct (updateOrderStatus_Ok _ _ _ _ _ _ _ Hrun) as (o & _ & _ & _ & ->). eauto.
  - left. by eapply updateOrderStatus_Throw.
  - right. destruct (assignDeliveryPerson_Ok _ _ _ _ _ _ _ Hrun) as (o & _ & _ & _ & ->). eauto.
  - left. by eapply assignDeliveryPerson_Throw.
Qed.

(** X23: a service call writes at most one document and deletes none: all
    orders but one are stored as before, every stored [_id] stays stored, and
    the collection grows by at most one order. *)
Theorem service_call_touches_one_order (c c' : gmap string Order) :
  step c c' ->
  (exists id, forall id', id' <> id -> c' !! id' = c !! id')
  /\ (forall id, is_Some (c !! id) -> is_Some (c' !! id))
  /\ (size c <= size c')%nat
  /\ (size c' <= S (size c))%nat.
Proof.
  intros Hstep. destruct (step_inserts c c' Hstep) as [-> | (id & o & ->)].
  - split; [by exists "" | split; [done | lia]].
  - split; [|split; [|split]].
    + exists id. intros id' Hne. by rewrite lookup_insert_ne.
    + intros id' Hsome. rewrite lookup_insert. by case_decide.
    + rewrite map_size_insert. destruct (c !! id); cbn; lia.
    + rewrite map_size_insert. destruct (c !! id); cbn; lia.
Qed.

Lemma service_call_touches_one_order_witness :
  step Sample.db1 Demo.db2
  /\ size Demo.db2 = size Sample.db1
  /\ (size Sample.db1 <= size Demo.db2)%nat.
Proof.
  assert (Hstep : step Sample.db1 Demo.db2) by apply step_assign.
  split; [exact Hstep | split; [vm_compute; reflexivity |]].
  by destruct (service_call_touches_one_order Sample.db1 Demo.db2 Hstep) as (_ & _ & ? & _).
Defined.

(** ** The dashboard *)

(** X24: the daily figures of [getOrderStats] are those of the orders
    created since the start of the day: [todayOrders] is their number, at
    most [totalOrders], and [todayRevenue] is the sum of their grand totals,
    zero when there is none. *)
Theorem getOrderStats_today today (c : gmap string Order) :
  exists s,
    getOrderStats today c = (Ok s, c)
    /\ todayOrders s = length (filter (fun o => today <= createdAt o) (documents c))
    /\ todayRevenue s
       = sumZ ((fun o => grandTotal (pricing o))
                 <$> filter (fun o => today <= createdAt o) (documents c))
    /\ (todayOrders s <= totalOrders s)%nat
    /\ (todayOrders s = 0%nat -> todayRevenue s = 0).
Proof.
  eexists. split; [reflexivity |].
  cbn [todayOrders todayRevenue totalOrders]. rewrite total_is_length.
  unfold today_aggregate.
  pose proof (length_filter (fun o => today <= createdAt o) (documents c)) as Hle.
  destruct (filter (fun o => today <= createdAt o) (documents c)) as [|o l] eqn:Hf.
  - cbn in *. repeat split; first [lia | done].
  - cbn [head fmap option_fmap option_map default from_option fst snd id].
    rewrite foldl_grandTotal. cbn [length] in *.
    repeat split; first [lia | done | discriminate].
Qed.

Lemma filter_status_query_None (l : list Order) : filter (status_query None) l = l.
Proof.
  induction l as [|o l IH]; [done |].
  rewrite filter_cons, decide_True by done. by rewrite IH.
Qed.

Lemma length_status_query_Some s (l : list Order) :
  length (filter (status_query (Some s)) l) = bucket s l.
Proof. unfold bucket. apply Nat.le_antisymm; by apply length_filter_impl. Qed.

(** X25: the dashboard and the paginated listing count alike: without a
    status filter [getAllOrders] reports [totalOrders] as [total], and with
    the filter REQUESTED, DELIVERED or CANCELLED it reports [pendingOrders],
    [completedOrders] or [cancelledOrders]. *)
Theorem getAllOrders_total_agrees sort today pageArg limitArg (c : gmap string Order) :
  exists s,
    getOrderStats today c = (Ok s, c)
    /\ (exists r, getAllOrders sort None pageArg limitArg c = (Ok r, c)
                  /\ total r = totalOrders s)
    /\ (exists r, getAllOrders sort (Some REQUESTED) pageArg limitArg c = (Ok r, c)
                  /\ total r = pendingOrders s)
    /\ (exists r, getAllOrders sort (Some DELIVERED) pageArg limitArg c = (Ok r, c)
                  /\ total r = completedOrders s)
    /\ (exists r, getAllOrders sort (Some CANCELLED) pageArg limitArg c = (Ok r, c)
                  /\ total r = cancelledOrders s).
Proof.
  eexists. split; [reflexivity |].
  cbn [totalOrders pendingOrders completedOrders cancelledOrders].
  rewrite !count_or_0_bucket, total_is_length.
  repeat split; (eexists; split; [reflexivity |]); cbn [total];
    first [ by rewrite filter_status_query_None | apply length_status_query_Some ].
Qed.

(** ** Requests that are accepted *)

Lemma price_services_accepts cat line ci svcs acc :
  Forall (fun st => exists p, resolves cat line st p /\ 0 <= p) svcs ->
  0 <= acc ->
  exists up, price_services cat line ci svcs acc = Ok up /\ 0 <= up.
Proof.
  intros Hall. revert acc. induction Hall as [|st svcs (p & Hp & Hpos) Hall IH]; intros acc Hacc.
  - by exists acc.
  - cbn. unfold resolves in Hp. rewrite Hp. apply IH. lia.
Qed.

Lemma price_items_accepts cat lines acc total :
  Forall (acceptable cat) lines ->
  forallb validate_OrderItem acc = true ->
  0 <= total ->
  exists its t,
    price_items cat lines acc total = Ok (its, t)
    /\ forallb validate_OrderItem its = true /\ 0 <= t.
Proof.
  intros Hall. revert acc total.
  induction Hall as [|line lines ((ci & Hci & Hname) & Hq & Hsvcs) Hall IH];
    intros acc total Hacc Htotal.
  - by exists acc, total.
  - cbn. unfold getClothingItemById, Model_findById. rewrite Hci.
    destruct (price_services_accepts cat line ci (dto_services line) 0 Hsvcs) as (up & -> & Hup);
      [done |].
    apply IH; [|nia].
    rewrite forallb_app, Hacc. cbn. unfold validate_OrderItem. cbn.
    apply String.eqb_neq in Hname. rewrite Hname. cbn.
    rewrite !(proj2 (Z.leb_le _ _)); [done | nia | done | done].
Qed.

(** X26: a request the catalog can price is accepted: when every line is
    [acceptable], the addresses are not empty, the delivery charge is not
    negative and the [_id] is free, [createOrder] stores the order and
    returns it. *)
Theorem createOrder_accepts cat cfg now newId userId dto (c : gmap string Order) :
  Forall (acceptable cat) (dto_items dto) ->
  fullAddress (dto_pickupAddress dto) <> "" ->
  (forall a, dto_deliveryAddress dto = Some a -> fullAddress a <> "") ->
  0 <= config_deliveryCharge cfg ->
  c !! newId = None ->
  exists o,
    createOrder cat cfg now newId userId dto c = (Ok o, <[newId := o]> c)
    /\ length (items o) = length (dto_items dto).
Proof.
  intros Hlines Hpick Hdeliv Hcharge Hfree.
  destruct (price_items_accepts cat (dto_items dto) [] 0 Hlines) as (its & t & Hprice & Hits & Ht);
    [done | done |].
  rewrite createOrder_unfold, Hprice. unfold save_new, validate_Order. cbn.
  rewrite Hits, Hfree. unfold validate_OrderPricing, validate_OrderAddress. cbn.
  rewrite !(proj2 (Z.leb_le _ _)) by lia.
  apply String.eqb_neq in Hpick. rewrite Hpick.
  assert (Hd : (fullAddress (default (dto_pickupAddress dto) (dto_deliveryAddress dto)) =? "")%string
                = false).
  { destruct (dto_deliveryAddress dto) as [a|] eqn:Ha; cbn; [|done].
    apply String.eqb_neq. by apply Hdeliv. }
  rewrite Hd. cbn. eexists. split; [reflexivity |]. cbn.
  destruct (price_items_Ok _ _ _ _ _ _ Hprice) as (priced & -> & Hall & _).
  cbn. symmetry. by eapply Forall2_length.
Qed.

Lemma createOrder_accepts_witness :
  Forall (acceptable Sample.catalog) (dto_items Sample.dto)
  /\ exists o,
       createOrder Sample.catalog Sample.config 1000 order2_id alice_id Sample.dto
         Sample.db1 = (Ok o, <[order2_id := o]> Sample.db1)
       /\ length (items o) = 1%nat.
Proof.
  assert (Hlines : Forall (acceptable Sample.catalog) (dto_items Sample.dto)).
  { constructor; [|constructor]. split; [|split].
    - exists Sample.shirt. split; [reflexivity | discriminate].
    - cbn. lia.
    - constructor; [exists 40; split; [reflexivity | lia] |].
      constructor; [exists 25; split; [reflexivity | lia] | constructor]. }
  split; [exact Hlines |].
  apply (createOrder_accepts Sample.catalog Sample.config 1000 order2_id alice_id
           Sample.dto Sample.db1 Hlines).
  - discriminate.
  - discriminate.
  - cbn. lia.
  - reflexivity.
Defined.

(** ** Ids that name no order *)


